(** * osm-house-generator: the Overpass client and the houses log

    A shallow embedding of [src/main.py]: the bounded-retry request method of
    [OSMAPIClient], the per-element parser of [get_residential_buildings],
    the deduplicating, append-only log kept by [HousesManager], the storing
    loop of [HouseOSMGenerator.generate_houses] and the menu loop of
    [UIManager.run].

    Conventions.
    - A Python [str] is a [string] holding its UTF-8 bytes.  Every string
      operation used by the program ([replace] of an ASCII character, [split]
      on an ASCII separator, [join], emptiness, equality) commutes with that
      encoding.
    - Python exceptions are values of [exn]; a computation that may raise
      returns a [result].
    - What the outside world decides (the HTTP service, the clock, how much
      of a write the disk accepts) is an explicit argument of the operation
      that consults it.
    - [time.sleep] and the requests actually sent are recorded in a list of
      [event]s; logging calls are not modelled. *)

From Stdlib Require Import ZArith Ascii String List Floats.SpecFloat Lia.
From stdpp Require Import base strings gmap list pretty.

Local Open Scope string_scope.
Local Open Scope list_scope.
Local Open Scope Z_scope.

(** ** Python values and exceptions *)

(** The values [json.loads] can produce, which are also the values stored in
    the dictionaries passed around by the program. *)
#[warnings="-register-all"]
Inductive pyval : Type :=
| PNone
| PBool (b : bool)
| PInt (z : Z)
| PFloat (f : spec_float)
| PStr (s : string)
| PList (l : list pyval)
| PDict (d : list (string * pyval)).

(** A [dict] with string keys, in insertion order; lookup takes the first
    binding of a key. *)
Abbreviation pydict := (list (string * pyval)).

(** The exception classes that occur.  [HTTPError], [Timeout],
    [ConnectionError] and [RequestException] itself are the classes of
    [requests.exceptions]; [KeyboardInterrupt] and [SystemExit] derive from
    [BaseException] but not from [Exception]. *)
Inductive exn : Type :=
| RequestException | HTTPError | Timeout | ConnectionError
| KeyError | TypeError | ValueError | AttributeError | OverflowError | OSError
| KeyboardInterrupt | SystemExit.

(** [isinstance(e, requests.exceptions.RequestException)] *)
Definition is_RequestException (e : exn) : bool :=
  match e with
  | RequestException | HTTPError | Timeout | ConnectionError => true
  | _ => false
  end.

(** [isinstance(e, Exception)] *)
Definition is_Exception (e : exn) : bool :=
  match e with
  | KeyboardInterrupt | SystemExit => false
  | _ => true
  end.

Inductive result (A : Type) : Type :=
| Ok (a : A)
| Raise (e : exn).
Arguments Ok {A} a.
Arguments Raise {A} e.

#[global] Instance result_ret : MRet result := fun A a => Ok a.
#[global] Instance result_bind : MBind result := fun A B k m =>
  match m with
  | Ok a => k a
  | Raise e => Raise e
  end.

(** [bool(v)] *)
Definition truthy (v : pyval) : bool :=
  match v with
  | PNone => false
  | PBool b => b
  | PInt z => negb (z =? 0)
  | PFloat (S754_zero _) => false
  | PFloat _ => true
  | PStr s => negb (String.eqb s "")
  | PList l => match l with [] => false | _ => true end
  | PDict d => match d with [] => false | _ => true end
  end.

Fixpoint dict_lookup (k : string) (d : pydict) : option pyval :=
  match d with
  | [] => None
  | (k', v) :: d' => if String.eqb k k' then Some v else dict_lookup k d'
  end.

(** [k in d] for a dict [d] *)
Definition dict_mem (k : string) (d : pydict) : bool :=
  match dict_lookup k d with Some _ => true | None => false end.

(** [d.get(k, default)] for a dict [d] *)
Definition dict_get (k : string) (default : pyval) (d : pydict) : pyval :=
  match dict_lookup k d with Some v => v | None => default end.

(** [d[k]] for a dict [d] *)
Definition dict_item (k : string) (d : pydict) : result pyval :=
  match dict_lookup k d with Some v => Ok v | None => Raise KeyError end.

(** ** The HTTP session *)

Record Response : Type := {
  status_code : Z;
  (** what [response.json()] does: the decoded body, or the exception raised
      when the body is not JSON *)
  json : result pyval
}.

(** [Response.raise_for_status] of the requests library: [HTTPError] for every
    4xx and 5xx status, nothing otherwise. *)
Definition raise_for_status (r : Response) : result unit :=
  if (400 <=? status_code r) && (status_code r <? 600)
  then Raise HTTPError else Ok tt.

Inductive request : Type :=
| POST (url : string) (data : string)
| GET (url : string) (params : option pydict).

(** The remote end as seen by one call of [_make_request]: what
    [session.post] or [session.get] does for the request on the given
    iteration of the retry loop. *)
Definition session : Type := nat -> request -> result Response.

Inductive event : Type :=
| Sent (attempt : nat)        (** one [session.post]/[session.get] *)
| Slept (seconds : Z).        (** one [time.sleep] *)

(** ** OSMAPIClient *)

Module Config.
Definition OVERPASS_URL := "https://overpass-api.de/api/interpreter".
Definition NOMINATIM_URL := "https://nominatim.openstreetmap.org/reverse".
Definition OUTPUT_DIR := "osm_houses".
Definition HOUSES_FILE := "houses_osm.txt".
End Config.

Record OSMAPIClient : Type := {
  request_count : Z;
  error_count : Z
}.

(** [OSMAPIClient.__init__] *)
Definition new_client : OSMAPIClient :=
  {| request_count := 0; error_count := 0 |}.

(** How one iteration of the [for attempt in range(max_retries)] loop ends. *)
Inductive flow : Type :=
| Next                 (** [continue], or the end of the loop body *)
| Break
| Return (v : pyval)
| Unwind (e : exn).    (** an exception no handler of the loop catches *)

(** [range(n)] *)
Definition range (n : Z) : list nat := seq 0 (Z.to_nat n).

(** The body of the [try] of [_make_request], after the counter update. *)
Definition try_body (sess : session) (req : request) (attempt : nat)
  : list event * result flow :=
  match sess attempt req with
  | Raise e => ([], Raise e)
  | Ok response =>
    match raise_for_status response with
    | Raise e => ([], Raise e)
    | Ok _ =>
      if status_code response =? 429 then
        let wait := 10 * (Z.of_nat attempt + 1) in
        ([Slept wait], Ok Next)
      else
        match json response with
        | Raise e => ([], Raise e)
        | Ok v => ([], Ok (Return v))
        end
    end
  end.

(** The [try] together with its two [except] clauses. *)
Definition iteration (sess : session) (req : request) (max_retries : Z)
  (attempt : nat) : list event * flow :=
  match try_body sess req attempt with
  | (evs, Ok f) => (evs, f)
  | (evs, Raise e) =>
    if is_RequestException e then
      if Z.of_nat attempt <? max_retries - 1
      then (evs ++ [Slept (3 * (Z.of_nat attempt + 1))], Next)
      else (evs, Next)
    else if is_Exception e then (evs, Break)
    else (evs, Unwind e)
  end.

Fixpoint retry_loop (sess : session) (req : request) (max_retries : Z)
  (attempts : list nat) (c : OSMAPIClient)
  : OSMAPIClient * list event * flow :=
  match attempts with
  | [] => (c, [], Next)
  | attempt :: rest =>
    let c1 := {| request_count := request_count c + 1;
                 error_count := error_count c |} in
    match iteration sess req max_retries attempt with
    | (evs, Next) =>
      let '(c2, evs2, f) := retry_loop sess req max_retries rest c1 in
      (c2, Sent attempt :: evs ++ evs2, f)
    | (evs, f) => (c1, Sent attempt :: evs, f)
    end
  end.

(** The request [_make_request] sends: [if data: post(...) else: get(...)]. *)
Definition request_of (url : string) (params : option pydict)
  (data : option string) : request :=
  match data with
  | Some d => if truthy (PStr d) then POST url d else GET url params
  | None => GET url params
  end.

(** [OSMAPIClient._make_request]; the default of [max_retries] is 2. *)
Definition _make_request (sess : session) (c : OSMAPIClient) (url : string)
  (params : option pydict) (data : option string) (max_retries : Z)
  : OSMAPIClient * list event * result pyval :=
  match retry_loop sess (request_of url params data) max_retries
          (range max_retries) c with
  | (c', evs, Return v) => (c', evs, Ok v)
  | (c', evs, Unwind e) => (c', evs, Raise e)
  | (c', evs, _) =>
    ({| request_count := request_count c';
        error_count := error_count c' + 1 |}, evs, Ok PNone)
  end.

(** ** Strings *)

Definition LF : ascii := "010"%char.
Definition CR : ascii := "013"%char.
Definition QUOTE : ascii := "034"%char.
Definition PIPE : ascii := "|"%char.
Definition COMMA : ascii := ","%char.

(** the one-line-break string written by [f.write] *)
Definition NL : string := String LF EmptyString.

(** [c in s] for a single character [c] *)
Fixpoint has_char (c : ascii) (s : string) : bool :=
  match s with
  | EmptyString => false
  | String a s' => Ascii.eqb a c || has_char c s'
  end.

(** [s.replace(a, b)] for single characters [a] and [b] *)
Fixpoint str_replace (a b : ascii) (s : string) : string :=
  match s with
  | EmptyString => EmptyString
  | String c s' => String (if Ascii.eqb c a then b else c) (str_replace a b s')
  end.

(** [s.startswith(p)] *)
Fixpoint startswith (p s : string) : bool :=
  match p, s with
  | EmptyString, _ => true
  | String a p', String b s' => Ascii.eqb a b && startswith p' s'
  | String _ _, EmptyString => false
  end.

(** [needle in s] for strings *)
Fixpoint str_contains (needle s : string) : bool :=
  startswith needle s ||
  match s with
  | EmptyString => false
  | String _ s' => str_contains needle s'
  end.

(** [s.split(sep)] for a non-empty [sep]: the separator occurrences are found
    left to right and do not overlap.  [skip] counts the characters of a
    matched separator still to be dropped and [cur] holds the field read so
    far. *)
Fixpoint split_go (sep : string) (skip : nat) (cur : string) (s : string)
  : list string :=
  match s with
  | EmptyString => [cur]
  | String c s' =>
    match skip with
    | S k => split_go sep k cur s'
    | O =>
      if startswith sep s
      then cur :: split_go sep (Nat.pred (String.length sep)) EmptyString s'
      else split_go sep O (cur +:+ String c EmptyString) s'
    end
  end.

Definition str_split (sep s : string) : list string := split_go sep O EmptyString s.

(** [sep.join(parts)] *)
Definition str_join (sep : string) (parts : list string) : string :=
  String.concat sep parts.

(** [s[:n]], counted in bytes *)
Fixpoint str_prefix (n : nat) (s : string) : string :=
  match n, s with
  | S k, String c s' => String c (str_prefix k s')
  | _, _ => EmptyString
  end.

(** [s * n] *)
Fixpoint str_times (s : string) (n : nat) : string :=
  match n with
  | O => EmptyString
  | S k => s +:+ str_times s k
  end.

(** The lines [f.readlines()] returns for a file opened in text mode with
    universal newlines: a line ends at LF, CR or CR LF, and each ending is
    handed back as LF.  [cur] is the unfinished line, if one was started. *)
Fixpoint readlines_go (cur : option string) (s : string) : list string :=
  let line := match cur with Some l => l | None => EmptyString end in
  match s with
  | EmptyString => match cur with Some l => [l] | None => [] end
  | String c s' =>
    if Ascii.eqb c LF then (line +:+ NL) :: readlines_go None s'
    else if Ascii.eqb c CR then
      match s' with
      | String c' s'' =>
        if Ascii.eqb c' LF then (line +:+ NL) :: readlines_go None s''
        else (line +:+ NL) :: readlines_go None s'
      | EmptyString => [line +:+ NL]
      end
    else readlines_go (Some (line +:+ String c EmptyString)) s'
  end.

Definition readlines (content : string) : list string := readlines_go None content.

(** Decimal digits of [n], left-padded with zeros to [width] characters. *)
Definition zero_pad (width : nat) (n : N) : string :=
  let digits := pretty n in
  str_times "0" (width - String.length digits) +:+ digits.

(** ** Numbers and their formatting *)

(** [float(z)] for an [int]: the nearest binary64 value, ties to even;
    [OverflowError] when it is out of range. *)
Definition float_of_int (z : Z) : result spec_float :=
  match binary_normalize 53 1024 z 0 false with
  | S754_infinity _ => Raise OverflowError
  | f => Ok f
  end.

(** [m * 2^e * 10^6] rounded to the nearest integer, ties to even. *)
Definition scaled_micro (m : positive) (e : Z) : Z :=
  if 0 <=? e then Z.pos m * 2 ^ e * 1000000
  else
    let num := Z.pos m * 1000000 in
    let den := 2 ^ (- e) in
    let q := num / den in
    let r := num mod den in
    if 2 * r <? den then q
    else if den <? 2 * r then q + 1
    else if Z.even q then q else q + 1.

(** [format(x, '.6f')] for a [float]: correctly rounded to six decimals. *)
Definition float_fixed6 (x : spec_float) : string :=
  let sign (s : bool) : string := if s then "-" else EmptyString in
  match x with
  | S754_zero s => sign s +:+ "0.000000"
  | S754_infinity s => sign s +:+ "inf"
  | S754_nan => "nan"
  | S754_finite s m e =>
    let q := Z.to_N (scaled_micro m e) in
    sign s +:+ pretty (q / 1000000)%N +:+ "." +:+ zero_pad 6 (q mod 1000000)%N
  end.

(** [format(v, '.6f')]: numbers are formatted as floats, anything else
    raises. *)
Definition format_fixed6 (v : pyval) : result string :=
  match v with
  | PFloat x => Ok (float_fixed6 x)
  | PInt z => x ← float_of_int z; Ok (float_fixed6 x)
  | PBool b => Ok (if b then "1.000000" else "0.000000")
  | PStr _ => Raise ValueError
  | PNone | PList _ | PDict _ => Raise TypeError
  end.

Record datetime : Type := {
  year : N; month : N; day : N; hour : N; minute : N; second : N
}.

(** [dt.strftime('%Y-%m-%d %H:%M:%S')] *)
Definition strftime (dt : datetime) : string :=
  zero_pad 4 (year dt) +:+ "-" +:+ zero_pad 2 (month dt) +:+ "-" +:+
  zero_pad 2 (day dt) +:+ " " +:+ zero_pad 2 (hour dt) +:+ ":" +:+
  zero_pad 2 (minute dt) +:+ ":" +:+ zero_pad 2 (second dt).

(** ** Operations on Python values *)

(** [v.get(k, default)]: only a [dict] has the method. *)
Definition py_get (v : pyval) (k : string) (default : pyval) : result pyval :=
  match v with
  | PDict d => Ok (dict_get k default d)
  | _ => Raise AttributeError
  end.

(** [v[k]] for a string key [k] *)
Definition py_item (v : pyval) (k : string) : result pyval :=
  match v with
  | PDict d => dict_item k d
  | _ => Raise TypeError
  end.

(** [v == k] for a string [k] *)
Definition py_eq_str (v : pyval) (k : string) : bool :=
  match v with
  | PStr s => String.eqb s k
  | _ => false
  end.

(** [k in v] for a string [k]: key membership in a dict, element membership
    in a list, substring test in a string. *)
Definition py_in (k : string) (v : pyval) : result bool :=
  match v with
  | PDict d => Ok (dict_mem k d)
  | PList l => Ok (existsb (fun x => py_eq_str x k) l)
  | PStr s => Ok (str_contains k s)
  | _ => Raise TypeError
  end.

(** The items [for x in v] visits.  A string yields its characters (here its
    bytes) as one-character strings, a dict its keys. *)
Definition py_iter (v : pyval) : result (list pyval) :=
  match v with
  | PList l => Ok l
  | PDict d => Ok (map (fun kv => PStr (fst kv)) d)
  | PStr s => Ok (map (fun c => PStr (String c EmptyString)) (list_ascii_of_string s))
  | _ => Raise TypeError
  end.

(** The argument check of [str.join]: every item must be a [str]. *)
Fixpoint strs_of (parts : list pyval) : result (list string) :=
  match parts with
  | [] => Ok []
  | PStr s :: rest => strs ← strs_of rest; Ok (s :: strs)
  | _ :: _ => Raise TypeError
  end.

(** [v in seen] for a set of strings: unhashable values raise. *)
Definition py_in_set (v : pyval) (seen : gset string) : result bool :=
  match v with
  | PStr s => Ok (bool_decide (s ∈ seen))
  | PList _ | PDict _ => Raise TypeError
  | _ => Ok false
  end.

(** [v[:50]], of which only the success matters (it is interpolated in a
    debug message). *)
Definition py_slice_check (v : pyval) : result unit :=
  match v with
  | PStr _ | PList _ => Ok tt
  | _ => Raise TypeError
  end.

Record CityBounds : Type := {
  name : string;
  south : spec_float;
  north : spec_float;
  west : spec_float;
  east : spec_float
}.

Section Runtime.

(** [repr] for the values whose text is not spelled out here: floats (the
    shortest digits that read back) and containers. *)
Variable py_repr : pyval -> string.

(** [str(v)], which is what an f-string field without a format does. *)
Definition py_str (v : pyval) : string :=
  match v with
  | PNone => "None"
  | PBool true => "True"
  | PBool false => "False"
  | PInt z => pretty z
  | PStr s => s
  | PFloat _ | PList _ | PDict _ => py_repr v
  end.

(** The Overpass QL text of [get_residential_buildings]. *)
Definition overpass_query (city : CityBounds) (limit : Z) : string :=
  let q := String QUOTE EmptyString in
  let bbox :=
    "(" +:+ py_str (PFloat (south city)) +:+ "," +:+ py_str (PFloat (west city))
    +:+ "," +:+ py_str (PFloat (north city)) +:+ "," +:+ py_str (PFloat (east city))
    +:+ ");" in
  let nwr (kind : string) :=
    "          nwr[" +:+ q +:+ "building" +:+ q +:+ "=" +:+ q +:+ kind +:+ q
    +:+ "][" +:+ q +:+ "addr:housenumber" +:+ q +:+ "]" +:+ bbox +:+ NL in
  NL +:+ "        [out:json][timeout:30];" +:+ NL
  +:+ "        (" +:+ NL
  +:+ nwr "residential" +:+ nwr "apartments" +:+ nwr "house"
  +:+ "        );" +:+ NL
  +:+ "        out center " +:+ py_str (PInt limit) +:+ ";" +:+ NL
  +:+ "        >;" +:+ NL
  +:+ "        out skel qt;" +:+ NL
  +:+ "        ".

End Runtime.

(** [if k in tags: address_parts.append(tags[k])] *)
Definition address_part (tags : pyval) (k : string) : result (list pyval) :=
  has ← py_in k tags;
  if has : bool then v ← py_item tags k; Ok [v] else Ok [].

(** The coordinates of an element: its own for a node, those of its
    [center] otherwise; [None] stands for the [continue] of the last
    branch. *)
Definition element_position (element : pyval) : result (option (pyval * pyval)) :=
  type ← py_item element "type";
  if py_eq_str type "node" then
    lat ← py_item element "lat";
    lon ← py_item element "lon";
    Ok (Some (lat, lon))
  else
    has ← py_in "center" element;
    if has : bool then
      center ← py_item element "center";
      lat ← py_item center "lat";
      center' ← py_item element "center";
      lon ← py_item center' "lon";
      Ok (Some (lat, lon))
    else Ok None.

(** The body of the [try] inside the element loop: [Ok None] is a [continue],
    [Ok (Some b)] appends the building [b]. *)
Definition parse_element (element : pyval) : result (option pydict) :=
  tags ← py_get element "tags" (PDict []);
  housenumber ← py_get tags "addr:housenumber" PNone;
  if negb (truthy housenumber) then Ok None else
  street ← py_get tags "addr:street" PNone;
  if negb (truthy street) then Ok None else
  position ← element_position element;
  match position with
  | None => Ok None
  | Some (lat, lng) =>
    p1 ← address_part tags "addr:street";
    p2 ← address_part tags "addr:housenumber";
    p3 ← address_part tags "addr:postcode";
    p4 ← address_part tags "addr:city";
    let address_parts := p1 ++ p2 ++ p3 ++ p4 in
    strs ← strs_of (List.filter truthy address_parts);
    let address := str_join ", " strs in
    osm_id ← py_item element "id";
    building_type ← py_get tags "building" (PStr "N/A");
    levels ← py_get tags "building:levels" (PStr "N/A");
    Ok (Some [("address", PStr address); ("lat", lat); ("lng", lng);
              ("osm_id", osm_id); ("building_type", building_type);
              ("levels", levels)])
  end.

(** The element loop; [except Exception: continue] skips the element. *)
Fixpoint parse_elements (elements : list pyval) (buildings : list pydict)
  : result (list pydict) :=
  match elements with
  | [] => Ok buildings
  | element :: rest =>
    match parse_element element with
    | Ok (Some b) => parse_elements rest (buildings ++ [b])
    | Ok None => parse_elements rest buildings
    | Raise e =>
      if is_Exception e then parse_elements rest buildings else Raise e
    end
  end.

(** What [get_residential_buildings] does with the value [_make_request]
    returned. *)
Definition parse_response (data : pyval) : result (list pydict) :=
  if negb (truthy data) then Ok [] else
  has ← py_in "elements" data;
  if negb has then Ok [] else
  elements ← py_item data "elements";
  items ← py_iter elements;
  parse_elements items [].

(** [OSMAPIClient.get_residential_buildings]; the default of [limit] is
    100. *)
Definition get_residential_buildings (py_repr : pyval -> string)
  (sess : session) (c : OSMAPIClient) (city : CityBounds) (limit : Z)
  : OSMAPIClient * list event * result (list pydict) :=
  let query := overpass_query py_repr city limit in
  match _make_request sess c Config.OVERPASS_URL None (Some query) 2 with
  | (c', evs, Raise e) => (c', evs, Raise e)
  | (c', evs, Ok data) => (c', evs, parse_response data)
  end.

(** ** HousesManager *)

Record HousesManager : Type := {
  existing_addresses : gset string;
  (** the text of [osm_houses/houses_osm.txt] *)
  houses_file : string
}.

Definition HEADER : string :=
  "Date | Country | City | Address | Latitude | Longitude | OSM_ID | Building_Type | Levels"
  +:+ NL +:+ str_times "=" 100 +:+ NL.

(** [HousesManager.__init__]; [disk] is what creating the directory and
    writing the file does. *)
Definition new_manager (disk : result unit) : result HousesManager :=
  _ ← disk;
  Ok {| existing_addresses := ∅; houses_file := HEADER |}.

(** The line [add_house] formats for an address already known to be a
    string. *)
Definition house_line (py_repr : pyval -> string) (now : datetime)
  (country city address : string) (data : pydict) : result string :=
  let timestamp := strftime now in
  let clean_address := str_replace PIPE COMMA address in
  lat ← dict_item "lat" data;
  lat_s ← format_fixed6 lat;
  lng ← dict_item "lng" data;
  lng_s ← format_fixed6 lng;
  osm_id ← dict_item "osm_id" data;
  building_type ← dict_item "building_type" data;
  levels ← dict_item "levels" data;
  Ok (timestamp +:+ " | " +:+ country +:+ " | " +:+ city +:+ " | "
      +:+ clean_address +:+ " | " +:+ lat_s +:+ " | " +:+ lng_s +:+ " | "
      +:+ py_str py_repr osm_id +:+ " | " +:+ py_str py_repr building_type
      +:+ " | " +:+ py_str py_repr levels +:+ NL).

(** What [with open(self.houses_file, 'a', ...) as f: f.write(line)] does to
    the log: the whole line reaches the file, or an exception is raised once
    [written] bytes of the line did (none when the file could not be
    opened). *)
Inductive append_result : Type :=
| Appended
| AppendFailed (e : exn) (written : nat).

(** The statements of the [try] of [add_house] that precede the [with]:
    [Ok None] is the [return False] of the first test, [Ok (Some (a, line))]
    the address and the line to append.  [now] is the clock. *)
Definition add_house_line (py_repr : pyval -> string) (now : datetime)
  (hm : HousesManager) (country city : string) (data : pydict)
  : result (option (string * string)) :=
  address ← dict_item "address" data;
  reject ← (if negb (truthy address) then Ok true
            else py_in_set address (existing_addresses hm));
  if reject : bool then
    _ ← py_slice_check address;
    Ok None
  else
    match address with
    | PStr a =>
      line ← house_line py_repr now country city a data;
      Ok (Some (a, line))
    | _ => Raise AttributeError
    end.

(** The body of the [try] of [add_house], with the manager it leaves behind
    whether it returns or raises.  [disk] is what the append does: when it
    fails, the part of the line already written stays in the file and the
    address is not recorded. *)
Definition add_house_try (py_repr : pyval -> string) (now : datetime)
  (disk : append_result) (hm : HousesManager) (country city : string)
  (data : pydict) : HousesManager * result bool :=
  match add_house_line py_repr now hm country city data with
  | Raise e => (hm, Raise e)
  | Ok None => (hm, Ok false)
  | Ok (Some (a, line)) =>
    match disk with
    | Appended =>
      ({| existing_addresses := {[a]} ∪ existing_addresses hm;
          houses_file := houses_file hm +:+ line |}, Ok true)
    | AppendFailed e written =>
      ({| existing_addresses := existing_addresses hm;
          houses_file := houses_file hm +:+ str_prefix written line |},
       Raise e)
    end
  end.

(** [HousesManager.add_house]: [except Exception] turns a failure into
    [False]. *)
Definition add_house (py_repr : pyval -> string) (now : datetime)
  (disk : append_result) (hm : HousesManager) (country city : string)
  (data : pydict) : HousesManager * result bool :=
  match add_house_try py_repr now disk hm country city data with
  | (hm', Ok r) => (hm', Ok r)
  | (hm', Raise e) =>
    if is_Exception e then (hm', Ok false) else (hm', Raise e)
  end.

(** [HousesManager.get_stats]; [disk] is what opening the log and reading
    it as UTF-8 text does.  The bare [except] catches everything. *)
Definition get_stats (disk : result unit) (hm : HousesManager) : pydict :=
  match disk with
  | Ok _ =>
    let lines := readlines (houses_file hm) in
    [("total", PInt (Z.max 0 (Z.of_nat (length lines) - 2)))]
  | Raise _ => [("total", PInt 0)]
  end.

(** ** Vocabulary for the statements *)

(** What the [try] of iteration [attempt] produces: [Ok (Return v)] when the
    response was decoded, [Raise e] when the request, the status check or the
    decoding raised. *)
Definition attempt_result (sess : session) (req : request) (attempt : nat)
  : result flow :=
  snd (try_body sess req attempt).

(** The iterations that sent a request, in order. *)
Definition sent_attempts (evs : list event) : list nat :=
  omap (fun ev => match ev with Sent i => Some i | Slept _ => None end) evs.

Definition attempts_made (evs : list event) : nat :=
  length (sent_attempts evs).

(** The pauses taken, in order. *)
Definition sleeps (evs : list event) : list Z :=
  omap (fun ev => match ev with Slept s => Some s | Sent _ => None end) evs.

(** A service that answers every request with HTTP 429. *)
Definition rate_limited : session :=
  fun _ _ => Ok {| status_code := 429; json := Ok PNone |}.

(** A service whose first answer times out and whose second is not JSON, the
    decoder failing with a plain [ValueError]. *)
Definition flaky_then_garbled : session :=
  fun attempt _ =>
    match attempt with
    | O => Raise Timeout
    | _ => Ok {| status_code := 200; json := Raise ValueError |}
    end.

(** A service that is never reachable. *)
Definition unreachable : session := fun _ _ => Raise ConnectionError.

(** The record the element loop appends for [element], if it appends
    one. *)
Definition parsed (element : pyval) : option pydict :=
  match parse_element element with
  | Ok (Some b) => Some b
  | _ => None
  end.

(** The value of tag [k] of an element: defined when the element is a dict
    whose [tags] entry is a dict that holds [k]. *)
Definition tag_of (element : pyval) (k : string) : option pyval :=
  match element with
  | PDict d =>
    match dict_lookup "tags" d with
    | Some (PDict tags) => dict_lookup k tags
    | _ => None
    end
  | _ => None
  end.

Definition nonempty_str (v : option pyval) : bool :=
  match v with
  | Some (PStr s) => negb (String.eqb s EmptyString)
  | _ => false
  end.

(** absent, a string, or a value [filter(None, ...)] drops *)
Definition str_or_dropped (v : option pyval) : bool :=
  match v with
  | None => true
  | Some (PStr _) => true
  | Some v => negb (truthy v)
  end.

(** The coordinates an element offers: [lat]/[lon] of a node, those of the
    [center] of anything else. *)
Definition position_of (d : pydict) : option (pyval * pyval) :=
  match dict_lookup "type" d with
  | None => None
  | Some type =>
    if py_eq_str type "node" then
      match dict_lookup "lat" d, dict_lookup "lon" d with
      | Some lat, Some lon => Some (lat, lon)
      | _, _ => None
      end
    else
      match dict_lookup "center" d with
      | Some (PDict center) =>
        match dict_lookup "lat" center, dict_lookup "lon" center with
        | Some lat, Some lon => Some (lat, lon)
        | _, _ => None
        end
      | _ => None
      end
  end.

(** An element the parser can turn into a record: a dict with an [id], a
    position, non-empty string tags for house number and street, and
    postcode and city tags that are strings where they are present (or
    values that count as absent). *)
Definition well_formed (element : pyval) : bool :=
  match element with
  | PDict d =>
    nonempty_str (tag_of element "addr:housenumber")
    && nonempty_str (tag_of element "addr:street")
    && str_or_dropped (tag_of element "addr:postcode")
    && str_or_dropped (tag_of element "addr:city")
    && bool_decide (is_Some (position_of d))
    && dict_mem "id" d
  | _ => false
  end.

(** The text an address part contributes: a non-empty string itself,
    anything else nothing. *)
Definition text_of (v : pyval) : option string :=
  match v with
  | PStr s => if String.eqb s EmptyString then None else Some s
  | _ => None
  end.

Definition tag_list (element : pyval) (k : string) : list pyval :=
  match tag_of element k with Some v => [v] | None => [] end.

(** The display address: street, house number, postcode and city, those
    that are present, joined by a comma and a space. *)
Definition address_of (element : pyval) : string :=
  str_join ", "
    (omap text_of (tag_list element "addr:street"
                   ++ tag_list element "addr:housenumber"
                   ++ tag_list element "addr:postcode"
                   ++ tag_list element "addr:city")).

(** The record of an element, stated without reference to the parser. *)
Definition building_of (element : pyval) : option pydict :=
  match element with
  | PDict d =>
    if well_formed element then
      match position_of d, dict_lookup "id" d with
      | Some (lat, lng), Some osm_id =>
        Some [("address", PStr (address_of element)); ("lat", lat); ("lng", lng);
              ("osm_id", osm_id);
              ("building_type", default (PStr "N/A") (tag_of element "building"));
              ("levels", default (PStr "N/A") (tag_of element "building:levels"))]
      | _, _ => None
      end
    else None
  | _ => None
  end.

(** Sample data: the Berlin bounding box of [Config.COUNTRIES] and a
    response of three elements, the second of which has no street. *)
Definition binary64 (m : positive) (e : Z) : pyval := PFloat (S754_finite false m e).

Definition berlin : CityBounds :=
  {| name := "Berlin";
     south := S754_finite false 7367607515401421 (-47);   (* 52.35 *)
     north := S754_finite false 7409828761908019 (-47);   (* 52.65 *)
     west := S754_finite false 7402791887490253 (-49);    (* 13.15 *)
     east := S754_finite false 7684266864200909 (-49) |}. (* 13.65 *)

Definition berlin_node : pyval :=
  PDict [("type", PStr "node"); ("id", PInt 123456789);
         ("lat", binary64 7391532888421827 (-47));         (* 52.52 *)
         ("lon", binary64 7546344125612687 (-49));         (* 13.405 *)
         ("tags", PDict [("addr:housenumber", PStr "12");
                         ("addr:street", PStr "Muster Str");
                         ("addr:postcode", PStr "10115");
                         ("addr:city", PStr "Berlin");
                         ("building", PStr "residential");
                         ("building:levels", PStr "3")])].

Definition berlin_no_street : pyval :=
  PDict [("type", PStr "node"); ("id", PInt 2);
         ("lat", binary64 7388718138654720 (-47));
         ("lon", binary64 7543529375845581 (-49));
         ("tags", PDict [("addr:housenumber", PStr "7");
                         ("building", PStr "house")])].

Definition berlin_way : pyval :=
  PDict [("type", PStr "way"); ("id", PInt 3);
         ("center", PDict [("lat", binary64 7391012159714912 (-47));  (* 52.5163 *)
                           ("lon", binary64 7530975591884286 (-49))]); (* 13.3777 *)
         ("tags", PDict [("addr:housenumber", PStr "1");
                         ("addr:street", PStr "Pariser Platz");
                         ("building", PStr "apartments")])].

Definition berlin_payload : pyval :=
  PDict [("version", PFloat (S754_finite false 5404319552844595 (-53)));
         ("elements", PList [berlin_node; berlin_no_street; berlin_way])].

Definition berlin_service : session :=
  fun _ _ => Ok {| status_code := 200; json := Ok berlin_payload |}.

(** A stand-in for the unspecified [repr] in the examples. *)
Definition sample_repr : pyval -> string := fun _ => "?".

(** ** Vocabulary for the houses log *)

(** [HousesManager()] on a disk that works. *)
Definition fresh : HousesManager :=
  {| existing_addresses := ∅; houses_file := HEADER |}.

(** One call of [add_house] together with what the clock and the disk do
    during it. *)
Record call : Type := {
  call_now : datetime;
  call_disk : append_result;
  call_country : string;
  call_city : string;
  call_data : pydict
}.

Definition add_house_call (py_repr : pyval -> string) (hm : HousesManager)
  (cl : call) : HousesManager * result bool :=
  add_house py_repr (call_now cl) (call_disk cl) hm (call_country cl)
    (call_city cl) (call_data cl).

(** Calls made one after the other on the same manager: the result of each
    and the manager after the last. *)
Fixpoint add_houses (py_repr : pyval -> string) (hm : HousesManager)
  (calls : list call) : list (result bool) * HousesManager :=
  match calls with
  | [] => ([], hm)
  | cl :: rest =>
    let '(hm1, r) := add_house_call py_repr hm cl in
    let '(rs, hm') := add_houses py_repr hm1 rest in
    (r :: rs, hm')
  end.

(** The address a call submits, when it is a string. *)
Definition call_address (cl : call) : option string :=
  match dict_lookup "address" (call_data cl) with
  | Some (PStr a) => Some a
  | _ => None
  end.

Definition returned_true (r : result bool) : bool :=
  match r with Ok true => true | _ => false end.

(** The addresses of the calls that returned [True], in order. *)
Fixpoint accepted (calls : list call) (rs : list (result bool)) : list string :=
  match calls, rs with
  | cl :: calls', r :: rs' =>
    (if returned_true r
     then match call_address cl with Some a => [a] | None => [] end
     else [])
    ++ accepted calls' rs'
  | _, _ => []
  end.

(** How many times an address was accepted. *)
Definition times_accepted (a : string) (calls : list call)
  (rs : list (result bool)) : nat :=
  length (List.filter (String.eqb a) (accepted calls rs)).

(** The line of a call can be formatted and the disk takes it. *)
Definition can_append (py_repr : pyval -> string) (cl : call) : bool :=
  match call_address cl with
  | Some a =>
    match house_line py_repr (call_now cl) (call_country cl) (call_city cl)
            a (call_data cl), call_disk cl with
    | Ok _, Appended => true
    | _, _ => false
    end
  | None => false
  end.

(** No call of the sequence that failed left part of its line in the log:
    after a call that did not return [True] the log is what it was before
    the call. *)
Definition no_fragment (py_repr : pyval -> string) (hm : HousesManager)
  (calls : list call) : Prop :=
  forall pre cl post, calls = pre ++ cl :: post ->
    (add_house_call py_repr (add_houses py_repr hm pre).2 cl).2 <> Ok true ->
    houses_file (add_house_call py_repr (add_houses py_repr hm pre).2 cl).1
    = houses_file (add_houses py_repr hm pre).2.

(** The disk takes the line of the call, or refuses it as a whole. *)
Definition whole_or_nothing (cl : call) : Prop :=
  match call_disk cl with
  | AppendFailed _ (S _) => False
  | _ => True
  end.

(** The text an f-string field shows for entry [k] of the record. *)
Definition field_text (py_repr : pyval -> string) (data : pydict) (k : string)
  : string :=
  match dict_lookup k data with
  | Some v => py_str py_repr v
  | None => EmptyString
  end.

Definition no_line_break (s : string) : bool :=
  negb (has_char LF s) && negb (has_char CR s).

(** No text the caller supplies for the line contains a line break. *)
Definition single_line (py_repr : pyval -> string) (cl : call) : bool :=
  no_line_break (call_country cl)
  && no_line_break (call_city cl)
  && match call_address cl with Some a => no_line_break a | None => true end
  && no_line_break (field_text py_repr (call_data cl) "osm_id")
  && no_line_break (field_text py_repr (call_data cl) "building_type")
  && no_line_break (field_text py_repr (call_data cl) "levels").

(** No text the caller supplies besides the address contains a pipe. *)
Definition pipe_free_fields (py_repr : pyval -> string) (country city : string)
  (data : pydict) : bool :=
  negb (has_char PIPE country)
  && negb (has_char PIPE city)
  && negb (has_char PIPE (field_text py_repr data "osm_id"))
  && negb (has_char PIPE (field_text py_repr data "building_type"))
  && negb (has_char PIPE (field_text py_repr data "levels")).

(** The separator of the log columns. *)
Definition SEP : string := " | ".

(** The characters of numbers, timestamps and of [inf] and [nan]. *)
Definition NUMERIC : string := "0123456789-.: infa".

(** Every character of [s] occurs in [allowed]. *)
Definition chars_in (allowed s : string) : Prop :=
  forall c, has_char c s = true -> has_char c allowed = true.

(** [s] is empty or ends with a line feed. *)
Fixpoint ends_lf (s : string) : bool :=
  match s with
  | EmptyString => true
  | String c EmptyString => Ascii.eqb c LF
  | String _ s' => ends_lf s'
  end.

(** Sample records. *)
Definition noon : datetime :=
  {| year := 2024; month := 1; day := 1; hour := 12; minute := 0; second := 0 |}.

Definition house (address building_type : string) : pydict :=
  [("address", PStr address);
   ("lat", binary64 7391532888421827 (-47));
   ("lng", binary64 7546344125612687 (-49));
   ("osm_id", PInt 123456789);
   ("building_type", PStr building_type);
   ("levels", PStr "3")].

Definition main_st : pydict := house "Main St, 1" "residential".

Definition call_of (disk : append_result) (data : pydict) : call :=
  {| call_now := noon; call_disk := disk; call_country := "Germany";
     call_city := "Berlin"; call_data := data |}.

(** ** Config.COUNTRIES *)

(** [d.get(k)] for a dict with string keys, in insertion order. *)
Fixpoint assoc_lookup {A : Type} (k : string) (d : list (string * A))
  : option A :=
  match d with
  | [] => None
  | (k', v) :: d' => if String.eqb k k' then Some v else assoc_lookup k d'
  end.

(** The dataclass [Country]; its field [name] is called [country_name]
    here, [name] being the field of [CityBounds]. *)
Record Country : Type := {
  country_name : string;
  cities : list (string * CityBounds)
}.

(** [Config.COUNTRIES]: every coordinate is the binary64 value of the
    decimal literal in the comment next to it. *)
Definition COUNTRIES : list (string * Country) := [
  ("germany",
   {| country_name := "🇩🇪 Germany";
      cities := [
       ("berlin",
        Build_CityBounds "Berlin"
          (S754_finite false 7367607515401421 (-47)) (* 52.35 *)
          (S754_finite false 7409828761908019 (-47)) (* 52.65 *)
          (S754_finite false 7402791887490253 (-49)) (* 13.15 *)
          (S754_finite false 7684266864200909 (-49)) (* 13.65 *));
       ("munich",
        Build_CityBounds "Munich"
          (S754_finite false 6763843690357064 (-47)) (* 48.06 *)
          (S754_finite false 6784954313610363 (-47)) (* 48.21 *)
          (S754_finite false 6445776966674022 (-49)) (* 11.45 *)
          (S754_finite false 6558366957358285 (-49)) (* 11.65 *));
       ("frankfurt",
        Build_CityBounds "Frankfurt"
          (S754_finite false 7036874417766400 (-47)) (* 50.00 *)
          (S754_finite false 7062207165670359 (-47)) (* 50.18 *)
          (S754_finite false 4728779608739021 (-49)) (* 8.40 *)
          (S754_finite false 4998995586381251 (-49)) (* 8.88 *))] |});
  ("france",
   {| country_name := "🇫🇷 France";
      cities := [
       ("paris",
        Build_CityBounds "Paris"
          (S754_finite false 6867989431740006 (-47)) (* 48.80 *)
          (S754_finite false 6884877930342646 (-47)) (* 48.92 *)
          (S754_finite false 4953959590107546 (-51)) (* 2.20 *)
          (S754_finite false 5629499534213120 (-51)) (* 2.50 *));
       ("lyon",
        Build_CityBounds "Lyon"
          (S754_finite false 6435925342489149 (-47)) (* 45.73 *)
          (S754_finite false 6445776966674022 (-47)) (* 45.80 *)
          (S754_finite false 5404319552844595 (-50)) (* 4.80 *)
          (S754_finite false 5516909543528858 (-50)) (* 4.90 *));
       ("marseille",
        Build_CityBounds "Marseille"
          (S754_finite false 6089711121135043 (-47)) (* 43.27 *)
          (S754_finite false 6096747995552809 (-47)) (* 43.32 *)
          (S754_finite false 6023564501608038 (-50)) (* 5.35 *)
          (S754_finite false 6113636494155448 (-50)) (* 5.43 *));
       ("nice",
        Build_CityBounds "Nice"
          (S754_finite false 6147413491360727 (-47)) (* 43.68 *)
          (S754_finite false 6154450365778493 (-47)) (* 43.73 *)
          (S754_finite false 8151515325540598 (-50)) (* 7.24 *)
          (S754_finite false 8241587318088008 (-50)) (* 7.32 *));
       ("toulouse",
        Build_CityBounds "Toulouse"
          (S754_finite false 6133339742525194 (-47)) (* 43.58 *)
          (S754_finite false 6143191366710067 (-47)) (* 43.65 *)
          (S754_finite false 6350075474592399 (-52)) (* 1.41 *)
          (S754_finite false 6665327448508334 (-52)) (* 1.48 *))] |});
  ("netherlands",
   {| country_name := "🇳🇱 Netherlands";
      cities := [
       ("amsterdam",
        Build_CityBounds "Amsterdam"
          (S754_finite false 7360570640983654 (-47)) (* 52.30 *)
          (S754_finite false 7377459139586294 (-47)) (* 52.42 *)
          (S754_finite false 5404319552844595 (-50)) (* 4.80 *)
          (S754_finite false 5629499534213120 (-50)) (* 5.00 *));
       ("rotterdam",
        Build_CityBounds "Rotterdam"
          (S754_finite false 7301460895874417 (-47)) (* 51.88 *)
          (S754_finite false 7309905145175736 (-47)) (* 51.94 *)
          (S754_finite false 4953959590107546 (-50)) (* 4.40 *)
          (S754_finite false 5122844576133939 (-50)) (* 4.55 *));
       ("utrecht",
        Build_CityBounds "Utrecht"
          (S754_finite false 7325386268894822 (-47)) (* 52.05 *)
          (S754_finite false 7336645267963249 (-47)) (* 52.13 *)
          (S754_finite false 5685794529555251 (-50)) (* 5.05 *)
          (S754_finite false 5798384520239514 (-50)) (* 5.15 *));
       ("the_hague",
        Build_CityBounds "The Hague"
          (S754_finite false 7322571519127716 (-47)) (* 52.03 *)
          (S754_finite false 7332423143312589 (-47)) (* 52.10 *)
          (S754_finite false 4807592602218004 (-50)) (* 4.27 *)
          (S754_finite false 4931441591970693 (-50)) (* 4.38 *))] |});
  ("spain",
   {| country_name := "🇪🇸 Spain";
      cities := [
       ("madrid",
        Build_CityBounds "Madrid"
          (S754_finite false 5678757655137485 (-47)) (* 40.35 *)
          (S754_finite false 5702683028157891 (-47)) (* 40.52 *)
          (S754_finite true 8669429282688205 (-51)) (* -3.85 *)
          (S754_finite true 7993889338582630 (-51)) (* -3.55 *));
       ("barcelona",
        Build_CityBounds "Barcelona"
          (S754_finite false 5812458269075046 (-47)) (* 41.30 *)
          (S754_finite false 5836383642095452 (-47)) (* 41.47 *)
          (S754_finite false 4503599627370496 (-51)) (* 2.00 *)
          (S754_finite false 5066549580791808 (-51)) (* 2.25 *));
       ("valencia",
        Build_CityBounds "Valencia"
          (S754_finite false 5545057041199923 (-47)) (* 39.40 *)
          (S754_finite false 5563352914686116 (-47)) (* 39.53 *)
          (S754_finite true 8106479329266893 (-54)) (* -0.45 *)
          (S754_finite true 5404319552844595 (-54)) (* -0.30 *))] |});
  ("italy",
   {| country_name := "🇮🇹 Italy";
      cities := [
       ("rome",
        Build_CityBounds "Rome"
          (S754_finite false 5882827013252710 (-47)) (* 41.80 *)
          (S754_finite false 5903937636506010 (-47)) (* 41.95 *)
          (S754_finite false 6980579422424269 (-49)) (* 12.40 *)
          (S754_finite false 7065021915437466 (-49)) (* 12.55 *));
       ("milan",
        Build_CityBounds "Milan"
          (S754_finite false 6393704095982551 (-47)) (* 45.43 *)
          (S754_finite false 6403555720167424 (-47)) (* 45.50 *)
          (S754_finite false 5150992073805005 (-49)) (* 9.15 *)
          (S754_finite false 5207287069147136 (-49)) (* 9.25 *));
       ("naples",
        Build_CityBounds "Naples"
          (S754_finite false 5744904274664489 (-47)) (* 40.82 *)
          (S754_finite false 5753348523965809 (-47)) (* 40.88 *)
          (S754_finite false 7993889338582630 (-49)) (* 14.20 *)
          (S754_finite false 8050184333924762 (-49)) (* 14.30 *));
       ("turin",
        Build_CityBounds "Turin"
          (S754_finite false 6338816475523973 (-47)) (* 45.04 *)
          (S754_finite false 6347260724825293 (-47)) (* 45.10 *)
          (S754_finite false 8590616289209221 (-50)) (* 7.63 *)
          (S754_finite false 8703206279893484 (-50)) (* 7.73 *));
       ("florence",
        Build_CityBounds "Florence"
          (S754_finite false 6158672490429153 (-47)) (* 43.76 *)
          (S754_finite false 6162894615079813 (-47)) (* 43.79 *)
          (S754_finite false 6316298477387121 (-49)) (* 11.22 *)
          (S754_finite false 6361334473660826 (-49)) (* 11.30 *))] |});
  ("austria",
   {| country_name := "🇦🇹 Austria";
      cities := [
       ("vienna",
        Build_CityBounds "Vienna"
          (S754_finite false 6776510064309043 (-47)) (* 48.15 *)
          (S754_finite false 6793398562911683 (-47)) (* 48.27 *)
          (S754_finite false 4573968371548160 (-48)) (* 16.25 *)
          (S754_finite false 4644337115725824 (-48)) (* 16.50 *));
       ("graz",
        Build_CityBounds "Graz"
          (S754_finite false 6620291452234629 (-47)) (* 47.04 *)
          (S754_finite false 6630143076419502 (-47)) (* 47.11 *)
          (S754_finite false 8658170283619779 (-49)) (* 15.38 *)
          (S754_finite false 8714465278961910 (-49)) (* 15.48 *));
       ("salzburg",
        Build_CityBounds "Salzburg"
          (S754_finite false 6724437193617572 (-47)) (* 47.78 *)
          (S754_finite false 6730066693151785 (-47)) (* 47.82 *)
          (S754_finite false 7329608393545482 (-49)) (* 13.02 *)
          (S754_finite false 7363385390750761 (-49)) (* 13.08 *));
       ("innsbruck",
        Build_CityBounds "Innsbruck"
          (S754_finite false 6649846324789248 (-47)) (* 47.25 *)
          (S754_finite false 6654068449439908 (-47)) (* 47.28 *)
          (S754_finite false 6400740970400317 (-49)) (* 11.37 *)
          (S754_finite false 6428888468071383 (-49)) (* 11.42 *))] |});
  ("switzerland",
   {| country_name := "🇨🇭 Switzerland";
      cities := [
       ("zurich",
        Build_CityBounds "Zurich"
          (S754_finite false 6663920073624781 (-47)) (* 47.35 *)
          (S754_finite false 6670956948042547 (-47)) (* 47.40 *)
          (S754_finite false 4785074604081152 (-49)) (* 8.50 *)
          (S754_finite false 4841369599423283 (-49)) (* 8.60 *));
       ("geneva",
        Build_CityBounds "Geneva"
          (S754_finite false 6500664587132600 (-47)) (* 46.19 *)
          (S754_finite false 6509108836433920 (-47)) (* 46.25 *)
          (S754_finite false 6867989431740006 (-50)) (* 6.10 *)
          (S754_finite false 6980579422424269 (-50)) (* 6.20 *));
       ("basel",
        Build_CityBounds "Basel"
          (S754_finite false 6690660196412293 (-47)) (* 47.54 *)
          (S754_finite false 6696289695946506 (-47)) (* 47.58 *)
          (S754_finite false 8511803295730237 (-50)) (* 7.56 *)
          (S754_finite false 8579357290140795 (-50)) (* 7.62 *));
       ("bern",
        Build_CityBounds "Bern"
          (S754_finite false 6604810328515543 (-47)) (* 46.93 *)
          (S754_finite false 6610439828049756 (-47)) (* 46.97 *)
          (S754_finite false 8331659310635418 (-50)) (* 7.40 *)
          (S754_finite false 8421731303182828 (-50)) (* 7.48 *))] |});
  ("australia",
   {| country_name := "🇦🇺 Australia";
      cities := [
       ("sydney",
        Build_CityBounds "Sydney"
          (S754_finite true 4785074604081152 (-47)) (* -34.00 *)
          (S754_finite true 4742853357574554 (-47)) (* -33.70 *)
          (S754_finite false 5309321748204749 (-45)) (* 150.90 *)
          (S754_finite false 5323395497040282 (-45)) (* 151.30 *));
       ("melbourne",
        Build_CityBounds "Melbourne"
          (S754_finite true 5333950808666931 (-47)) (* -37.90 *)
          (S754_finite true 5312840185413632 (-47)) (* -37.75 *)
          (S754_finite false 5098215515671757 (-45)) (* 144.90 *)
          (S754_finite false 5105252390089523 (-45)) (* 145.10 *));
       ("brisbane",
        Build_CityBounds "Brisbane"
          (S754_finite true 7754635608378573 (-48)) (* -27.55 *)
          (S754_finite true 7698340613036442 (-48)) (* -27.35 *)
          (S754_finite false 5381449710986854 (-45)) (* 152.95 *)
          (S754_finite false 5388486585404621 (-45)) (* 153.15 *));
       ("perth",
        Build_CityBounds "Perth"
          (S754_finite true 4510636501788262 (-47)) (* -32.05 *)
          (S754_finite true 8993125505905459 (-48)) (* -31.95 *)
          (S754_finite false 8148700575773491 (-46)) (* 115.80 *)
          (S754_finite false 8159255887400141 (-46)) (* 115.95 *))] |});
  ("canada",
   {| country_name := "🇨🇦 Canada";
      cities := [
       ("toronto",
        Build_CityBounds "Toronto"
          (S754_finite false 6136154492292301 (-47)) (* 43.60 *)
          (S754_finite false 6164301989963366 (-47)) (* 43.80 *)
          (S754_finite true 5597833599333171 (-46)) (* -79.55 *)
          (S754_finite true 5576722976079872 (-46)) (* -79.25 *));
       ("vancouver",
        Build_CityBounds "Vancouver"
          (S754_finite false 6931321301499904 (-47)) (* 49.25 *)
          (S754_finite false 6938358175917670 (-47)) (* 49.30 *)
          (S754_finite true 8665910845479322 (-46)) (* -123.15 *)
          (S754_finite true 8658873971061555 (-46)) (* -123.05 *));
       ("montreal",
        Build_CityBounds "Montreal"
          (S754_finite false 6396518845749658 (-47)) (* 45.45 *)
          (S754_finite false 6410592594585190 (-47)) (* 45.55 *)
          (S754_finite true 5186176445893837 (-46)) (* -73.70 *)
          (S754_finite true 5168584259849421 (-46)) (* -73.45 *));
       ("ottawa",
        Build_CityBounds "Ottawa"
          (S754_finite false 6375408222496358 (-47)) (* 45.30 *)
          (S754_finite false 6396518845749658 (-47)) (* 45.45 *)
          (S754_finite true 5337469245875814 (-46)) (* -75.85 *)
          (S754_finite true 5323395497040282 (-46)) (* -75.65 *))] |})].

(** ** HouseOSMGenerator *)

Record HouseOSMGenerator : Type := {
  client : OSMAPIClient;
  houses_manager : HousesManager
}.

(** [HouseOSMGenerator.__init__]; [disk] is what creating the log does. *)
Definition new_generator (disk : result unit) : result HouseOSMGenerator :=
  hm ← new_manager disk;
  Ok {| client := new_client; houses_manager := hm |}.

(** The [for building in buildings] loop of [generate_houses].  [world]
    gives the clock and the disk for the building at each position of the
    list, [index] is the position of the head of [buildings] and [generated]
    the counter.  The loop hands back the manager, the calls of [add_house]
    it made, in order, and the final counter; every call that returned is
    followed by [time.sleep(0.1)]. *)
Fixpoint store_loop (py_repr : pyval -> string)
  (world : nat -> datetime * append_result) (country city : string) (count : Z)
  (buildings : list pydict) (index : nat) (generated : Z) (hm : HousesManager)
  : HousesManager * list call * result Z :=
  match buildings with
  | [] => (hm, [], Ok generated)
  | building :: rest =>
    if count <=? generated then (hm, [], Ok generated)
    else
      match dict_item "address" building with
      | Raise e => (hm, [], Raise e)
      | Ok address =>
        if negb (truthy address)
        then store_loop py_repr world country city count rest (S index)
               generated hm
        else
          let cl := {| call_now := (world index).1;
                       call_disk := (world index).2;
                       call_country := country; call_city := city;
                       call_data := building |} in
          match add_house_call py_repr hm cl with
          | (hm1, Raise e) => (hm1, [cl], Raise e)
          | (hm1, Ok added) =>
            let generated' := if added then generated + 1 else generated in
            let '(hm2, calls, r) :=
              store_loop py_repr world country city count rest (S index)
                generated' hm1 in
            (hm2, cl :: calls, r)
          end
      end
  end.

(** [HouseOSMGenerator.generate_houses]; the default of [count] is 10.
    [str_lower] is [str.lower] and [shuffle] is what [random.shuffle] makes
    of the list this time.  Besides the generator it hands back the network
    trace of the query and the calls of [add_house] it made. *)
Definition generate_houses (py_repr : pyval -> string)
  (str_lower : string -> string) (shuffle : list pydict -> list pydict)
  (sess : session) (world : nat -> datetime * append_result)
  (g : HouseOSMGenerator) (country_key city_key : string) (count : Z)
  : HouseOSMGenerator * list event * list call * result bool :=
  match assoc_lookup (str_lower country_key) COUNTRIES with
  | None => (g, [], [], Ok false)
  | Some country =>
    match assoc_lookup (str_lower city_key) (cities country) with
    | None => (g, [], [], Ok false)
    | Some city =>
      match get_residential_buildings py_repr sess (client g) city (count * 2) with
      | (c', evs, Raise e) =>
        ({| client := c'; houses_manager := houses_manager g |}, evs, [], Raise e)
      | (c', evs, Ok buildings) =>
        match buildings with
        | [] =>
          ({| client := c'; houses_manager := houses_manager g |}, evs, [],
           Ok false)
        | _ :: _ =>
          let '(hm', calls, r) :=
            store_loop py_repr world (country_name country) (name city) count
              (shuffle buildings) 0 0 (houses_manager g) in
          ({| client := c'; houses_manager := hm' |}, evs, calls,
           generated ← r; Ok (0 <? generated))
        end
      end
    end
  end.

(** ** Vocabulary for further statements *)

(** The trace of [m] attempts numbered from [first], with the pause of a
    network error between one attempt and the next. *)
Fixpoint backoff_trace (first m : nat) : list event :=
  match m with
  | O => []
  | S m' =>
    Sent first ::
    match m' with
    | O => []
    | S _ => Slept (3 * (Z.of_nat first + 1)) :: backoff_trace (S first) m'
    end
  end.

(** A value that is neither a container nor a string. *)
Definition scalar (v : pyval) : bool :=
  match v with
  | PNone | PBool _ | PInt _ | PFloat _ => true
  | PStr _ | PList _ | PDict _ => false
  end.

(** A service that fails once with a timeout and then answers with the
    Berlin response. *)
Definition flaky_then_berlin : session :=
  fun attempt _ =>
    match attempt with
    | O => Raise Timeout
    | _ => Ok {| status_code := 200; json := Ok berlin_payload |}
    end.


(** The disk never fails with something [add_house] lets through. *)
Definition disk_faults_caught (world : nat -> datetime * append_result) : Prop :=
  forall i e n, (world i).2 = AppendFailed e n -> is_Exception e = true.

(** A clock stuck at noon and a disk that works. *)
Definition calm : nat -> datetime * append_result := fun _ => (noon, Appended).

(** ** UIManager *)

(** The methods of [str] and the conversion [int] that the menu applies to
    what was typed; their Unicode tables are not spelled out here. *)
Record Builtins : Type := {
  b_strip : string -> string;     (** [s.strip()] *)
  b_lower : string -> string;     (** [s.lower()] *)
  b_isdigit : string -> bool;     (** [s.isdigit()] *)
  b_int : string -> result Z      (** [int(s)] *)
}.

(** [sorted] on strings: Python orders them by code point, which is the
    order of their UTF-8 bytes. *)
Fixpoint insert_sorted (x : string) (l : list string) : list string :=
  match l with
  | [] => [x]
  | y :: l' => if String.leb x y then x :: l else y :: insert_sorted x l'
  end.

Definition sorted (l : list string) : list string := foldr insert_sorted [] l.

Definition EXIT_WORDS : list string := ["0"; "exit"; "quit"; "q"; "выход"].
Definition BACK_WORDS : list string := ["0"; "back"; "назад"].

(** The [try] around the count prompt of [run]: [inputs] is what is still
    to be typed.  The bare [except] turns every failure, the end of the
    input included, into the default of 10. *)
Definition read_count (ops : Builtins) (inputs : list string) : Z :=
  match inputs with
  | [] => 10
  | line :: _ =>
    let count := b_strip ops line in
    match (if truthy (PStr count) then b_int ops count else Ok 10) with
    | Raise _ => 10
    | Ok n => if (n <? 1) || (100 <? n) then 10 else n
    end
  end.

Inductive ui_event : Type :=
| ShowStats
| Generate (country_key city_key : string) (count : Z).

(** How [run] ends on a finite input. *)
Inductive run_outcome : Type :=
| Exited              (** the [break] of the country menu *)
| InputEnded          (** [input()] found no more input: [EOFError] *)
| Raised (e : exn).   (** an exception left the loop *)

(** [if not current_country]: [None] or the empty string. *)
Definition selected (current_country : option string) : option string :=
  match current_country with
  | Some k => if truthy (PStr k) then Some k else None
  | None => None
  end.

(** [UIManager.run] on the lines [inputs] typed by the user.  [generate] is
    the method [generate_houses] of the generator [g] the menu drives; the
    pages printed are not modelled. *)
Fixpoint run {G : Type} (ops : Builtins)
  (generate : G -> string -> string -> Z -> G * result bool)
  (inputs : list string) (current_country : option string) (g : G)
  {struct inputs} : G * list ui_event * run_outcome :=
  match selected current_country with
  | None =>
    match inputs with
    | [] => (g, [], InputEnded)
    | line :: rest =>
      let choice := b_lower ops (b_strip ops line) in
      if existsb (String.eqb choice) EXIT_WORDS then (g, [], Exited)
      else if String.eqb choice "stats" then
        match rest with
        | [] => (g, [ShowStats], InputEnded)
        | _ :: rest' =>
          let '(g', evs, o) := run ops generate rest' current_country g in
          (g', ShowStats :: evs, o)
        end
      else if b_isdigit ops choice then
        let countries := sorted (map fst COUNTRIES) in
        match b_int ops choice with
        | Raise e => (g, [], Raised e)
        | Ok v =>
          let country_index := v - 1 in
          if (0 <=? country_index)
             && (country_index <? Z.of_nat (length countries))
          then run ops generate rest
                 (Some (nth (Z.to_nat country_index) countries EmptyString)) g
          else run ops generate rest current_country g
        end
      else run ops generate rest current_country g
    end
  | Some cc =>
    match assoc_lookup cc COUNTRIES with
    | None => (g, [], Raised KeyError)
    | Some country =>
      match inputs with
      | [] => (g, [], InputEnded)
      | line :: rest =>
        let choice := b_lower ops (b_strip ops line) in
        if existsb (String.eqb choice) BACK_WORDS
        then run ops generate rest None g
        else if b_isdigit ops choice then
          let city_keys := sorted (map fst (cities country)) in
          match b_int ops choice with
          | Raise e => (g, [], Raised e)
          | Ok v =>
            let city_index := v - 1 in
            if (0 <=? city_index)
               && (city_index <? Z.of_nat (length city_keys))
            then
              let city_key := nth (Z.to_nat city_index) city_keys EmptyString in
              let count := read_count ops rest in
              match generate g cc city_key count with
              | (g1, Raise e) => (g1, [Generate cc city_key count], Raised e)
              | (g1, Ok _) =>
                match rest with
                | [] => (g1, [Generate cc city_key count], InputEnded)
                | _ :: [] => (g1, [Generate cc city_key count], InputEnded)
                | _ :: _ :: rest' =>
                  let '(g', evs, o) :=
                    run ops generate rest' current_country g1 in
                  (g', Generate cc city_key count :: evs, o)
                end
              end
            else run ops generate rest current_country g
          end
        else run ops generate rest current_country g
      end
    end
  end.

(** The menu is at the country page or at the page of a configured
    country. *)
Definition valid_selection (current_country : option string) : Prop :=
  match selected current_country with
  | None => True
  | Some cc => is_Some (assoc_lookup cc COUNTRIES)
  end.

(** Stand-ins for the built-ins that are exact on the ASCII the examples
    type: nothing to strip or lower, decimal digits only. *)
Definition digits_value (s : string) : Z :=
  fold_left (fun acc c => 10 * acc + (Z.of_nat (nat_of_ascii c) - 48))
    (list_ascii_of_string s) 0.

Definition ascii_ops : Builtins :=
  {| b_strip := id; b_lower := id;
     b_isdigit := fun s =>
       negb (String.eqb s EmptyString)
       && forallb (fun c => (48 <=? nat_of_ascii c)%nat
                            && (nat_of_ascii c <=? 57)%nat)
            (list_ascii_of_string s);
     b_int := fun s => Ok (digits_value s) |}.

(** What the statements say of the result of a run of the menu: every
    generation it asked for names a configured country, one of its cities and
    a count from 1 to 100; it left the loop only on an exit word typed at the
    country page; and without a generation the generator is untouched. *)
Definition menu_ok {G : Type} (ops : Builtins) (inputs : list string) (g : G)
  (res : G * list ui_event * run_outcome) : Prop :=
  (forall k c cnt, In (Generate k c cnt) res.1.2 ->
     exists country city,
       assoc_lookup k COUNTRIES = Some country
       /\ assoc_lookup c (cities country) = Some city
       /\ 1 <= cnt <= 100)
  /\ (res.2 = Exited ->
      exists line, In line inputs
                   /\ In (b_lower ops (b_strip ops line)) EXIT_WORDS)
  /\ ((forall k c cnt, ~ In (Generate k c cnt) res.1.2) -> res.1.1 = g)
  /\ (length res.1.2 <= length inputs)%nat.

(** * Properties *)

(** ** The retry loop *)

Lemma try_body_events sess req i evs e :
  try_body sess req i = (evs, Raise e) -> evs = [].
Proof.
  unfold try_body.
  destruct (sess i req) as [resp|]; [|by intros [= <- _]].
  destruct (raise_for_status resp); [|by intros [= <- _]].
  destruct (status_code resp =? 429); [by intros [= _ ?]|].
  destruct (json resp); by intros [= <- ?].
Qed.

(** The status check lets no 429 through: the branch that sleeps ten seconds
    per attempt is never entered. *)
Lemma status_429_raises resp :
  status_code resp = 429 -> raise_for_status resp = Raise HTTPError.
Proof. unfold raise_for_status. by intros ->. Qed.

Lemma try_body_never_continues sess req i evs :
  try_body sess req i <> (evs, Ok Next).
Proof.
  unfold try_body.
  destruct (sess i req) as [resp|]; [|done].
  unfold raise_for_status.
  destruct (status_code resp =? 429) eqn:E.
  - apply Z.eqb_eq in E. rewrite E. done.
  - destruct (_ && _); [done|]. by destruct (json resp).
Qed.

Lemma sent_attempts_app evs1 evs2 :
  sent_attempts (evs1 ++ evs2) = sent_attempts evs1 ++ sent_attempts evs2.
Proof. apply omap_app. Qed.

(** One iteration emits pauses only. *)
Lemma iteration_sent sess req mr i evs f :
  iteration sess req mr i = (evs, f) -> sent_attempts evs = [].
Proof.
  unfold iteration, try_body.
  destruct (sess i req) as [resp|e]; simpl.
  - destruct (raise_for_status resp); simpl.
    + destruct (status_code resp =? 429); [by intros [= <- _]|].
      destruct (json resp) as [v|e]; simpl; [by intros [= <- _]|].
      destruct (is_RequestException e); [destruct (_ <? _)|destruct (is_Exception e)];
        by intros [= <- _].
    + destruct (is_RequestException e); [destruct (_ <? _)|destruct (is_Exception e)];
        by intros [= <- _].
  - destruct (is_RequestException e); [destruct (_ <? _)|destruct (is_Exception e)];
      by intros [= <- _].
Qed.

Lemma iteration_transient sess req mr i e :
  attempt_result sess req i = Raise e -> is_RequestException e = true ->
  iteration sess req mr i =
    (if Z.of_nat i <? mr - 1 then [Slept (3 * (Z.of_nat i + 1))] else [], Next).
Proof.
  unfold attempt_result, iteration. intros H He.
  destruct (try_body sess req i) as [evs r] eqn:E. simpl in H. subst r.
  apply try_body_events in E as ->. rewrite He. by destruct (_ <? _).
Qed.

Lemma iteration_unexpected sess req mr i e :
  attempt_result sess req i = Raise e ->
  is_RequestException e = false -> is_Exception e = true ->
  iteration sess req mr i = ([], Break).
Proof.
  unfold attempt_result, iteration. intros H He He'.
  destruct (try_body sess req i) as [evs r] eqn:E. simpl in H. subst r.
  apply try_body_events in E as ->. by rewrite He, He'.
Qed.

(** How an iteration that does not fall through to the next one relates to
    its [try]. *)
Lemma iteration_exit sess req mr i evs f :
  iteration sess req mr i = (evs, f) ->
  match f with
  | Next => True
  | Break => exists e, attempt_result sess req i = Raise e
                       /\ is_RequestException e = false /\ is_Exception e = true
  | Return v => attempt_result sess req i = Ok (Return v)
  | Unwind e => attempt_result sess req i = Raise e /\ is_Exception e = false
  end.
Proof.
  unfold attempt_result, iteration.
  destruct (try_body sess req i) as [evs0 [f0|e]] eqn:E; simpl.
  - intros [= _ <-]. destruct f0; try done.
    + revert E. unfold try_body.
      destruct (sess i req) as [resp|]; [|done].
      destruct (raise_for_status resp); [|done].
      destruct (status_code resp =? 429); [done|]. by destruct (json resp).
    + revert E. unfold try_body.
      destruct (sess i req) as [resp|]; [|done].
      destruct (raise_for_status resp); [|done].
      destruct (status_code resp =? 429); [done|]. by destruct (json resp).
  - destruct (is_RequestException e) eqn:He.
    { destruct (_ <? _); by intros [= _ <-]. }
    destruct (is_Exception e) eqn:He'; intros [= _ <-]; eauto.
Qed.

Lemma retry_loop_counters sess req mr attempts c c' evs f :
  retry_loop sess req mr attempts c = (c', evs, f) ->
  error_count c' = error_count c
  /\ request_count c' = request_count c + Z.of_nat (attempts_made evs).
Proof.
  revert c c' evs f.
  induction attempts as [|i rest IH]; intros c c' evs f; simpl.
  { intros [= <- <- _]. unfold attempts_made. simpl. lia. }
  destruct (iteration sess req mr i) as [evs_i f_i] eqn:Ei.
  pose proof (iteration_sent _ _ _ _ _ _ Ei) as Hs.
  assert (Hstop :
    (c', evs, f) = ({| request_count := request_count c + 1;
                       error_count := error_count c |}, Sent i :: evs_i, f_i) ->
    error_count c' = error_count c
    /\ request_count c' = request_count c + Z.of_nat (attempts_made evs)).
  { intros [= -> -> ->]. unfold attempts_made. simpl. rewrite Hs. simpl. lia. }
  destruct f_i; try (intros H; apply Hstop; by rewrite H).
  destruct (retry_loop sess req mr rest _) as [[c2 evs2] f2] eqn:Er.
  intros [= <- <- <-]. apply IH in Er as [He Hr]. simpl in *.
  unfold attempts_made in *. simpl.
  rewrite sent_attempts_app, Hs. simpl. lia.
Qed.

(** The loop over [a, a+1, ..., a+n-1]: every iteration that ran is found in
    the trace, followed by the pauses of that iteration and then either by
    the next iteration or by the end of the loop. *)
Lemma retry_loop_trace sess req mr n : forall a c c' evs f i,
  retry_loop sess req mr (seq a n) c = (c', evs, f) ->
  In (Sent i) evs ->
  (a <= i < a + n)%nat /\
  exists pre evs_i f_i post,
    iteration sess req mr i = (evs_i, f_i)
    /\ evs = pre ++ Sent i :: evs_i ++ post
    /\ sent_attempts pre = seq a (i - a)
    /\ match f_i with
       | Next => (post = [] /\ S i = (a + n)%nat /\ f = Next)
                 \/ (exists post', post = Sent (S i) :: post' /\ (S i < a + n)%nat)
       | _ => post = [] /\ f = f_i
       end.
Proof.
  induction n as [|n IH]; intros a c c' evs f i; simpl.
  { by intros [= _ <- _] []. }
  destruct (iteration sess req mr a) as [evs_a f_a] eqn:Ea.
  pose proof (iteration_sent _ _ _ _ _ _ Ea) as Hs.
  assert (Hnot : forall l, In (Sent i) (evs_a ++ l) -> In (Sent i) l).
  { intros l [Hin|Hin]%in_app_or; [|done]. exfalso.
    assert (i ∈ sent_attempts evs_a) as Hi; [|rewrite Hs in Hi; by inversion Hi].
    apply list_elem_of_omap. exists (Sent i). split; [|done].
    by apply list_elem_of_In. }
  assert (Hstop : f_a <> Next ->
    (c', evs, f) = ({| request_count := request_count c + 1;
                       error_count := error_count c |}, Sent a :: evs_a, f_a) ->
    In (Sent i) evs ->
    (a <= i < a + S n)%nat /\
    exists pre evs_i f_i post,
      iteration sess req mr i = (evs_i, f_i)
      /\ evs = pre ++ Sent i :: evs_i ++ post
      /\ sent_attempts pre = seq a (i - a)
      /\ match f_i with
         | Next => (post = [] /\ S i = (a + S n)%nat /\ f = Next)
                   \/ (exists post', post = Sent (S i) :: post' /\ (S i < a + S n)%nat)
         | _ => post = [] /\ f = f_i
         end).
  { intros Hne [= -> -> ->] [[= <-]|Hin].
    - split; [lia|]. exists [], evs_a, f_a, []. rewrite Ea, app_nil_r, Nat.sub_diag.
      repeat split. by destruct f_a.
    - rewrite <-(app_nil_r evs_a) in Hin. by apply Hnot in Hin. }
  destruct f_a; try (intros H1 H2; apply Hstop; [done|by rewrite H1|done]).
  clear Hstop.
  destruct (retry_loop sess req mr (seq (S a) n) _) as [[c2 evs2] f2] eqn:Er.
  intros [= <- <- <-] [[= <-]|Hin].
  - split; [lia|]. exists [], evs_a, Next, evs2. rewrite Ea, Nat.sub_diag.
    repeat split. destruct n as [|n]; simpl in Er.
    + injection Er as <- <- <-. left. repeat split. lia.
    + right. destruct (iteration sess req mr (S a)) as [evs_b f_b].
      destruct f_b; try (injection Er as <- <- <-; eexists; split; [done|lia]).
      destruct (retry_loop sess req mr (seq (S (S a)) n) _) as [[c3 evs3] f3].
      injection Er as <- <- <-. eexists; split; [done|lia].
  - apply Hnot in Hin.
    destruct (IH _ _ _ _ _ _ Er Hin) as (Hi & pre & evs_i & f_i & post & Hit & -> & Hpre & Hpost).
    split; [lia|]. exists (Sent a :: evs_a ++ pre), evs_i, f_i, post.
    repeat split; [done|simpl; by rewrite <-app_assoc|..].
    + simpl. rewrite sent_attempts_app, Hs, Hpre. simpl.
      replace (i - a)%nat with (S (i - S a)) by lia. done.
    + destruct f_i; try done.
      destruct Hpost as [(-> & ? & ->)|(post' & -> & ?)].
      * left. repeat split. lia.
      * right. eexists; split; [done|lia].
Qed.

(** A loop that is left early is left by its last iteration. *)
Lemma retry_loop_exit sess req mr attempts : forall c c' evs f,
  retry_loop sess req mr attempts c = (c', evs, f) ->
  f <> Next ->
  exists i evs_i, In (Sent i) evs /\ iteration sess req mr i = (evs_i, f).
Proof.
  induction attempts as [|a rest IH]; intros c c' evs f; simpl.
  { by intros [= _ _ <-]. }
  destruct (iteration sess req mr a) as [evs_a f_a] eqn:Ea.
  destruct f_a;
    try (intros [= _ <- <-] _; exists a, evs_a; split; [by left|done]).
  destruct (retry_loop sess req mr rest _) as [[c2 evs2] f2] eqn:Er.
  intros [= _ <- <-] Hne.
  destruct (IH _ _ _ _ Er Hne) as (i & evs_i & Hin & Hit).
  exists i, evs_i. split; [|done]. right. apply in_or_app. by right.
Qed.

Lemma retry_loop_sent sess req mr n : forall a c c' evs f,
  retry_loop sess req mr (seq a n) c = (c', evs, f) ->
  exists k, (k <= n)%nat /\ sent_attempts evs = seq a k.
Proof.
  induction n as [|n IH]; intros a c c' evs f; simpl.
  { intros [= _ <- _]. by exists O. }
  destruct (iteration sess req mr a) as [evs_a f_a] eqn:Ea.
  pose proof (iteration_sent _ _ _ _ _ _ Ea) as Hs.
  destruct f_a;
    try (intros [= _ <- _]; exists 1%nat; split; [lia|]; simpl; by rewrite Hs).
  destruct (retry_loop sess req mr (seq (S a) n) _) as [[c2 evs2] f2] eqn:Er.
  intros [= _ <- _]. apply IH in Er as (k & Hk & Hsent).
  exists (S k). split; [lia|]. simpl. by rewrite sent_attempts_app, Hs, Hsent.
Qed.

Lemma sent_attempts_snoc pre i :
  sent_attempts (pre ++ [Sent i]) = sent_attempts pre ++ [i].
Proof. by rewrite sent_attempts_app. Qed.

(** A rate-limit answer never reaches the branch written for it: the status
    check has already raised, and the iteration is the one of a network
    error. *)
Lemma rate_limit_is_network_error (sess : session) req mr i resp :
  sess i req = Ok resp -> status_code resp = 429 ->
  attempt_result sess req i = Raise HTTPError
  /\ iteration sess req mr i =
       (if Z.of_nat i <? mr - 1 then [Slept (3 * (Z.of_nat i + 1))] else [], Next).
Proof.
  intros Hs H429.
  assert (attempt_result sess req i = Raise HTTPError) as H.
  { unfold attempt_result, try_body. by rewrite Hs, (status_429_raises _ H429). }
  split; [done|]. by apply (iteration_transient _ _ _ _ _ H).
Qed.

(** C1. Against a service that answers HTTP 429 to both attempts of a default
    call, the client pauses once, for 3 seconds, between the two attempts and
    gives up: the pauses of 10 and 20 seconds written for the rate-limit case
    do not happen, because [raise_for_status] has turned the answer into a
    network error before the status is compared with 429. *)
Theorem rate_limit_waits_like_network_error :
  _make_request rate_limited new_client Config.OVERPASS_URL None (Some "q") 2
  = ({| request_count := 2; error_count := 1 |},
     [Sent 0; Slept 3; Sent 1], Ok PNone)
  /\ sleeps [Sent 0; Slept 3; Sent 1] <> [10; 20]
  /\ attempt_result rate_limited (POST Config.OVERPASS_URL "q") 0 = Raise HTTPError.
Proof. repeat split. by vm_compute. Qed.

(** C9. Every iteration of the retry loop adds exactly one to
    [request_count], whatever the attempt does: a call that makes [n]
    attempts (iterations [0] to [n-1], at most [max_retries] of them) leaves
    the counter exactly [n] higher, and a single iteration leaves it one
    higher for every behaviour of the service. *)
Theorem request_count_counts_attempts sess c url params data max_retries :
  let '(c', evs, _) := _make_request sess c url params data max_retries in
  request_count c' = request_count c + Z.of_nat (attempts_made evs)
  /\ sent_attempts evs = seq 0 (attempts_made evs)
  /\ (attempts_made evs <= Z.to_nat max_retries)%nat
  /\ forall i c0,
       request_count (retry_loop sess (request_of url params data)
                        max_retries [i] c0).1.1 = request_count c0 + 1.
Proof.
  unfold _make_request, range.
  destruct (retry_loop _ _ _ (seq _ _) c) as [[c1 evs] f] eqn:E.
  destruct (retry_loop_counters _ _ _ _ _ _ _ _ E) as [_ Hr].
  destruct (retry_loop_sent _ _ _ _ _ _ _ _ _ E) as (k & Hk & Hsent).
  assert (attempts_made evs = k) as Hn.
  { unfold attempts_made. by rewrite Hsent, length_seq. }
  assert (forall i c0,
    request_count (retry_loop sess (request_of url params data)
                     max_retries [i] c0).1.1 = request_count c0 + 1) as Hone.
  { intros i c0. simpl. destruct (iteration _ _ _ i) as [evs_i []]; done. }
  destruct f; simpl; rewrite ?Hn; repeat split; try done; by rewrite <-Hn.
Qed.

(** C5. When an attempt of a call raises an exception that is not a
    [RequestException], that attempt is the last one: the trace ends with it,
    the attempts made are exactly those up to it, and the call returns [None]
    with the error counter one higher. *)
Theorem unexpected_failure_stops_retrying
  sess c url params data max_retries c' evs r i e :
  _make_request sess c url params data max_retries = (c', evs, r) ->
  In (Sent i) evs ->
  attempt_result sess (request_of url params data) i = Raise e ->
  is_RequestException e = false ->
  is_Exception e = true ->
  (exists pre, evs = pre ++ [Sent i])
  /\ sent_attempts evs = seq 0 (S i)
  /\ r = Ok PNone
  /\ error_count c' = error_count c + 1.
Proof.
  unfold _make_request, range. intros Hcall Hin Hres He He'.
  destruct (retry_loop _ _ _ (seq _ _) c) as [[c1 evs1] f] eqn:E.
  assert (evs1 = evs) as -> by (destruct f; by injection Hcall).
  destruct (retry_loop_counters _ _ _ _ _ _ _ _ E) as [Herr _].
  destruct (retry_loop_trace _ _ _ _ _ _ _ _ _ _ E Hin)
    as (_ & pre & evs_i & f_i & post & Hit & -> & Hpre & Hpost).
  rewrite (iteration_unexpected _ _ _ _ _ Hres He He') in Hit.
  injection Hit as <- <-. destruct Hpost as [-> ->]. simpl in Hcall.
  injection Hcall as <- <-.
  split; [by exists pre|]. split; [|split; [done|simpl; lia]].
  change (pre ++ Sent i :: [] ++ []) with (pre ++ [Sent i]).
  by rewrite sent_attempts_snoc, Hpre, Nat.sub_0_r, seq_S.
Qed.

Lemma unexpected_failure_stops_retrying_witness :
  exists c' evs r,
    _make_request flaky_then_garbled new_client Config.OVERPASS_URL None
      (Some "q") 5 = (c', evs, r)
    /\ sent_attempts evs = [0; 1]%nat /\ r = Ok PNone /\ error_count c' = 1.
Proof.
  eexists _, _, _. split; [reflexivity|].
  apply (unexpected_failure_stops_retrying flaky_then_garbled new_client
           Config.OVERPASS_URL None (Some "q") 5 _ _ _ 1%nat ValueError).
  - reflexivity.
  - simpl. auto.
  - reflexivity.
  - reflexivity.
  - reflexivity.
Defined.

(** C8. When an attempt of a call fails with a [RequestException], the client
    sleeps 3 seconds times the attempt number (counted from 1) and then makes
    the next attempt, unless the attempt was the last of the [max_retries]
    allowed, in which case the trace ends with it and no sleep follows. *)
Theorem transient_error_backoff
  sess c url params data max_retries c' evs r i e :
  _make_request sess c url params data max_retries = (c', evs, r) ->
  In (Sent i) evs ->
  attempt_result sess (request_of url params data) i = Raise e ->
  is_RequestException e = true ->
  (Z.of_nat i < max_retries - 1 ->
     exists pre post,
       evs = pre ++ Sent i :: Slept (3 * (Z.of_nat i + 1)) :: Sent (S i) :: post)
  /\ (max_retries - 1 <= Z.of_nat i -> exists pre, evs = pre ++ [Sent i]).
Proof.
  unfold _make_request, range. intros Hcall Hin Hres He.
  destruct (retry_loop _ _ _ (seq _ _) c) as [[c1 evs1] f] eqn:E.
  assert (evs1 = evs) as -> by (destruct f; by injection Hcall).
  destruct (retry_loop_trace _ _ _ _ _ _ _ _ _ _ E Hin)
    as (Hi & pre & evs_i & f_i & post & Hit & -> & _ & Hpost).
  rewrite (iteration_transient _ _ max_retries _ _ Hres He) in Hit.
  injection Hit as <- <-. split; intros Hlt.
  - assert ((Z.of_nat i <? max_retries - 1) = true) as -> by lia.
    destruct Hpost as [(_ & ? & _)|(post' & -> & _)]; [lia|].
    by exists pre, post'.
  - assert ((Z.of_nat i <? max_retries - 1) = false) as -> by lia.
    destruct Hpost as [(-> & _ & _)|(post' & _ & ?)]; [|lia].
    by exists pre.
Qed.

Lemma transient_error_backoff_witness :
  (Z.of_nat 0 < 2 - 1 ->
     exists pre post,
       [Sent 0; Slept 3; Sent 1]
       = (pre ++ Sent 0 :: Slept (3 * (Z.of_nat 0 + 1)) :: Sent 1 :: post))
  /\ (2 - 1 <= Z.of_nat 0 ->
       exists pre, [Sent 0; Slept 3; Sent 1] = (pre ++ [Sent 0])).
Proof.
  apply (transient_error_backoff unreachable new_client Config.OVERPASS_URL
           None (Some "q") 2 {| request_count := 2; error_count := 1 |}
           [Sent 0; Slept 3; Sent 1] (Ok PNone) 0%nat ConnectionError).
  - reflexivity.
  - simpl. auto.
  - reflexivity.
  - reflexivity.
Defined.

(** C4. A call in which no attempt obtained a decoded response (the attempts
    ran out, or one of them raised an unexpected exception and ended the
    loop) returns [None] and leaves the error counter exactly one higher,
    and [get_residential_buildings] answers such a call with the empty list.
    An exception leaves [_make_request] only if an attempt raised it and it
    is not an [Exception] at all, so no [RequestException] ever does. *)
Theorem exhausted_or_aborted_returns_none
  sess c url params data max_retries c' evs r :
  _make_request sess c url params data max_retries = (c', evs, r) ->
  (forall i v, In (Sent i) evs ->
     attempt_result sess (request_of url params data) i <> Ok (Return v)) ->
  (forall e, r = Raise e ->
     is_Exception e = false /\ is_RequestException e = false
     /\ exists i, In (Sent i) evs
          /\ attempt_result sess (request_of url params data) i = Raise e)
  /\ ((forall i e, In (Sent i) evs ->
         attempt_result sess (request_of url params data) i = Raise e ->
         is_Exception e = true) ->
      r = Ok PNone
      /\ error_count c' = error_count c + 1
      /\ parse_response PNone = Ok []
      /\ forall py_repr city limit,
           url = Config.OVERPASS_URL -> params = None ->
           data = Some (overpass_query py_repr city limit) -> max_retries = 2 ->
           get_residential_buildings py_repr sess c city limit = (c', evs, Ok [])).
Proof.
  intros Hcall Hnone.
  assert (Hcall' := Hcall). revert Hcall'. unfold _make_request at 1.
  destruct (retry_loop _ _ _ _ c) as [[c1 evs1] f] eqn:E.
  destruct (retry_loop_counters _ _ _ _ _ _ _ _ E) as [Herr _].
  intros Hcall'.
  assert (evs1 = evs) as -> by (destruct f; by injection Hcall').
  assert (Hexit : f <> Next ->
    exists i evs_i, In (Sent i) evs
      /\ iteration sess (request_of url params data) max_retries i = (evs_i, f)).
  { intros Hne. by eapply retry_loop_exit. }
  assert (Hfinish : f = Next \/ f = Break ->
    r = Ok PNone /\ error_count c' = error_count c + 1).
  { intros [-> | ->]; injection Hcall' as <- <-; simpl; split; (done || lia). }
  split.
  - intros e ->. destruct f as [| |v|e0]; try by injection Hcall'.
    injection Hcall' as <- ->.
    destruct Hexit as (i & evs_i & Hin & Hit); [done|].
    apply iteration_exit in Hit as [Hres He].
    repeat split; [done|by destruct e|by exists i].
  - intros Hexc.
    assert (f = Next \/ f = Break) as Hf.
    { destruct f as [| |v|e]; [by left|by right|..]; exfalso;
        (destruct Hexit as (i & evs_i & Hin & Hit); [done|]);
        apply iteration_exit in Hit.
      - by apply (Hnone i v).
      - destruct Hit as [Hres He]. apply (Hexc i e Hin) in Hres. congruence. }
    destruct (Hfinish Hf) as [-> Hcount].
    repeat split; [done|].
    intros py_repr city limit -> -> -> ->.
    unfold get_residential_buildings. by rewrite Hcall.
Qed.

Lemma exhausted_or_aborted_returns_none_witness :
  (_make_request flaky_then_garbled new_client Config.OVERPASS_URL None
     (Some "q") 2).2 = Ok PNone
  /\ error_count
       (_make_request flaky_then_garbled new_client Config.OVERPASS_URL None
          (Some "q") 2).1.1
     = error_count new_client + 1.
Proof.
  destruct (exhausted_or_aborted_returns_none flaky_then_garbled new_client
              Config.OVERPASS_URL None (Some "q") 2
              {| request_count := 2; error_count := 1 |}
              [Sent 0; Slept 3; Sent 1] (Ok PNone) eq_refl) as [_ H].
  - intros i v [[= <-]|[?|[[= <-]|[]]]]; done.
  - destruct H as (H1 & H2 & _).
    + intros i e [[= <-]|[?|[[= <-]|[]]]]; try done; by intros [= <-].
    + split; [exact H1|exact H2].
Defined.

(** ** The element parser *)

Lemma address_part_dict tags k :
  address_part (PDict tags) k
  = Ok (match dict_lookup k tags with Some v => [v] | None => [] end).
Proof.
  unfold address_part, py_in, py_item, dict_mem, dict_item. simpl.
  by destruct (dict_lookup k tags).
Qed.

Lemma element_position_dict d :
  match element_position (PDict d) with
  | Ok p => p = position_of d
  | Raise e => position_of d = None /\ is_Exception e = true
  end.
Proof.
  unfold element_position, position_of, py_item, py_in, dict_item, dict_mem.
  simpl. destruct (dict_lookup "type" d) as [type|]; simpl; [|done].
  destruct (py_eq_str type "node").
  - destruct (dict_lookup "lat" d); simpl; [|done].
    destruct (dict_lookup "lon" d); simpl; done.
  - destruct (dict_lookup "center" d) as [center|]; simpl; [|done].
    destruct center; simpl; try done.
    unfold dict_item.
    destruct (dict_lookup "lat" d0); simpl; [|done].
    destruct (dict_lookup "lon" d0); simpl; done.
Qed.

(** [strs_of] succeeds on the truthy items exactly when each item is a
    string or is dropped by the filter, and then yields the non-empty
    strings. *)
Lemma strs_of_filter parts :
  match strs_of (List.filter truthy parts) with
  | Ok strs => forallb (fun v => str_or_dropped (Some v)) parts = true
               /\ strs = omap text_of parts
  | Raise e => forallb (fun v => str_or_dropped (Some v)) parts = false
               /\ is_Exception e = true
  end.
Proof.
  induction parts as [|v parts IH]; [done|].
  cbn [List.filter forallb].
  destruct (truthy v) eqn:Hv.
  - destruct v; try (simpl in *; rewrite ?Hv; done).
    cbn [strs_of mbind result_bind].
    destruct (strs_of (List.filter truthy parts)).
    + destruct IH as [IH ->]. cbn [mbind result_bind]. rewrite IH.
      split; [done|]. cbn [omap list_omap text_of]. simpl in Hv.
      by destruct (String.eqb s EmptyString).
    + destruct IH as [IH ?]. cbn [mbind result_bind]. rewrite IH.
      by rewrite andb_false_r.
  - assert (str_or_dropped (Some v) = true) as ->.
    { destruct v; simpl in *; rewrite ?Hv; done. }
    assert (text_of v = None) as Ht.
    { destruct v; simpl in *; try done. by destruct (String.eqb s EmptyString). }
    destruct (strs_of (List.filter truthy parts)); [|done].
    destruct IH as [IH ->]. rewrite IH. split; [done|].
    cbn [omap list_omap]. by rewrite Ht.
Qed.

Lemma truthy_nonempty_str v :
  truthy v = true -> str_or_dropped (Some v) = nonempty_str (Some v).
Proof. destruct v; simpl; try done; by intros ->. Qed.

Lemma falsy_not_nonempty_str d k :
  truthy (dict_get k PNone d) = false -> nonempty_str (dict_lookup k d) = false.
Proof.
  unfold dict_get. destruct (dict_lookup k d) as [v|]; [|done].
  destruct v; simpl; try done.
Qed.

(** The parser computes [building_of]; whatever it raises is an
    [Exception], which the loop swallows. *)
Lemma parse_element_refines element :
  match parse_element element with
  | Ok r => r = building_of element
  | Raise e => building_of element = None /\ is_Exception e = true
  end.
Proof.
  destruct element as [| | | | |l|d]; try done.
  unfold parse_element. cbn [py_get mbind result_bind].
  unfold building_of, well_formed, tag_of.
  destruct (dict_lookup "tags" d) as [tags|] eqn:Htags.
  2:{ replace (dict_get "tags" (PDict []) d) with (PDict [])
        by (unfold dict_get; by rewrite Htags). done. }
  replace (dict_get "tags" (PDict []) d) with tags
    by (unfold dict_get; by rewrite Htags).
  destruct tags as [| | | | |l|tags]; try done.
  cbn [py_get mbind result_bind].
  destruct (truthy (dict_get "addr:housenumber" PNone tags)) eqn:Hhn; cbn [negb].
  2:{ by rewrite (falsy_not_nonempty_str _ _ Hhn). }
  destruct (truthy (dict_get "addr:street" PNone tags)) eqn:Hst; cbn [negb].
  2:{ by rewrite (falsy_not_nonempty_str _ _ Hst), andb_false_r. }
  pose proof (element_position_dict d) as Hpos.
  destruct (element_position (PDict d)) as [position|e]; cbn [mbind result_bind].
  2:{ destruct Hpos as [-> ?]. split; [|done].
      rewrite bool_decide_false by (by intros [? ?]).
      by rewrite andb_false_r. }
  subst position. destruct (position_of d) as [[lat lng]|] eqn:Epos.
  2:{ rewrite bool_decide_false by (by intros [? ?]). by rewrite andb_false_r. }
  rewrite bool_decide_true by done. rewrite andb_true_r.
  rewrite !address_part_dict. cbn [mbind result_bind].
  assert (address_of (PDict d)
          = str_join ", "
              (omap text_of
                 (match dict_lookup "addr:street" tags with
                  | Some v => [v] | None => [] end
                  ++ match dict_lookup "addr:housenumber" tags with
                     | Some v => [v] | None => [] end
                  ++ match dict_lookup "addr:postcode" tags with
                     | Some v => [v] | None => [] end
                  ++ match dict_lookup "addr:city" tags with
                     | Some v => [v] | None => [] end))) as ->.
  { unfold address_of, tag_list, tag_of. by rewrite Htags. }
  unfold dict_get in Hhn, Hst.
  destruct (dict_lookup "addr:housenumber" tags) as [vh|]; [|done].
  destruct (dict_lookup "addr:street" tags) as [vs|]; [|done].
  rewrite <-(truthy_nonempty_str _ Hhn), <-(truthy_nonempty_str _ Hst).
  match goal with |- context [strs_of (List.filter truthy ?l)] =>
    pose proof (strs_of_filter l) as Hstrs;
    destruct (strs_of (List.filter truthy l)) as [strs|e]
  end; cbn [mbind result_bind].
  - destruct Hstrs as [Hall ->].
    assert (str_or_dropped (Some vh) && str_or_dropped (Some vs)
            && str_or_dropped (dict_lookup "addr:postcode" tags)
            && str_or_dropped (dict_lookup "addr:city" tags) = true) as ->.
    { revert Hall. cbn [app forallb].
      destruct (dict_lookup "addr:postcode" tags), (dict_lookup "addr:city" tags);
        cbn [app forallb]; change (str_or_dropped None) with true;
        repeat match goal with
               | |- context [str_or_dropped (Some ?v)] =>
                 destruct (str_or_dropped (Some v))
               end; done. }
    unfold py_item, dict_item, dict_mem.
    destruct (dict_lookup "id" d); cbn [mbind result_bind andb]; [|done].
    unfold dict_get. done.
  - destruct Hstrs as [Hall ?]. split; [|done].
    assert (str_or_dropped (Some vh) && str_or_dropped (Some vs)
            && str_or_dropped (dict_lookup "addr:postcode" tags)
            && str_or_dropped (dict_lookup "addr:city" tags) = false) as ->.
    { revert Hall. cbn [app forallb].
      destruct (dict_lookup "addr:postcode" tags), (dict_lookup "addr:city" tags);
        cbn [app forallb]; change (str_or_dropped None) with true;
        repeat match goal with
               | |- context [str_or_dropped (Some ?v)] =>
                 destruct (str_or_dropped (Some v))
               end; done. }
    done.
Qed.

Lemma parsed_building_of element : parsed element = building_of element.
Proof.
  unfold parsed. pose proof (parse_element_refines element) as H.
  destruct (parse_element element) as [[b|]|e]; [done|done|by destruct H].
Qed.

Lemma omap_cons {A B} (f : A -> option B) x l :
  omap f (x :: l) = match f x with Some y => y :: omap f l | None => omap f l end.
Proof. done. Qed.

Lemma parse_elements_omap elements : forall buildings,
  parse_elements elements buildings = Ok (buildings ++ omap building_of elements).
Proof.
  induction elements as [|element rest IH]; intros buildings.
  { simpl. by rewrite app_nil_r. }
  rewrite omap_cons. cbn [parse_elements].
  pose proof (parse_element_refines element) as H.
  destruct (parse_element element) as [[b|]|e].
  - rewrite <-H, IH. by rewrite <-app_assoc.
  - by rewrite <-H, IH.
  - destruct H as [-> ->]. apply IH.
Qed.

(** Whatever the decoded response is, the records returned are the
    [building_of] of some list of items. *)
Lemma parse_response_items data bs :
  parse_response data = Ok bs -> exists items, bs = omap building_of items.
Proof.
  unfold parse_response.
  destruct (negb (truthy data)); [intros [= <-]; by exists []|].
  destruct (py_in "elements" data) as [has|]; cbn [mbind result_bind]; [|done].
  destruct (negb has); [intros [= <-]; by exists []|].
  destruct (py_item data "elements") as [elements|]; cbn [mbind result_bind]; [|done].
  destruct (py_iter elements) as [items|]; cbn [mbind result_bind]; [|done].
  rewrite parse_elements_omap. intros [= <-]. by exists items.
Qed.

Lemma parse_response_elements d es :
  dict_lookup "elements" d = Some (PList es) ->
  parse_response (PDict d) = Ok (omap building_of es).
Proof.
  intros H. unfold parse_response, py_in, py_item, dict_mem, dict_item.
  destruct d as [|kv d]; [done|]. cbn [truthy negb]. rewrite H.
  cbn [negb mbind result_bind py_iter]. by rewrite parse_elements_omap.
Qed.

Lemma building_of_well_formed element :
  is_Some (building_of element) <-> well_formed element = true.
Proof.
  unfold building_of. destruct element as [| | | | |l|d]; try (split; [by intros [? ?]|done]).
  destruct (well_formed (PDict d)) eqn:Hwf; [|split; [by intros [? ?]|done]].
  split; [done|intros _].
  unfold well_formed in Hwf.
  apply andb_prop in Hwf as [Hwf Hid]. apply andb_prop in Hwf as [_ Hpos].
  apply bool_decide_eq_true in Hpos as [[lat lng] ->].
  unfold dict_mem in Hid. by destruct (dict_lookup "id" d).
Qed.

Lemma omap_building_of_length es :
  forallb well_formed es = true -> length (omap building_of es) = length es.
Proof.
  induction es as [|e es IH]; [done|]. cbn [forallb]. rewrite omap_cons.
  intros [He Hes]%andb_prop.
  apply building_of_well_formed in He as [b ->]. simpl. by rewrite IH.
Qed.

Lemma str_join_nonempty sep s rest :
  s <> EmptyString -> str_join sep (s :: rest) <> EmptyString.
Proof.
  unfold str_join. destruct s as [|c s]; [done|]. intros _.
  destruct rest; simpl; done.
Qed.

Lemma address_of_nonempty element :
  well_formed element = true -> address_of element <> EmptyString.
Proof.
  destruct element as [| | | | |l|d]; try done.
  unfold well_formed, address_of, tag_list.
  intros Hwf. do 4 (apply andb_prop in Hwf as [Hwf _]).
  apply andb_prop in Hwf as [_ Hst].
  destruct (tag_of (PDict d) "addr:street") as [[]|]; try done.
  simpl in Hst. rewrite omap_app. cbn [omap list_omap text_of].
  destruct (String.eqb s EmptyString) eqn:E; [done|].
  apply str_join_nonempty. intros ->. done.
Qed.

(** The records returned for a decoded response whose [elements] entry is
    a list. *)
Lemma get_residential_buildings_elements py_repr sess c city limit c' evs d es :
  _make_request sess c Config.OVERPASS_URL None
    (Some (overpass_query py_repr city limit)) 2 = (c', evs, Ok (PDict d)) ->
  dict_lookup "elements" d = Some (PList es) ->
  get_residential_buildings py_repr sess c city limit
  = (c', evs, Ok (omap building_of es)).
Proof.
  intros Hreq Hd. unfold get_residential_buildings. rewrite Hreq.
  by rewrite (parse_response_elements _ _ Hd).
Qed.

(** C6. [get_residential_buildings] parses element by element and an element
    that cannot be parsed costs only itself: whatever the service did, once
    the request returned a decoded response whose [elements] entry is a
    list, the records returned are those of the elements, in order, each
    element contributing its record or nothing, and it contributes a record
    exactly when it is well formed.  An element without a house-number tag
    or without a street tag contributes nothing; the coordinates of a record
    are the element's own for a node and those of its [center] otherwise,
    and an element that is not a node and has no [center] contributes
    nothing.  So a batch made of well-formed elements and one malformed
    element yields the records of the well-formed ones, as many as there
    are, and the Berlin response of three elements, one of them without a
    street, yields the two records of the others. *)
Theorem skip_and_continue_parsing :
  (forall py_repr sess c city limit c' evs d es,
     _make_request sess c Config.OVERPASS_URL None
       (Some (overpass_query py_repr city limit)) 2
     = (c', evs, Ok (PDict d)) ->
     dict_lookup "elements" d = Some (PList es) ->
     get_residential_buildings py_repr sess c city limit
     = (c', evs, Ok (omap building_of es)))
  /\ (forall element, parsed element = building_of element)
  /\ (forall element,
        is_Some (building_of element) <-> well_formed element = true)
  /\ (forall element,
        tag_of element "addr:housenumber" = None
        \/ tag_of element "addr:street" = None ->
        building_of element = None)
  /\ (forall d b, building_of (PDict d) = Some b ->
        exists type lat lng,
          dict_lookup "type" d = Some type
          /\ dict_lookup "lat" b = Some lat /\ dict_lookup "lng" b = Some lng
          /\ if py_eq_str type "node"
             then dict_lookup "lat" d = Some lat /\ dict_lookup "lon" d = Some lng
             else exists center,
                    dict_lookup "center" d = Some (PDict center)
                    /\ dict_lookup "lat" center = Some lat
                    /\ dict_lookup "lon" center = Some lng)
  /\ (forall d type, dict_lookup "type" d = Some type ->
        py_eq_str type "node" = false -> dict_lookup "center" d = None ->
        building_of (PDict d) = None)
  /\ (forall py_repr sess c city limit c' evs d pre malformed post,
        _make_request sess c Config.OVERPASS_URL None
          (Some (overpass_query py_repr city limit)) 2
        = (c', evs, Ok (PDict d)) ->
        dict_lookup "elements" d = Some (PList (pre ++ malformed :: post)) ->
        forallb well_formed (pre ++ post) = true ->
        well_formed malformed = false ->
        get_residential_buildings py_repr sess c city limit
        = (c', evs, Ok (omap building_of (pre ++ post)))
        /\ length (omap building_of (pre ++ post)) = length (pre ++ post))
  /\ get_residential_buildings sample_repr berlin_service new_client berlin 4
     = ({| request_count := 1; error_count := 0 |}, [Sent 0%nat],
        Ok [[("address", PStr "Muster Str, 12, 10115, Berlin");
             ("lat", binary64 7391532888421827 (-47));
             ("lng", binary64 7546344125612687 (-49));
             ("osm_id", PInt 123456789);
             ("building_type", PStr "residential"); ("levels", PStr "3")];
            [("address", PStr "Pariser Platz, 1");
             ("lat", binary64 7391012159714912 (-47));
             ("lng", binary64 7530975591884286 (-49));
             ("osm_id", PInt 3); ("building_type", PStr "apartments");
             ("levels", PStr "N/A")]]).
Proof.
  split; [exact get_residential_buildings_elements|].
  split; [exact parsed_building_of|].
  split; [exact building_of_well_formed|].
  split.
  { intros [| | | | |l|d] H; try done. unfold building_of, well_formed.
    destruct H as [-> | ->]; [done|]. by rewrite andb_false_r. }
  split.
  { intros d b. unfold building_of.
    destruct (well_formed (PDict d)); [|done].
    destruct (position_of d) as [[lat lng]|] eqn:Hpos; [|done].
    destruct (dict_lookup "id" d) as [osm_id|]; [|done].
    intros [= <-]. revert Hpos. unfold position_of.
    destruct (dict_lookup "type" d) as [type|]; [|done].
    intros Hpos. exists type, lat, lng. repeat split.
    destruct (py_eq_str type "node").
    - destruct (dict_lookup "lat" d), (dict_lookup "lon" d); try done.
      by injection Hpos as -> ->.
    - destruct (dict_lookup "center" d) as [[| | | | | |center]|]; try done.
      exists center. split; [done|].
      destruct (dict_lookup "lat" center), (dict_lookup "lon" center); try done.
      by injection Hpos as -> ->. }
  split.
  { intros d type Htype Hnode Hcenter. unfold building_of, well_formed, position_of.
    rewrite Htype, Hnode, Hcenter.
    rewrite bool_decide_false by (by intros [? ?]).
    by rewrite andb_false_r. }
  split.
  { intros py_repr sess c city limit c' evs d pre malformed post
      Hreq Hd Hwf Hbad.
    split; [|by apply omap_building_of_length].
    rewrite (get_residential_buildings_elements _ _ _ _ _ _ _ _ _ Hreq Hd).
    rewrite !omap_app, omap_cons.
    destruct (building_of malformed) as [b|] eqn:Hb; [|done].
    assert (is_Some (building_of malformed)) as Hs by (by exists b).
    apply building_of_well_formed in Hs. congruence. }
  reflexivity.
Qed.

Lemma skip_and_continue_parsing_witness :
  get_residential_buildings sample_repr berlin_service new_client berlin 4
  = ({| request_count := 1; error_count := 0 |}, [Sent 0%nat],
     Ok (omap building_of ([berlin_node] ++ [berlin_way])))
  /\ length (omap building_of ([berlin_node] ++ [berlin_way]))
     = length ([berlin_node] ++ [berlin_way]).
Proof.
  destruct skip_and_continue_parsing as (_ & _ & _ & _ & _ & _ & H & _).
  apply (H sample_repr berlin_service new_client berlin 4
           {| request_count := 1; error_count := 0 |} [Sent 0%nat]
           [("version", PFloat (S754_finite false 5404319552844595 (-53)));
            ("elements", PList [berlin_node; berlin_no_street; berlin_way])]
           [berlin_node] berlin_no_street [berlin_way]);
    reflexivity.
Defined.

(** C10. Every record [get_residential_buildings] returns carries a
    non-empty address string: it is the record of a well-formed element,
    whose house-number and street tags are non-empty strings, and its
    address joins those (and any postcode and city) with a comma and a
    space.  The test [not address] of [add_house] is therefore false on
    such a record. *)
Theorem client_records_have_address py_repr sess c city limit c' evs bs b :
  get_residential_buildings py_repr sess c city limit = (c', evs, Ok bs) ->
  In b bs ->
  exists element,
    building_of element = Some b
    /\ nonempty_str (tag_of element "addr:housenumber") = true
    /\ nonempty_str (tag_of element "addr:street") = true
    /\ dict_item "address" b = Ok (PStr (address_of element))
    /\ address_of element <> EmptyString
    /\ negb (truthy (PStr (address_of element))) = false.
Proof.
  unfold get_residential_buildings.
  destruct (_make_request _ _ _ _ _ _) as [[c1 evs1] [data|e]]; [|done].
  intros [= _ _ Hparse] Hin.
  apply parse_response_items in Hparse as [items ->].
  apply list_elem_of_In, list_elem_of_omap in Hin as (element & _ & Hb).
  exists element. split; [done|].
  assert (well_formed element = true) as Hwf.
  { apply building_of_well_formed. by exists b. }
  pose proof (address_of_nonempty _ Hwf) as Hne.
  assert (dict_item "address" b = Ok (PStr (address_of element))) as Haddr.
  { revert Hb. unfold building_of. destruct element; try done. rewrite Hwf.
    destruct (position_of d) as [[lat lng]|]; [|done].
    destruct (dict_lookup "id" d); [|done]. by intros [= <-]. }
  assert (truthy (PStr (address_of element)) = true) as Ht.
  { simpl. destruct (address_of element); done. }
  destruct element; try done. unfold well_formed in Hwf.
  do 4 (apply andb_prop in Hwf as [Hwf _]). apply andb_prop in Hwf as [? ?].
  by rewrite Ht.
Qed.

Lemma client_records_have_address_witness :
  exists element,
    building_of element
    = Some [("address", PStr "Pariser Platz, 1");
            ("lat", binary64 7391012159714912 (-47));
            ("lng", binary64 7530975591884286 (-49));
            ("osm_id", PInt 3); ("building_type", PStr "apartments");
            ("levels", PStr "N/A")]
    /\ nonempty_str (tag_of element "addr:housenumber") = true
    /\ nonempty_str (tag_of element "addr:street") = true
    /\ dict_item "address"
         [("address", PStr "Pariser Platz, 1");
          ("lat", binary64 7391012159714912 (-47));
          ("lng", binary64 7530975591884286 (-49));
          ("osm_id", PInt 3); ("building_type", PStr "apartments");
          ("levels", PStr "N/A")]
       = Ok (PStr (address_of element))
    /\ address_of element <> EmptyString
    /\ negb (truthy (PStr (address_of element))) = false.
Proof.
  eapply (client_records_have_address sample_repr berlin_service new_client
            berlin 4).
  - reflexivity.
  - simpl. right. left. reflexivity.
Defined.

(** ** Strings *)

#[local] Arguments String.append : simpl nomatch.

Lemma append_nil_r (s : string) : s +:+ EmptyString = s.
Proof. induction s as [|c s IH]; simpl; [done|by rewrite IH]. Qed.

Lemma append_assoc (a b c : string) : (a +:+ b) +:+ c = a +:+ (b +:+ c).
Proof. induction a as [|x a IH]; simpl; [done|by rewrite IH]. Qed.

Lemma has_char_app c a b :
  has_char c (a +:+ b) = has_char c a || has_char c b.
Proof.
  induction a as [|x a IH]; simpl; [done|]. rewrite IH. by rewrite orb_assoc.
Qed.

Lemma str_replace_gone a b s : a <> b -> has_char a (str_replace a b s) = false.
Proof.
  intros Hab. induction s as [|c s IH]; simpl; [done|]. rewrite IH, orb_false_r.
  destruct (Ascii.eqb c a) eqn:E; [|done].
  apply Ascii.eqb_neq. congruence.
Qed.

Lemma str_replace_get a b s : forall i c,
  String.get i s = Some c ->
  String.get i (str_replace a b s) = Some (if Ascii.eqb c a then b else c).
Proof.
  induction s as [|c' s IH]; intros i c; [done|].
  destruct i as [|i]; cbn [String.get str_replace].
  - by intros [= ->].
  - apply IH.
Qed.

Lemma str_replace_length a b s :
  String.length (str_replace a b s) = String.length s.
Proof. induction s as [|c s IH]; simpl; [done|by rewrite IH]. Qed.

Lemma chars_in_app allowed a b :
  chars_in allowed a -> chars_in allowed b -> chars_in allowed (a +:+ b).
Proof.
  intros Ha Hb c. rewrite has_char_app. intros [H|H]%orb_prop; auto.
Qed.

Lemma chars_in_cons allowed c s :
  has_char c allowed = true -> chars_in allowed s -> chars_in allowed (String c s).
Proof.
  intros Hc Hs x. simpl. intros [H|H]%orb_prop; [|auto].
  apply Ascii.eqb_eq in H. by subst.
Qed.

Lemma chars_in_nil allowed : chars_in allowed EmptyString.
Proof. by intros c. Qed.

Lemma chars_in_absent allowed s c :
  chars_in allowed s -> has_char c allowed = false -> has_char c s = false.
Proof.
  intros Hs Hc. destruct (has_char c s) eqn:E; [|done].
  apply Hs in E. congruence.
Qed.

Create HintDb chars.
#[local] Hint Resolve chars_in_app chars_in_cons chars_in_nil : chars.

Ltac chars_in_literal :=
  repeat (apply chars_in_cons; [reflexivity|]); apply chars_in_nil.

Lemma pretty_N_char_numeric x : has_char (pretty_N_char x) NUMERIC = true.
Proof. unfold pretty_N_char. by repeat case_match. Qed.

Lemma pretty_N_go_numeric x : forall s,
  chars_in NUMERIC s -> chars_in NUMERIC (pretty_N_go x s).
Proof.
  induction (N.lt_wf_0 x) as [x _ IH]; intros s Hs.
  destruct (decide (x = 0)%N) as [->|Hx]; [by rewrite pretty_N_go_0|].
  rewrite pretty_N_go_step by lia.
  apply IH; [apply N.div_lt; lia|].
  apply chars_in_cons; [apply pretty_N_char_numeric|done].
Qed.

Lemma pretty_N_numeric (x : N) : chars_in NUMERIC (pretty x).
Proof.
  unfold pretty, pretty_N. case_decide; [chars_in_literal|].
  apply pretty_N_go_numeric, chars_in_nil.
Qed.

Lemma str_times_chars allowed s n :
  chars_in allowed s -> chars_in allowed (str_times s n).
Proof. intros Hs. induction n; simpl; auto with chars. Qed.

Lemma zero_pad_numeric width n : chars_in NUMERIC (zero_pad width n).
Proof.
  unfold zero_pad. apply chars_in_app; [|apply pretty_N_numeric].
  apply str_times_chars. chars_in_literal.
Qed.

Lemma strftime_numeric dt : chars_in NUMERIC (strftime dt).
Proof.
  unfold strftime.
  repeat (apply chars_in_app; [first [apply zero_pad_numeric|chars_in_literal]|]).
  apply zero_pad_numeric.
Qed.

Lemma float_fixed6_numeric x : chars_in NUMERIC (float_fixed6 x).
Proof.
  destruct x as [s|s| |s m e]; simpl; try (destruct s; chars_in_literal).
  - chars_in_literal.
  - apply chars_in_app; [destruct s; chars_in_literal|].
    apply chars_in_app; [apply pretty_N_numeric|].
    apply chars_in_cons; [reflexivity|apply zero_pad_numeric].
Qed.

Lemma format_fixed6_numeric v s :
  format_fixed6 v = Ok s -> chars_in NUMERIC s.
Proof.
  destruct v; simpl; try done.
  - destruct b; intros [= <-]; chars_in_literal.
  - destruct (float_of_int z); simpl; [|done].
    intros [= <-]. apply float_fixed6_numeric.
  - intros [= <-]. apply float_fixed6_numeric.
Qed.

(** ** Splitting a log line *)

(** A separator cannot start inside, or at the end of, a field without a
    pipe that is followed by a separator. *)
Lemma no_separator_in_field c f rest :
  has_char PIPE (String c f) = false ->
  startswith SEP (String c (f +:+ SEP +:+ rest)) = false.
Proof.
  unfold SEP. cbn [has_char startswith]. intros [_ Hf]%orb_false_elim.
  destruct (Ascii.eqb " " c); [|done]. cbn [andb].
  destruct f as [|c' f]; [done|].
  change (String c' f +:+ " | " +:+ rest) with (String c' (f +:+ " | " +:+ rest)).
  cbn [has_char] in Hf. apply orb_false_elim in Hf as [Hc _].
  rewrite Ascii.eqb_sym in Hc. unfold PIPE in Hc. by rewrite Hc.
Qed.

Lemma no_separator_in_last_field c f :
  has_char PIPE (String c f) = false -> startswith SEP (String c f) = false.
Proof.
  unfold SEP. cbn [has_char startswith]. intros [_ Hf]%orb_false_elim.
  destruct (Ascii.eqb " " c); [|done]. cbn [andb].
  destruct f as [|c' f]; [done|].
  cbn [has_char] in Hf. apply orb_false_elim in Hf as [Hc _].
  rewrite Ascii.eqb_sym in Hc. unfold PIPE in Hc. by rewrite Hc.
Qed.

Lemma split_go_field f : forall cur rest,
  has_char PIPE f = false ->
  split_go SEP 0 cur (f +:+ SEP +:+ rest)
  = (cur +:+ f) :: split_go SEP 0 EmptyString rest.
Proof.
  induction f as [|c f IH]; intros cur rest Hf.
  { rewrite append_nil_r. unfold SEP. done. }
  change (String c f +:+ SEP +:+ rest) with (String c (f +:+ SEP +:+ rest)).
  cbn [split_go]. rewrite (no_separator_in_field _ _ _ Hf).
  cbn [has_char] in Hf. apply orb_false_elim in Hf as [_ Hf].
  rewrite IH by done. by rewrite append_assoc.
Qed.

Lemma split_go_last_field f : forall cur,
  has_char PIPE f = false -> split_go SEP 0 cur f = [cur +:+ f].
Proof.
  induction f as [|c f IH]; intros cur Hf.
  { by rewrite append_nil_r. }
  cbn [split_go]. rewrite (no_separator_in_last_field _ _ Hf).
  cbn [has_char] in Hf. apply orb_false_elim in Hf as [_ Hf].
  rewrite IH by done. by rewrite append_assoc.
Qed.

(** Joining fields that hold no pipe and splitting the result gives the
    fields back. *)
Lemma split_join fields :
  fields <> [] ->
  forallb (fun f => negb (has_char PIPE f)) fields = true ->
  str_split SEP (str_join SEP fields) = fields.
Proof.
  unfold str_split, str_join.
  induction fields as [|f fields IH]; [done|]. intros _.
  cbn [forallb]. intros [Hf Hfs]%andb_prop. apply negb_true_iff in Hf.
  destruct fields as [|g fields].
  { cbn [String.concat]. by rewrite split_go_last_field. }
  change (String.concat SEP (f :: g :: fields))
    with (f +:+ SEP +:+ String.concat SEP (g :: fields)).
  rewrite split_go_field by done.
  f_equal. by apply IH.
Qed.

(** ** add_house *)

Lemma format_fixed6_raises v e :
  format_fixed6 v = Raise e -> is_Exception e = true.
Proof.
  destruct v; simpl; try (by intros [= <-]).
  unfold float_of_int. destruct (binary_normalize _ _ _ _ _); simpl; try done.
  by intros [= <-].
Qed.

Lemma house_line_raises py_repr now country city a data e :
  house_line py_repr now country city a data = Raise e -> is_Exception e = true.
Proof.
  unfold house_line, dict_item.
  destruct (dict_lookup "lat" data) as [lat|]; cbn [mbind result_bind];
    [|by intros [= <-]].
  destruct (format_fixed6 lat) as [lat_s|e1] eqn:E1; cbn [mbind result_bind];
    [|intros [= <-]; by eapply format_fixed6_raises].
  destruct (dict_lookup "lng" data) as [lng|]; cbn [mbind result_bind];
    [|by intros [= <-]].
  destruct (format_fixed6 lng) as [lng_s|e2] eqn:E2; cbn [mbind result_bind];
    [|intros [= <-]; by eapply format_fixed6_raises].
  destruct (dict_lookup "osm_id" data); cbn [mbind result_bind];
    [|by intros [= <-]].
  destruct (dict_lookup "building_type" data); cbn [mbind result_bind];
    [|by intros [= <-]].
  destruct (dict_lookup "levels" data); cbn [mbind result_bind];
    [done|by intros [= <-]].
Qed.

(** What [add_house] does, case by case. *)
Lemma add_house_cases py_repr now disk hm country city data :
  add_house py_repr now disk hm country city data =
  match dict_lookup "address" data with
  | Some (PStr a) =>
    if String.eqb a EmptyString || bool_decide (a ∈ existing_addresses hm)
    then (hm, Ok false)
    else
      match house_line py_repr now country city a data with
      | Raise _ => (hm, Ok false)
      | Ok line =>
        match disk with
        | Appended =>
          ({| existing_addresses := {[a]} ∪ existing_addresses hm;
              houses_file := houses_file hm +:+ line |}, Ok true)
        | AppendFailed e written =>
          ({| existing_addresses := existing_addresses hm;
              houses_file := houses_file hm +:+ str_prefix written line |},
           if is_Exception e then Ok false else Raise e)
        end
      end
  | _ => (hm, Ok false)
  end.
Proof.
  unfold add_house, add_house_try, add_house_line, dict_item.
  destruct (dict_lookup "address" data) as [address|]; [|done].
  cbn [mbind result_bind].
  destruct address as [|b|z|x|a|l|d];
    [done|by destruct b|cbn [truthy]; by destruct (z =? 0)|by destruct x|
     |by destruct l|by destruct d].
  cbn [truthy]. destruct (String.eqb a EmptyString); [done|].
  cbn [negb py_in_set mbind result_bind orb].
  destruct (bool_decide (a ∈ existing_addresses hm)); [done|].
  destruct (house_line py_repr now country city a data) as [line|e] eqn:E;
    cbn [mbind result_bind].
  - destruct disk as [|e n]; [done|]. by destruct (is_Exception e).
  - by rewrite (house_line_raises _ _ _ _ _ _ _ E).
Qed.

Lemma add_house_true py_repr now disk hm country city data hm' :
  add_house py_repr now disk hm country city data = (hm', Ok true) ->
  exists a line,
    dict_lookup "address" data = Some (PStr a)
    /\ a <> EmptyString
    /\ (a ∉ existing_addresses hm)
    /\ house_line py_repr now country city a data = Ok line
    /\ disk = Appended
    /\ hm' = {| existing_addresses := {[a]} ∪ existing_addresses hm;
                houses_file := houses_file hm +:+ line |}.
Proof.
  rewrite add_house_cases.
  destruct (dict_lookup "address" data) as [[| | | |a| |]|]; try done.
  destruct (String.eqb a EmptyString) eqn:Ea; [done|].
  case_bool_decide as Hin; [done|]. cbn [orb].
  destruct (house_line py_repr now country city a data) as [line|] eqn:El;
    [|done].
  destruct disk as [|e n]; [|by destruct (is_Exception e)].
  intros [= <-]. exists a, line. split_and!; try done.
  by intros ->.
Qed.

Lemma manager_eq (hm hm' : HousesManager) :
  existing_addresses hm' = existing_addresses hm ->
  houses_file hm' = houses_file hm -> hm' = hm.
Proof. destruct hm, hm'. simpl. by intros -> ->. Qed.

(** A call that does not return [True] records no address; it changes the
    log only when its append broke off after at least one byte. *)
Lemma add_house_not_true py_repr now disk hm country city data hm' r :
  add_house py_repr now disk hm country city data = (hm', r) ->
  r <> Ok true ->
  existing_addresses hm' = existing_addresses hm
  /\ (houses_file hm' <> houses_file hm ->
      exists e n, disk = AppendFailed e (S n)).
Proof.
  rewrite add_house_cases.
  destruct (dict_lookup "address" data) as [[| | | |a| |]|];
    try (by intros [= <- _]).
  destruct (_ || _); [by intros [= <- _]|].
  destruct (house_line py_repr now country city a data); [|by intros [= <- _]].
  destruct disk as [|e n]; [by intros [= _ <-]|].
  intros [= <- _] _. split; [done|]. cbn [houses_file].
  destruct n as [|n]; [|by eexists _, _].
  intros H. destruct H. cbn [str_prefix]. apply append_nil_r.
Qed.

(** The columns of a formatted line. *)
Lemma house_line_fields py_repr now country city a data line :
  house_line py_repr now country city a data = Ok line ->
  exists lat lng lat_s lng_s,
    dict_lookup "lat" data = Some lat /\ format_fixed6 lat = Ok lat_s
    /\ dict_lookup "lng" data = Some lng /\ format_fixed6 lng = Ok lng_s
    /\ line = str_join SEP
                [strftime now; country; city; str_replace PIPE COMMA a;
                 lat_s; lng_s; field_text py_repr data "osm_id";
                 field_text py_repr data "building_type";
                 field_text py_repr data "levels" +:+ NL].
Proof.
  unfold house_line, dict_item, field_text.
  destruct (dict_lookup "lat" data) as [lat|]; cbn [mbind result_bind]; [|done].
  destruct (format_fixed6 lat) as [lat_s|] eqn:E1; cbn [mbind result_bind];
    [|done].
  destruct (dict_lookup "lng" data) as [lng|]; cbn [mbind result_bind]; [|done].
  destruct (format_fixed6 lng) as [lng_s|] eqn:E2; cbn [mbind result_bind];
    [|done].
  destruct (dict_lookup "osm_id" data); cbn [mbind result_bind]; [|done].
  destruct (dict_lookup "building_type" data); cbn [mbind result_bind]; [|done].
  destruct (dict_lookup "levels" data); cbn [mbind result_bind]; [|done].
  intros [= <-]. exists lat, lng, lat_s, lng_s. split_and!; done || reflexivity.
Qed.

Lemma numeric_no_pipe s : chars_in NUMERIC s -> has_char PIPE s = false.
Proof. intros H. apply (chars_in_absent NUMERIC); [done|reflexivity]. Qed.

(** The columns of the line of a record hold no separator when the texts
    the caller supplies beside the address hold no pipe. *)
Lemma house_line_columns py_repr now country city a data lat lng lat_s lng_s :
  format_fixed6 lat = Ok lat_s -> format_fixed6 lng = Ok lng_s ->
  pipe_free_fields py_repr country city data = true ->
  forallb (fun f => negb (has_char PIPE f))
    [strftime now; country; city; str_replace PIPE COMMA a; lat_s; lng_s;
     field_text py_repr data "osm_id";
     field_text py_repr data "building_type";
     field_text py_repr data "levels" +:+ NL] = true.
Proof.
  intros Hlat Hlng Hfree. unfold pipe_free_fields in Hfree.
  apply andb_prop in Hfree as [Hfree Hlv]. apply andb_prop in Hfree as [Hfree Hbt].
  apply andb_prop in Hfree as [Hfree Hid]. apply andb_prop in Hfree as [Hco Hci].
  cbn [forallb]. rewrite Hco, Hci, Hid, Hbt.
  rewrite str_replace_gone by done.
  rewrite (numeric_no_pipe _ (strftime_numeric now)).
  rewrite (numeric_no_pipe _ (format_fixed6_numeric _ _ Hlat)).
  rewrite (numeric_no_pipe _ (format_fixed6_numeric _ _ Hlng)).
  rewrite has_char_app. apply negb_true_iff in Hlv. by rewrite Hlv.
Qed.

(** C7 (amended). Every accepted record is stored with every pipe of its
    address replaced by a comma: the line appended to the log is the
    timestamp, the country, the city, the sanitized address, the two
    coordinates and the three remaining fields joined by the column
    separator, and the sanitized address holds no pipe and differs from the
    address only where that had one.  The address itself, unsanitized, joins
    the seen-address set.  When the country, the city and the text of the OSM
    id, building type and levels hold no pipe either, splitting the appended
    line on the column separator gives back exactly these nine columns. *)
Theorem sanitized_address_line py_repr now disk hm country city data hm' :
  add_house py_repr now disk hm country city data = (hm', Ok true) ->
  exists a line lat_s lng_s,
    dict_lookup "address" data = Some (PStr a)
    /\ houses_file hm' = houses_file hm +:+ line
    /\ existing_addresses hm' = {[a]} ∪ existing_addresses hm
    /\ line = str_join SEP
                [strftime now; country; city; str_replace PIPE COMMA a;
                 lat_s; lng_s; field_text py_repr data "osm_id";
                 field_text py_repr data "building_type";
                 field_text py_repr data "levels" +:+ NL]
    /\ has_char PIPE (str_replace PIPE COMMA a) = false
    /\ String.length (str_replace PIPE COMMA a) = String.length a
    /\ (forall i c, String.get i a = Some c ->
          String.get i (str_replace PIPE COMMA a)
          = Some (if Ascii.eqb c PIPE then COMMA else c))
    /\ (pipe_free_fields py_repr country city data = true ->
        str_split SEP line
        = [strftime now; country; city; str_replace PIPE COMMA a; lat_s; lng_s;
           field_text py_repr data "osm_id";
           field_text py_repr data "building_type";
           field_text py_repr data "levels" +:+ NL]
        /\ length (str_split SEP line) = 9%nat).
Proof.
  intros Hadd.
  apply add_house_true in Hadd as (a & line & Ha & _ & _ & Hline & _ & ->).
  apply house_line_fields in Hline
    as (lat & lng & lat_s & lng_s & _ & Hlat & _ & Hlng & ->).
  eexists a, _, lat_s, lng_s.
  split_and!; try done.
  - by apply str_replace_gone.
  - apply str_replace_length.
  - apply str_replace_get.
  - intros Hfree.
    pose proof (house_line_columns py_repr now country city a data lat lng
                  lat_s lng_s Hlat Hlng Hfree) as Hcols.
    split.
    + by apply split_join.
    + by rewrite split_join.
Qed.

Lemma sanitized_address_line_witness :
  exists a line lat_s lng_s,
    dict_lookup "address" (house "Main St | 1" "residential") = Some (PStr a)
    /\ houses_file
         (add_house sample_repr noon Appended fresh "Germany" "Berlin"
            (house "Main St | 1" "residential")).1
       = houses_file fresh +:+ line
    /\ existing_addresses
         (add_house sample_repr noon Appended fresh "Germany" "Berlin"
            (house "Main St | 1" "residential")).1
       = {[a]} ∪ existing_addresses fresh
    /\ line = str_join SEP
                [strftime noon; "Germany"; "Berlin"; str_replace PIPE COMMA a;
                 lat_s; lng_s;
                 field_text sample_repr (house "Main St | 1" "residential")
                   "osm_id";
                 field_text sample_repr (house "Main St | 1" "residential")
                   "building_type";
                 field_text sample_repr (house "Main St | 1" "residential")
                   "levels" +:+ NL]
    /\ has_char PIPE (str_replace PIPE COMMA a) = false
    /\ String.length (str_replace PIPE COMMA a) = String.length a
    /\ (forall i c, String.get i a = Some c ->
          String.get i (str_replace PIPE COMMA a)
          = Some (if Ascii.eqb c PIPE then COMMA else c))
    /\ (pipe_free_fields sample_repr "Germany" "Berlin"
          (house "Main St | 1" "residential") = true ->
        str_split SEP line
        = [strftime noon; "Germany"; "Berlin"; str_replace PIPE COMMA a;
           lat_s; lng_s;
           field_text sample_repr (house "Main St | 1" "residential") "osm_id";
           field_text sample_repr (house "Main St | 1" "residential")
             "building_type";
           field_text sample_repr (house "Main St | 1" "residential") "levels"
           +:+ NL]
        /\ length (str_split SEP line) = 9%nat).
Proof.
  apply (sanitized_address_line sample_repr noon Appended fresh "Germany"
           "Berlin" (house "Main St | 1" "residential")).
  by vm_compute.
Defined.

(** C7, the claim as stated: a pipe in the building type is written to the
    log as it is, and the line of an accepted record whose address holds a
    pipe then splits into ten columns. *)
Lemma pipe_outside_address_adds_column :
  has_char PIPE "Main St | 1" = true
  /\ (add_house sample_repr noon Appended fresh "Germany" "Berlin"
        (house "Main St | 1" "semi | detached")).2 = Ok true
  /\ houses_file
       (add_house sample_repr noon Appended fresh "Germany" "Berlin"
          (house "Main St | 1" "semi | detached")).1
     = HEADER
       +:+ "2024-01-01 12:00:00 | Germany | Berlin | Main St , 1 | 52.520000 | 13.405000 | 123456789 | semi | detached | 3"
       +:+ NL
  /\ length
       (str_split SEP
          ("2024-01-01 12:00:00 | Germany | Berlin | Main St , 1 | 52.520000 | 13.405000 | 123456789 | semi | detached | 3"
           +:+ NL)) = 10%nat.
Proof. by vm_compute. Qed.

(** ** Counting the lines of the log *)

Lemma ends_lf_cons c s :
  s <> EmptyString -> ends_lf (String c s) = ends_lf s.
Proof. by destruct s. Qed.

Lemma ends_lf_app_nl s : ends_lf (s +:+ NL) = true.
Proof.
  induction s as [|c s IH]; [done|].
  change (String c s +:+ NL) with (String c (s +:+ NL)).
  rewrite ends_lf_cons; [done|]. by destruct s.
Qed.

(** Reading a text that ends with a line feed, followed by more text, reads
    the two parts one after the other. *)
Lemma readlines_go_app n : forall s cur t,
  (String.length s <= n)%nat -> s <> EmptyString -> ends_lf s = true ->
  readlines_go cur (s +:+ t) = readlines_go cur s ++ readlines_go None t.
Proof.
  induction n as [|n IH]; intros s cur t Hlen Hne Hlf.
  { destruct s; [done|simpl in Hlen; lia]. }
  destruct s as [|c s]; [done|].
  change (String c s +:+ t) with (String c (s +:+ t)).
  cbn [readlines_go]. simpl in Hlen.
  destruct (Ascii.eqb c LF) eqn:Ec.
  { destruct s as [|c' s]; [done|].
    rewrite IH; [done|simpl in *; lia|done|].
    by rewrite ends_lf_cons in Hlf. }
  destruct s as [|c' s].
  { simpl in Hlf. congruence. }
  rewrite ends_lf_cons in Hlf by done.
  change (String c' s +:+ t) with (String c' (s +:+ t)). cbn iota.
  destruct (Ascii.eqb c CR).
  - destruct (Ascii.eqb c' LF) eqn:Ec'.
    + destruct s as [|c'' s]; [done|].
      rewrite IH; [done|simpl in *; lia|done|].
      by rewrite ends_lf_cons in Hlf.
    + change (String c' (s +:+ t)) with (String c' s +:+ t).
      rewrite IH; [done|simpl in *; lia|done|done].
  - change (String c' (s +:+ t)) with (String c' s +:+ t).
    rewrite IH; [done|simpl in *; lia|done|done].
Qed.

(** One line without a line break inside is read as one line. *)
Lemma readlines_go_line body : forall cur,
  no_line_break body = true ->
  readlines_go cur (body +:+ NL)
  = [match cur with Some l => l | None => EmptyString end +:+ body +:+ NL].
Proof.
  unfold no_line_break.
  induction body as [|c body IH]; intros cur Hb.
  { by destruct cur. }
  change (String c body +:+ NL) with (String c (body +:+ NL)).
  cbn [readlines_go has_char] in *.
  apply andb_prop in Hb as [Hlf Hcr].
  apply negb_true_iff, orb_false_elim in Hlf as [Hlf Hlf'].
  apply negb_true_iff, orb_false_elim in Hcr as [Hcr Hcr'].
  rewrite Hlf, Hcr. rewrite IH by (by rewrite Hlf', Hcr').
  by rewrite append_assoc.
Qed.

Lemma readlines_append_line s body :
  ends_lf s = true -> no_line_break body = true ->
  length (readlines (s +:+ body +:+ NL)) = S (length (readlines s))
  /\ ends_lf (s +:+ body +:+ NL) = true.
Proof.
  intros Hs Hb. split.
  - unfold readlines. destruct s as [|c s].
    { simpl (EmptyString +:+ _). by rewrite readlines_go_line. }
    rewrite (readlines_go_app (String.length (String c s))) by done.
    rewrite readlines_go_line by done. rewrite length_app. simpl. lia.
  - rewrite <-append_assoc. apply ends_lf_app_nl.
Qed.

Lemma no_line_break_app a b :
  no_line_break (a +:+ b) = no_line_break a && no_line_break b.
Proof.
  unfold no_line_break. rewrite !has_char_app.
  by destruct (has_char LF a), (has_char LF b), (has_char CR a), (has_char CR b).
Qed.

Lemma numeric_no_line_break s : chars_in NUMERIC s -> no_line_break s = true.
Proof.
  intros H. unfold no_line_break.
  rewrite (chars_in_absent NUMERIC s LF), (chars_in_absent NUMERIC s CR); done.
Qed.

(** A formatted line whose caller-supplied texts hold no line break is a
    body without line breaks followed by one line feed. *)
Lemma house_line_single py_repr now country city a data line :
  house_line py_repr now country city a data = Ok line ->
  no_line_break country = true -> no_line_break city = true ->
  no_line_break a = true ->
  no_line_break (field_text py_repr data "osm_id") = true ->
  no_line_break (field_text py_repr data "building_type") = true ->
  no_line_break (field_text py_repr data "levels") = true ->
  exists body, line = body +:+ NL /\ no_line_break body = true.
Proof.
  intros Hline Hco Hci Ha Hid Hbt Hlv.
  apply house_line_fields in Hline
    as (lat & lng & lat_s & lng_s & _ & Hlat & _ & Hlng & ->).
  exists (strftime now +:+ SEP +:+ country +:+ SEP +:+ city +:+ SEP
          +:+ str_replace PIPE COMMA a +:+ SEP +:+ lat_s +:+ SEP +:+ lng_s
          +:+ SEP +:+ field_text py_repr data "osm_id" +:+ SEP
          +:+ field_text py_repr data "building_type" +:+ SEP
          +:+ field_text py_repr data "levels").
  split.
  { unfold str_join. cbn [String.concat]. by rewrite !append_assoc. }
  assert (no_line_break (str_replace PIPE COMMA a) = true) as Hclean.
  { revert Ha. unfold no_line_break. clear.
    induction a as [|c a IH]; [done|]. cbn [str_replace has_char].
    intros [Hlf Hcr]%andb_prop.
    apply negb_true_iff, orb_false_elim in Hlf as [Hlf Hlf'].
    apply negb_true_iff, orb_false_elim in Hcr as [Hcr Hcr'].
    assert (negb (has_char LF a) && negb (has_char CR a) = true) as Hrest.
    { by rewrite Hlf', Hcr'. }
    apply IH in Hrest as [H1 H2]%andb_prop.
    apply negb_true_iff in H1, H2. rewrite H1, H2.
    destruct (Ascii.eqb c PIPE); [done|]. by rewrite Hlf, Hcr. }
  rewrite !no_line_break_app.
  rewrite Hco, Hci, Hclean, Hid, Hbt, Hlv.
  rewrite (numeric_no_line_break _ (strftime_numeric now)).
  rewrite (numeric_no_line_break _ (format_fixed6_numeric _ _ Hlat)).
  by rewrite (numeric_no_line_break _ (format_fixed6_numeric _ _ Hlng)).
Qed.

(** ** Sequences of calls *)

Lemma add_houses_cons py_repr hm cl rest :
  add_houses py_repr hm (cl :: rest)
  = ((add_house_call py_repr hm cl).2
       :: (add_houses py_repr (add_house_call py_repr hm cl).1 rest).1,
     (add_houses py_repr (add_house_call py_repr hm cl).1 rest).2).
Proof.
  cbn [add_houses]. destruct (add_house_call py_repr hm cl) as [hm1 r].
  cbn [fst snd]. destruct (add_houses py_repr hm1 rest). reflexivity.
Qed.

Lemma no_fragment_cons py_repr hm cl rest :
  no_fragment py_repr hm (cl :: rest) ->
  no_fragment py_repr (add_house_call py_repr hm cl).1 rest.
Proof.
  intros H pre cl' post ->.
  specialize (H (cl :: pre) cl' post eq_refl).
  rewrite add_houses_cons in H. exact H.
Qed.

Lemma whole_or_nothing_no_fragment py_repr hm calls :
  Forall whole_or_nothing calls -> no_fragment py_repr hm calls.
Proof.
  intros Hall pre cl post -> Hr.
  destruct (add_house_call py_repr (add_houses py_repr hm pre).2 cl)
    as [hm1 r] eqn:E.
  cbn [fst snd] in *.
  destruct (decide (houses_file hm1 = houses_file (add_houses py_repr hm pre).2))
    as [|Hne]; [done|].
  unfold add_house_call in E.
  destruct (add_house_not_true _ _ _ _ _ _ _ _ _ E Hr) as [_ Hfail].
  destruct (Hfail Hne) as (e & n & Hdisk).
  apply Forall_app in Hall as [_ Hall]. apply Forall_cons in Hall as [Hcl _].
  unfold whole_or_nothing in Hcl. by rewrite Hdisk in Hcl.
Qed.

(** The log holds its two header lines and one line per accepted record, as
    long as no accepted record brought a line break with it and no failed
    call left a fragment. *)
Lemma add_houses_lines py_repr calls : forall hm k,
  ends_lf (houses_file hm) = true ->
  length (readlines (houses_file hm)) = k ->
  (forall cl r, In (cl, r) (combine calls (add_houses py_repr hm calls).1) ->
     r = Ok true -> single_line py_repr cl = true) ->
  no_fragment py_repr hm calls ->
  ends_lf (houses_file (add_houses py_repr hm calls).2) = true
  /\ length (readlines (houses_file (add_houses py_repr hm calls).2))
     = (k + length (List.filter returned_true (add_houses py_repr hm calls).1))%nat.
Proof.
  induction calls as [|cl rest IH]; intros hm k Hlf Hk Hsingle Hclean.
  { simpl. split; [done|lia]. }
  pose proof (no_fragment_cons _ _ _ _ Hclean) as Hrest.
  pose proof (Hclean [] cl rest eq_refl) as Hhead.
  rewrite add_houses_cons in *. cbn [fst snd combine List.filter add_houses] in *.
  destruct (add_house_call py_repr hm cl) as [hm1 r] eqn:Ecall.
  cbn [fst snd] in *.
  assert (r = Ok true \/ (r <> Ok true /\ returned_true r = false)) as [->|[Hr Hf]].
  { destruct r as [[]|]; auto. }
  - assert (single_line py_repr cl = true) as Hcl.
    { apply (Hsingle cl (Ok true)); [by left|done]. }
    unfold add_house_call in Ecall.
    apply add_house_true in Ecall as (a & line & Ha & _ & _ & Hline & _ & ->).
    unfold single_line, call_address in Hcl. rewrite Ha in Hcl.
    apply andb_prop in Hcl as [Hcl Hlv]. apply andb_prop in Hcl as [Hcl Hbt].
    apply andb_prop in Hcl as [Hcl Hid]. apply andb_prop in Hcl as [Hcl Hadr].
    apply andb_prop in Hcl as [Hco Hci].
    destruct (house_line_single _ _ _ _ _ _ _ Hline Hco Hci Hadr Hid Hbt Hlv)
      as (body & -> & Hbody).
    destruct (readlines_append_line _ _ Hlf Hbody) as [Hlen Hlf'].
    destruct (IH {| existing_addresses := {[a]} ∪ existing_addresses hm;
                    houses_file := houses_file hm +:+ body +:+ NL |} (S k))
      as [H1 H2]; [done|simpl; lia|..|done|].
    { intros cl' r' Hin. apply Hsingle. by right. }
    split; [done|]. rewrite H2. simpl. lia.
  - assert (hm1 = hm) as ->.
    { unfold add_house_call in Ecall.
      destruct (add_house_not_true _ _ _ _ _ _ _ _ _ Ecall Hr) as [Hseen _].
      apply manager_eq; [done|by apply Hhead]. }
    destruct (IH hm k) as [H1 H2]; [done|done|..|done|].
    { intros cl' r' Hin. apply Hsingle. by right. }
    split; [done|]. by rewrite H2, Hf.
Qed.

(** C3 (amended). [get_stats] returns the number of lines of the log beyond
    the first two, and zero when the log cannot be read.  After any calls of
    [add_house] on a fresh manager that number is the number of calls that
    returned [True], provided no accepted record carried a line break in its
    address, country, city, OSM id, building type or levels, and no call
    that failed left part of its line in the log.  A failed call leaves such
    a fragment only when its append broke off after at least one byte. *)
Theorem stats_count_accepted_records py_repr calls :
  (forall hm,
     get_stats (Ok tt) hm
     = [("total", PInt (Z.max 0 (Z.of_nat (length (readlines (houses_file hm))) - 2)))])
  /\ (forall hm e, get_stats (Raise e) hm = [("total", PInt 0)])
  /\ ((forall cl r,
         In (cl, r) (combine calls (add_houses py_repr fresh calls).1) ->
         r = Ok true -> single_line py_repr cl = true) ->
      no_fragment py_repr fresh calls ->
      get_stats (Ok tt) (add_houses py_repr fresh calls).2
      = [("total",
          PInt (Z.of_nat
                  (length (List.filter returned_true
                             (add_houses py_repr fresh calls).1))))])
  /\ (forall hm cl,
        (add_house_call py_repr hm cl).2 <> Ok true ->
        houses_file (add_house_call py_repr hm cl).1 <> houses_file hm ->
        exists e n, call_disk cl = AppendFailed e (S n))
  /\ (Forall whole_or_nothing calls -> no_fragment py_repr fresh calls).
Proof.
  split; [done|]. split; [done|]. split.
  { intros Hsingle Hclean.
    destruct (add_houses_lines py_repr calls fresh 2) as [_ Hlen];
      [done|done|done|done|].
    unfold get_stats. rewrite Hlen. do 3 f_equal. lia. }
  split.
  { intros hm cl Hr Hfile.
    destruct (add_house_call py_repr hm cl) as [hm1 r] eqn:E.
    unfold add_house_call in E.
    destruct (add_house_not_true _ _ _ _ _ _ _ _ _ E Hr) as [_ Hfail].
    by apply Hfail. }
  apply whole_or_nothing_no_fragment.
Qed.

Lemma stats_count_accepted_records_witness :
  get_stats (Ok tt)
    (add_houses sample_repr fresh
       [call_of Appended main_st;
        call_of (AppendFailed OSError 0) (house "Side St, 2" "house");
        call_of Appended main_st]).2
  = [("total",
      PInt (Z.of_nat
              (length (List.filter returned_true
                         (add_houses sample_repr fresh
                            [call_of Appended main_st;
                             call_of (AppendFailed OSError 0)
                               (house "Side St, 2" "house");
                             call_of Appended main_st]).1))))].
Proof.
  destruct (stats_count_accepted_records sample_repr
              [call_of Appended main_st;
               call_of (AppendFailed OSError 0) (house "Side St, 2" "house");
               call_of Appended main_st])
    as (_ & _ & H & _ & Hclean).
  apply H.
  - intros cl r [[= <- <-]|[[= <- <-]|[[= <- <-]|[]]]] _; reflexivity.
  - apply Hclean. repeat constructor.
Defined.

(** C3, the claim as stated: one record whose address holds a line feed is
    accepted, no call is rejected, and [get_stats] reports two. *)
Lemma line_break_in_address_miscounts :
  (add_house sample_repr noon Appended fresh "Germany" "Berlin"
     (house ("Main St" +:+ NL +:+ "1") "residential")).2 = Ok true
  /\ get_stats (Ok tt)
       (add_house sample_repr noon Appended fresh "Germany" "Berlin"
          (house ("Main St" +:+ NL +:+ "1") "residential")).1
     = [("total", PInt 2)].
Proof. by vm_compute. Qed.

(** An append that breaks off after twenty bytes: the call returns [False],
    the address is not recorded, the fragment stays in the log and
    [get_stats] counts it, although no call was accepted. *)
Example torn_append_is_counted :
  add_house sample_repr noon (AppendFailed OSError 20) fresh "Germany" "Berlin"
    main_st
  = ({| existing_addresses := ∅;
        houses_file := HEADER +:+ "2024-01-01 12:00:00 " |}, Ok false)
  /\ get_stats (Ok tt)
       (add_house sample_repr noon (AppendFailed OSError 20) fresh "Germany"
          "Berlin" main_st).1
     = [("total", PInt 1)].
Proof. by vm_compute. Qed.

(** ** Deduplication *)

(** One call either is accepted, and then its address is a non-empty string
    that was not seen and now is, or records nothing. *)
Lemma add_house_call_step py_repr hm cl :
  (exists a,
     (add_house_call py_repr hm cl).2 = Ok true
     /\ call_address cl = Some a /\ a <> EmptyString
     /\ (a ∉ existing_addresses hm)
     /\ can_append py_repr cl = true
     /\ existing_addresses (add_house_call py_repr hm cl).1
        = {[a]} ∪ existing_addresses hm)
  \/ (returned_true (add_house_call py_repr hm cl).2 = false
      /\ existing_addresses (add_house_call py_repr hm cl).1
         = existing_addresses hm).
Proof.
  destruct (add_house_call py_repr hm cl) as [hm1 r] eqn:E. cbn [fst snd].
  assert (r = Ok true \/ (r <> Ok true /\ returned_true r = false)) as [->|[Hr Hf]].
  { destruct r as [[]|]; auto. }
  - left. unfold add_house_call in E.
    apply add_house_true in E as (a & line & Ha & Hne & Hin & Hline & Hdisk & ->).
    exists a. unfold can_append, call_address. rewrite Ha, Hline, Hdisk.
    by split_and!.
  - right. split; [done|]. unfold add_house_call in E.
    by destruct (add_house_not_true _ _ _ _ _ _ _ _ _ E Hr).
Qed.

Lemma add_house_call_accepts py_repr hm cl a :
  call_address cl = Some a -> a <> EmptyString ->
  a ∉ existing_addresses hm -> can_append py_repr cl = true ->
  (add_house_call py_repr hm cl).2 = Ok true
  /\ existing_addresses (add_house_call py_repr hm cl).1
     = {[a]} ∪ existing_addresses hm.
Proof.
  unfold add_house_call, can_append, call_address.
  intros Ha Hne Hin. rewrite add_house_cases.
  destruct (dict_lookup "address" (call_data cl)) as [[| | | |a'| |]|]; try done.
  injection Ha as ->.
  assert (String.eqb a EmptyString = false) as -> by (by apply String.eqb_neq).
  rewrite bool_decide_false by done. cbn [orb].
  destruct (house_line _ _ _ _ _ _); [|done].
  destruct (call_disk cl) as [|]; done.
Qed.

Lemma add_house_call_rejects py_repr hm cl a :
  call_address cl = Some a ->
  a = EmptyString \/ a ∈ existing_addresses hm ->
  add_house_call py_repr hm cl = (hm, Ok false).
Proof.
  unfold add_house_call, call_address. intros Ha Hrej. rewrite add_house_cases.
  destruct (dict_lookup "address" (call_data cl)) as [[| | | |a'| |]|]; try done.
  injection Ha as ->. destruct Hrej as [->|Hin]; [done|].
  rewrite bool_decide_true by done. by rewrite orb_true_r.
Qed.

(** A call without an address that is a string changes nothing. *)
Lemma add_house_call_no_address py_repr hm cl :
  call_address cl = None -> add_house_call py_repr hm cl = (hm, Ok false).
Proof.
  unfold add_house_call, call_address. intros Ha. rewrite add_house_cases.
  by destruct (dict_lookup "address" (call_data cl)) as [[| | | |a'| |]|].
Qed.

(** A call whose line cannot be formatted changes nothing. *)
Lemma add_house_call_no_line py_repr hm cl a e :
  call_address cl = Some a ->
  house_line py_repr (call_now cl) (call_country cl) (call_city cl) a
    (call_data cl) = Raise e ->
  add_house_call py_repr hm cl = (hm, Ok false).
Proof.
  unfold add_house_call, call_address. intros Ha Hline. rewrite add_house_cases.
  destruct (dict_lookup "address" (call_data cl)) as [[| | | |a'| |]|]; try done.
  injection Ha as ->. destruct (_ || _); [done|]. by rewrite Hline.
Qed.

(** A call whose append fails keeps the seen-address set and leaves in the
    log the part of its line that was written. *)
Lemma add_house_call_failed_append py_repr hm cl a line e n :
  call_address cl = Some a -> a <> EmptyString ->
  a ∉ existing_addresses hm ->
  house_line py_repr (call_now cl) (call_country cl) (call_city cl) a
    (call_data cl) = Ok line ->
  call_disk cl = AppendFailed e n ->
  add_house_call py_repr hm cl
  = ({| existing_addresses := existing_addresses hm;
        houses_file := houses_file hm +:+ str_prefix n line |},
     if is_Exception e then Ok false else Raise e).
Proof.
  unfold add_house_call, call_address. intros Ha Hne Hin Hline Hdisk.
  rewrite add_house_cases.
  destruct (dict_lookup "address" (call_data cl)) as [[| | | |a'| |]|]; try done.
  injection Ha as ->.
  assert (String.eqb a EmptyString = false) as -> by (by apply String.eqb_neq).
  rewrite bool_decide_false by done. cbn [orb]. by rewrite Hline, Hdisk.
Qed.

Lemma accepted_cons cl calls r rs :
  accepted (cl :: calls) (r :: rs)
  = (if returned_true r
     then match call_address cl with Some a => [a] | None => [] end
     else []) ++ accepted calls rs.
Proof. done. Qed.

(** The seen-address set is the set of accepted addresses. *)
Lemma add_houses_seen py_repr calls : forall hm a,
  a ∈ existing_addresses (add_houses py_repr hm calls).2
  <-> a ∈ existing_addresses hm
      \/ In a (accepted calls (add_houses py_repr hm calls).1).
Proof.
  induction calls as [|cl rest IH]; intros hm a.
  { simpl. tauto. }
  rewrite add_houses_cons. cbn [fst snd]. rewrite accepted_cons, IH, in_app_iff.
  destruct (add_house_call_step py_repr hm cl)
    as [(a' & -> & -> & _ & _ & _ & ->)|[-> ->]]; cbn [returned_true].
  - rewrite elem_of_union, elem_of_singleton. simpl. intuition.
  - simpl. tauto.
Qed.

Lemma times_accepted_cons a cl calls r rs :
  times_accepted a (cl :: calls) (r :: rs)
  = ((if returned_true r
      then match call_address cl with
           | Some a' => if String.eqb a a' then 1 else 0
           | None => 0
           end
      else 0) + times_accepted a calls rs)%nat.
Proof.
  unfold times_accepted. rewrite accepted_cons, List.filter_app, length_app.
  f_equal. destruct (returned_true r); [|done].
  destruct (call_address cl) as [a'|]; [|done].
  simpl. by destruct (String.eqb a a').
Qed.

Lemma seen_never_accepted py_repr calls : forall hm a,
  a ∈ existing_addresses hm ->
  times_accepted a calls (add_houses py_repr hm calls).1 = 0%nat.
Proof.
  induction calls as [|cl rest IH]; intros hm a Hin; [done|].
  rewrite add_houses_cons. cbn [fst snd]. rewrite times_accepted_cons.
  destruct (add_house_call_step py_repr hm cl)
    as [(a' & -> & -> & _ & Hnot & _ & Hseen)|[-> Hseen]]; cbn [returned_true].
  - rewrite IH by (rewrite Hseen, elem_of_union; by right).
    destruct (String.eqb a a') eqn:E; [|done].
    apply String.eqb_eq in E as ->. done.
  - by rewrite IH by (by rewrite Hseen).
Qed.

Lemma accepted_at_most_once py_repr calls : forall hm a,
  (times_accepted a calls (add_houses py_repr hm calls).1 <= 1)%nat.
Proof.
  induction calls as [|cl rest IH]; intros hm a; [simpl; unfold times_accepted; simpl; lia|].
  rewrite add_houses_cons. cbn [fst snd]. rewrite times_accepted_cons.
  destruct (add_house_call_step py_repr hm cl)
    as [(a' & -> & -> & _ & Hnot & _ & Hseen)|[-> _]]; cbn [returned_true].
  - destruct (String.eqb a a') eqn:E.
    + apply String.eqb_eq in E as <-.
      rewrite seen_never_accepted
        by (rewrite Hseen, elem_of_union, elem_of_singleton; by left).
      lia.
    + apply IH.
  - apply IH.
Qed.

(** An address is accepted as soon as one call submitting it can append. *)
Lemma accepted_once py_repr calls : forall hm a,
  a <> EmptyString -> a ∉ existing_addresses hm ->
  (exists cl, In cl calls /\ call_address cl = Some a
              /\ can_append py_repr cl = true) ->
  times_accepted a calls (add_houses py_repr hm calls).1 = 1%nat.
Proof.
  induction calls as [|cl rest IH]; intros hm a Hne Hnot Hex.
  { by destruct Hex as (? & [] & _). }
  rewrite add_houses_cons. cbn [fst snd]. rewrite times_accepted_cons.
  destruct (decide (call_address cl = Some a /\ can_append py_repr cl = true))
    as [[Ha Hcan]|Hno].
  - destruct (add_house_call_accepts py_repr hm cl a) as [-> Hseen]; try done.
    cbn [returned_true]. rewrite Ha, String.eqb_refl.
    rewrite seen_never_accepted
      by (rewrite Hseen, elem_of_union, elem_of_singleton; by left).
    done.
  - assert (exists cl', In cl' rest /\ call_address cl' = Some a
                        /\ can_append py_repr cl' = true) as Hex'.
    { destruct Hex as (cl' & [<-|Hin] & Ha & Hcan); [by destruct Hno|].
      by exists cl'. }
    destruct (add_house_call_step py_repr hm cl)
      as [(a' & -> & Ha' & _ & _ & Hcan & Hseen)|[-> Hseen]];
      cbn [returned_true].
    + rewrite Ha'. destruct (String.eqb a a') eqn:E.
      { apply String.eqb_eq in E as ->. by destruct Hno. }
      apply String.eqb_neq in E. rewrite IH; try done.
      rewrite Hseen, elem_of_union, elem_of_singleton. by intros [|].
    + rewrite IH; try done. by rewrite Hseen.
Qed.

(** An accepted address is a non-empty string that some call could
    append. *)
Lemma accepted_can_append py_repr calls : forall hm a,
  In a (accepted calls (add_houses py_repr hm calls).1) ->
  a <> EmptyString
  /\ exists cl, In cl calls /\ call_address cl = Some a
                /\ can_append py_repr cl = true.
Proof.
  induction calls as [|cl rest IH]; intros hm a; [done|].
  rewrite add_houses_cons. cbn [fst snd]. rewrite accepted_cons, in_app_iff.
  intros [Hhead|Hrest].
  - destruct (add_house_call_step py_repr hm cl)
      as [(a' & Hr & Ha' & Hne & _ & Hcan & _)|[Hr _]];
      rewrite Hr in Hhead; cbn [returned_true] in Hhead; [|done].
    rewrite Ha' in Hhead. destruct Hhead as [<-|[]].
    split; [done|]. exists cl. split; [by left|done].
  - apply IH in Hrest as (Hne & cl' & Hin & Ha & Hcan).
    split; [done|]. exists cl'. split; [by right|done].
Qed.

Lemma times_accepted_In a calls rs :
  times_accepted a calls rs <> 0%nat -> In a (accepted calls rs).
Proof.
  unfold times_accepted.
  destruct (List.filter (String.eqb a) (accepted calls rs)) as [|x l] eqn:E;
    [done|].
  intros _.
  assert (In x (List.filter (String.eqb a) (accepted calls rs))) as Hx.
  { rewrite E. by left. }
  apply filter_In in Hx as [Hin Heq]. by apply String.eqb_eq in Heq as ->.
Qed.

(** C2 (amended). Over any sequence of [add_house] calls on a fresh manager
    an address is accepted at most once, and exactly once if and only if it
    is a non-empty string that at least one call submits with a line that
    can be formatted and appended.  A call whose address is empty or was
    accepted before returns [False], raises nothing and leaves the log and
    the seen-address set as they were; an accepted call appends its one
    formatted line and adds its address to the set.  A call that cannot be
    accepted records no address: without an address that is a string, or
    with a line that cannot be formatted, it returns [False] and changes
    nothing; when its append fails it returns [False] (an error that is not
    an [Exception] passes through), keeps the seen-address set and leaves in
    the log the part of its line that was written. *)
Theorem each_address_accepted_at_most_once py_repr :
  (forall calls a,
     (times_accepted a calls (add_houses py_repr fresh calls).1 <= 1)%nat)
  /\ (forall calls a,
        times_accepted a calls (add_houses py_repr fresh calls).1 = 1%nat
        <-> a <> EmptyString
            /\ exists cl, In cl calls /\ call_address cl = Some a
                          /\ can_append py_repr cl = true)
  /\ (forall pre cl a,
        call_address cl = Some a ->
        a = EmptyString
        \/ In a (accepted pre (add_houses py_repr fresh pre).1) ->
        add_house_call py_repr (add_houses py_repr fresh pre).2 cl
        = ((add_houses py_repr fresh pre).2, Ok false))
  /\ (forall pre cl,
        (add_house_call py_repr (add_houses py_repr fresh pre).2 cl).2 = Ok true ->
        exists a line,
          call_address cl = Some a
          /\ ~ In a (accepted pre (add_houses py_repr fresh pre).1)
          /\ house_line py_repr (call_now cl) (call_country cl) (call_city cl)
               a (call_data cl) = Ok line
          /\ call_disk cl = Appended
          /\ houses_file
               (add_house_call py_repr (add_houses py_repr fresh pre).2 cl).1
             = houses_file (add_houses py_repr fresh pre).2 +:+ line
          /\ existing_addresses
               (add_house_call py_repr (add_houses py_repr fresh pre).2 cl).1
             = {[a]} ∪ existing_addresses (add_houses py_repr fresh pre).2)
  /\ (forall hm cl,
        can_append py_repr cl = false ->
        (add_house_call py_repr hm cl).2 <> Ok true
        /\ existing_addresses (add_house_call py_repr hm cl).1
           = existing_addresses hm)
  /\ (forall hm cl,
        call_address cl = None ->
        add_house_call py_repr hm cl = (hm, Ok false))
  /\ (forall hm cl a e,
        call_address cl = Some a ->
        house_line py_repr (call_now cl) (call_country cl) (call_city cl) a
          (call_data cl) = Raise e ->
        add_house_call py_repr hm cl = (hm, Ok false))
  /\ (forall pre cl a line e n,
        call_address cl = Some a -> a <> EmptyString ->
        ~ In a (accepted pre (add_houses py_repr fresh pre).1) ->
        house_line py_repr (call_now cl) (call_country cl) (call_city cl) a
          (call_data cl) = Ok line ->
        call_disk cl = AppendFailed e n ->
        add_house_call py_repr (add_houses py_repr fresh pre).2 cl
        = ({| existing_addresses :=
                existing_addresses (add_houses py_repr fresh pre).2;
              houses_file :=
                houses_file (add_houses py_repr fresh pre).2
                +:+ str_prefix n line |},
           if is_Exception e then Ok false else Raise e)).
Proof.
  split; [intros calls a; apply accepted_at_most_once|].
  split.
  { intros calls a. split.
    - intros H1. apply (accepted_can_append py_repr calls fresh).
      apply times_accepted_In. lia.
    - intros [Hne Hex]. by apply accepted_once. }
  split.
  { intros pre cl a Ha Hrej. apply (add_house_call_rejects _ _ _ a); [done|].
    destruct Hrej as [->|Hin]; [by left|right].
    apply add_houses_seen. by right. }
  split.
  { intros pre cl Htrue.
    destruct (add_house_call py_repr (add_houses py_repr fresh pre).2 cl)
      as [hm' r] eqn:E.
    cbn [fst snd] in *. subst r. unfold add_house_call in E.
    apply add_house_true in E as (a & line & Ha & _ & Hnot & Hline & Hdisk & ->).
    exists a, line. unfold call_address. rewrite Ha. split_and!; try done.
    intros Hin. apply Hnot, add_houses_seen. by right. }
  split.
  { intros hm cl Hcan.
    destruct (add_house_call_step py_repr hm cl)
      as [(a & _ & _ & _ & _ & Hcan' & _)|[Hr Hseen]]; [congruence|].
    split; [|done]. intros Heq. by rewrite Heq in Hr. }
  split; [intros hm cl; apply add_house_call_no_address|].
  split; [intros hm cl a e; apply add_house_call_no_line|].
  intros pre cl a line e n Ha Hne Hnot Hline Hdisk.
  apply (add_house_call_failed_append _ _ _ a); try done.
  intros Hin. apply add_houses_seen in Hin as [Hin|Hin]; [|done].
  by apply not_elem_of_empty in Hin.
Qed.

Lemma each_address_accepted_at_most_once_witness :
  times_accepted "Main St, 1"
    [call_of (AppendFailed OSError 20) main_st; call_of Appended main_st;
     call_of Appended main_st]
    (add_houses sample_repr fresh
       [call_of (AppendFailed OSError 20) main_st; call_of Appended main_st;
        call_of Appended main_st]).1 = 1%nat.
Proof.
  destruct (each_address_accepted_at_most_once sample_repr) as (_ & H & _).
  apply H. split; [done|].
  exists (call_of Appended main_st). split; [right; by left|].
  split; reflexivity.
Defined.

(** C2, the claim as stated: a distinct, non-empty address submitted while
    the disk refuses the write, or with a latitude that is not a number, is
    not accepted at all, and is accepted when it is submitted again. *)
Lemma failed_append_leaves_address_unaccepted :
  call_address (call_of (AppendFailed OSError 0) main_st) = Some "Main St, 1"
  /\ add_houses sample_repr fresh [call_of (AppendFailed OSError 0) main_st]
     = ([Ok false], fresh)
  /\ times_accepted "Main St, 1" [call_of (AppendFailed OSError 0) main_st]
       (add_houses sample_repr fresh
          [call_of (AppendFailed OSError 0) main_st]).1
     = 0%nat
  /\ (add_houses sample_repr fresh
        [call_of (AppendFailed OSError 0) main_st; call_of Appended main_st]).1
     = [Ok false; Ok true]
  /\ (add_houses sample_repr fresh
        [call_of Appended (("lat", PStr "52.52") :: main_st);
         call_of Appended main_st]).1
     = [Ok false; Ok true].
Proof. by vm_compute. Qed.

(** The scenario of two records with the address [Main St, 1]. *)
Example main_st_twice :
  (add_houses sample_repr fresh
     [call_of Appended main_st; call_of Appended main_st]).1
  = [Ok true; Ok false]
  /\ get_stats (Ok tt)
       (add_houses sample_repr fresh
          [call_of Appended main_st; call_of Appended main_st]).2
     = [("total", PInt 1)].
Proof. by vm_compute. Qed.

(** ** Sanity checks *)

Example fresh_is_new_manager : new_manager (Ok tt) = Ok fresh.
Proof. done. Qed.

Example float_fixed6_berlin :
  float_fixed6 (S754_finite false 7391532888421827 (-47)) = "52.520000"
  /\ float_fixed6 (S754_finite false 7546344125612687 (-49)) = "13.405000".
Proof. by vm_compute. Qed.

Example float_fixed6_rounding :
  float_fixed6 (S754_finite false 1 (-1)) = "0.500000"
  /\ float_fixed6 (S754_finite true 1 (-1074)) = "-0.000000"
  /\ float_fixed6 (S754_finite false 4722366482869645 (-73)) = "0.000000"
  /\ float_fixed6 (S754_finite false 4768371582031250 21)
     = "10000000000000000000000.000000".
Proof. by vm_compute. Qed.

Example format_fixed6_int :
  format_fixed6 (PInt 12) = Ok "12.000000"
  /\ format_fixed6 (PInt (2 ^ 53 + 1)) = Ok "9007199254740992.000000"
  /\ format_fixed6 (PInt (2 ^ 1024)) = Raise OverflowError
  /\ format_fixed6 (PStr "12") = Raise ValueError.
Proof. by vm_compute. Qed.

Example str_split_empty_field :
  str_split SEP "a | b |  | c" = ["a"; "b"; EmptyString; "c"].
Proof. by vm_compute. Qed.

Example readlines_universal_newlines :
  readlines ("a" +:+ NL +:+ "b" +:+ String CR NL +:+ "c")
  = ["a" +:+ NL; "b" +:+ NL; "c"].
Proof. by vm_compute. Qed.

Example strftime_noon : strftime noon = "2024-01-01 12:00:00".
Proof. by vm_compute. Qed.

Example header_lines : length (readlines HEADER) = 2%nat.
Proof. by vm_compute. Qed.

(** * Further properties *)

(** ** The shape of a call of [_make_request] *)

Lemma iteration_events sess req mr i evs f :
  iteration sess req mr i = (evs, f) ->
  evs = match f with
        | Next => if Z.of_nat i <? mr - 1
                  then [Slept (3 * (Z.of_nat i + 1))] else []
        | _ => []
        end.
Proof.
  unfold iteration.
  destruct (try_body sess req i) as [evs0 [f0|e]] eqn:E.
  - intros [= <- <-]. destruct f0.
    + by apply try_body_never_continues in E.
    + revert E. unfold try_body.
      destruct (sess i req) as [resp|]; [|done].
      destruct (raise_for_status resp); [|done].
      destruct (status_code resp =? 429); [done|]. by destruct (json resp).
    + revert E. unfold try_body.
      destruct (sess i req) as [resp|]; [|by intros [= <-]].
      destruct (raise_for_status resp); [|by intros [= <-]].
      destruct (status_code resp =? 429); [done|].
      destruct (json resp); by intros [= <-].
    + revert E. unfold try_body.
      destruct (sess i req) as [resp|]; [|done].
      destruct (raise_for_status resp); [|done].
      destruct (status_code resp =? 429); [done|]. by destruct (json resp).
  - apply try_body_events in E as ->.
    destruct (is_RequestException e).
    + destruct (_ <? _); by intros [= <- <-].
    + destruct (is_Exception e); by intros [= <- <-].
Qed.

Lemma retry_loop_shape sess req mr n : forall a c c' evs f,
  n = O \/ Z.of_nat (a + n) = mr ->
  retry_loop sess req mr (seq a n) c = (c', evs, f) ->
  exists m, (m <= n)%nat /\ (n <> O -> m <> O) /\ evs = backoff_trace a m.
Proof.
  induction n as [|n IH]; intros a c c' evs f Hmr; simpl.
  { intros [= _ <- _]. by exists O. }
  destruct Hmr as [|Hmr]; [done|].
  destruct (iteration sess req mr a) as [evs_a f_a] eqn:Ea.
  apply iteration_events in Ea.
  assert (Hstop : f_a <> Next ->
    (c', evs, f) = ({| request_count := request_count c + 1;
                       error_count := error_count c |}, Sent a :: evs_a, f_a) ->
    exists m, (m <= S n)%nat /\ (S n <> O -> m <> O) /\ evs = backoff_trace a m).
  { intros Hne [= _ -> _]. exists 1%nat. split; [lia|]. split; [done|].
    subst evs_a. by destruct f_a. }
  destruct f_a; try (intros H; apply Hstop; [done|by rewrite H]).
  clear Hstop.
  destruct (retry_loop sess req mr (seq (S a) n) _) as [[c2 evs2] f2] eqn:Er.
  intros [= _ <- _].
  assert (n = O \/ Z.of_nat (S a + n) = mr) as Hmr' by lia.
  destruct (IH (S a) _ _ _ _ Hmr' Er) as (m & Hm & Hm0 & ->).
  exists (S m). split; [lia|]. split; [done|]. subst evs_a.
  destruct n as [|n].
  - assert (m = O) as -> by lia.
    assert ((Z.of_nat a <? mr - 1) = false) as -> by lia. done.
  - assert ((Z.of_nat a <? mr - 1) = true) as -> by lia.
    destruct m as [|m]; [by destruct Hm0|]. done.
Qed.

Lemma backoff_trace_sent first m :
  sent_attempts (backoff_trace first m) = seq first m.
Proof.
  revert first. induction m as [|m IH]; intros first; [done|].
  cbn [backoff_trace]. destruct m as [|m]; [done|].
  change (sent_attempts (Sent first :: Slept (3 * (Z.of_nat first + 1))
                           :: backoff_trace (S first) (S m)))
    with (first :: sent_attempts (backoff_trace (S first) (S m))).
  by rewrite IH.
Qed.

Lemma backoff_trace_sleeps first m :
  sleeps (backoff_trace first m)
  = map (fun i => 3 * (Z.of_nat i + 1)) (seq first (m - 1)).
Proof.
  revert first. induction m as [|m IH]; intros first; [done|].
  cbn [backoff_trace]. destruct m as [|m]; [done|].
  change (sleeps (Sent first :: Slept (3 * (Z.of_nat first + 1))
                    :: backoff_trace (S first) (S m)))
    with (3 * (Z.of_nat first + 1) :: sleeps (backoff_trace (S first) (S m))).
  rewrite IH. simpl. by rewrite Nat.sub_0_r.
Qed.

Lemma sum_backoff first k :
  2 * foldr Z.add 0 (map (fun i => 3 * (Z.of_nat i + 1)) (seq first k))
  = 3 * Z.of_nat k * (2 * Z.of_nat first + Z.of_nat k + 1).
Proof.
  revert first. induction k as [|k IH]; intros first; [simpl; lia|].
  cbn [seq map foldr]. specialize (IH (S first)). lia.
Qed.

Lemma make_request_trace_shape_aux sess c url params data max_retries :
  exists m,
    (m <= Z.to_nat max_retries)%nat
    /\ (_make_request sess c url params data max_retries).1.2 = backoff_trace 0 m.
Proof.
  unfold _make_request, range.
  destruct (retry_loop _ _ _ (seq _ _) c) as [[c1 evs] f] eqn:E.
  assert (Z.to_nat max_retries = O
          \/ Z.of_nat (0 + Z.to_nat max_retries) = max_retries) as Hmr by lia.
  destruct (retry_loop_shape _ _ _ _ _ _ _ _ _ Hmr E) as (m & Hm & _ & ->).
  exists m. split; [done|]. by destruct f.
Qed.

(** X1. Whatever the service does, the trace of a call of [_make_request]
    is attempt 0, pause 3, attempt 1, pause 6, and so on up to its last
    attempt: with [m] attempts made ([m] at most [max_retries]) the pauses
    are exactly 3, 6, ..., 3(m-1) seconds, no pause follows the last
    attempt, and the time slept is 3 m (m - 1) / 2 seconds in all. *)
Theorem make_request_trace_shape sess c url params data max_retries :
  exists m,
    (m <= Z.to_nat max_retries)%nat
    /\ (_make_request sess c url params data max_retries).1.2 = backoff_trace 0 m
    /\ attempts_made (backoff_trace 0 m) = m
    /\ sleeps (backoff_trace 0 m)
       = map (fun i => 3 * (Z.of_nat i + 1)) (seq 0 (m - 1))
    /\ 2 * foldr Z.add 0 (sleeps (backoff_trace 0 m))
       = 3 * Z.of_nat m * (Z.of_nat m - 1).
Proof.
  destruct (make_request_trace_shape_aux sess c url params data max_retries)
    as (m & Hm & Hevs).
  exists m. split; [done|]. split; [done|].
  split; [unfold attempts_made; by rewrite backoff_trace_sent, length_seq|].
  split; [apply backoff_trace_sleeps|].
  rewrite backoff_trace_sleeps, sum_backoff.
  destruct m as [|m]; [done|].
  replace (S m - 1)%nat with m by lia. nia.
Qed.

Lemma iteration_return sess req mr i v :
  attempt_result sess req i = Ok (Return v) ->
  iteration sess req mr i = ([], Return v).
Proof.
  unfold attempt_result, iteration.
  destruct (try_body sess req i) as [evs r] eqn:E. simpl. intros ->.
  revert E. unfold try_body.
  destruct (sess i req) as [resp|]; [|done].
  destruct (raise_for_status resp); [|done].
  destruct (status_code resp =? 429); [done|].
  destruct (json resp); by intros [= <-].
Qed.

(** X2. The first attempt whose response decodes ends the call: its value is
    returned, the error counter is left alone, the request counter has
    grown by the number of attempts up to that one, and the trace is the
    back-off trace of those attempts. *)
Theorem decoded_response_is_returned
  sess c url params data max_retries c' evs r i v :
  _make_request sess c url params data max_retries = (c', evs, r) ->
  In (Sent i) evs ->
  attempt_result sess (request_of url params data) i = Ok (Return v) ->
  r = Ok v
  /\ error_count c' = error_count c
  /\ request_count c' = request_count c + Z.of_nat (S i)
  /\ evs = backoff_trace 0 (S i).
Proof.
  intros Hcall Hin Hres.
  destruct (make_request_trace_shape_aux sess c url params data max_retries)
    as (m & _ & Hshape).
  revert Hcall Hshape. unfold _make_request, range.
  destruct (retry_loop _ _ _ (seq _ _) c) as [[c1 evs1] f] eqn:E.
  intros Hcall Hshape.
  assert (evs1 = evs) as -> by (destruct f; by injection Hcall).
  assert (evs = backoff_trace 0 m) as Hevs by (by destruct f).
  destruct (retry_loop_counters _ _ _ _ _ _ _ _ E) as [Herr Hreq].
  destruct (retry_loop_trace _ _ _ _ _ _ _ _ _ _ E Hin)
    as (_ & pre & evs_i & f_i & post & Hit & Hdec & Hpre & Hpost).
  rewrite (iteration_return _ _ _ _ _ Hres) in Hit.
  injection Hit as <- <-. destruct Hpost as [-> ->].
  simpl in Hcall. injection Hcall as <- <-.
  assert (attempts_made evs = S i) as Hn.
  { unfold attempts_made. rewrite Hdec.
    change (pre ++ Sent i :: [] ++ []) with (pre ++ [Sent i]).
    rewrite sent_attempts_snoc, Hpre, length_app, length_seq. simpl. lia. }
  split; [done|]. split; [done|]. split; [by rewrite Hreq, Hn|].
  rewrite Hevs in Hn |- *. unfold attempts_made in Hn.
  rewrite backoff_trace_sent, length_seq in Hn. by rewrite Hn.
Qed.

Lemma decoded_response_is_returned_witness :
  Ok berlin_payload = Ok berlin_payload
  /\ error_count {| request_count := 2; error_count := 0 |}
     = error_count new_client
  /\ request_count {| request_count := 2; error_count := 0 |}
     = request_count new_client + Z.of_nat 2
  /\ [Sent 0; Slept 3; Sent 1] = backoff_trace 0 2.
Proof.
  apply (decoded_response_is_returned flaky_then_berlin new_client
           Config.OVERPASS_URL None (Some "q") 2
           {| request_count := 2; error_count := 0 |}
           [Sent 0; Slept 3; Sent 1] (Ok berlin_payload) 1%nat berlin_payload).
  - reflexivity.
  - simpl. auto.
  - reflexivity.
Defined.

(** ** [get_residential_buildings] beyond the element loop *)

Lemma overpass_query_posted py_repr city limit :
  request_of Config.OVERPASS_URL None (Some (overpass_query py_repr city limit))
  = POST Config.OVERPASS_URL (overpass_query py_repr city limit).
Proof. reflexivity. Qed.

Lemma omap_building_of_strings (items : list pyval) :
  (forall x, In x items -> exists s, x = PStr s) ->
  omap building_of items = [].
Proof.
  induction items as [|x items IH]; intros H; [done|].
  rewrite omap_cons. destruct (H x) as [s ->]; [by left|].
  cbn [building_of]. apply IH. intros y Hy. apply H. by right.
Qed.

(** X3. When the first answer to the query passes the status check and
    decodes, the call costs one request and no pause, and the buildings are
    what the parser makes of the decoded value; [limit] plays no part in
    it, so a service that answers with more elements than asked for gets
    all of them parsed.  For a value whose [elements] is a list these are
    the records of its elements. *)
Theorem first_answer_is_parsed py_repr (sess : session) c city limit resp data :
  sess 0%nat (POST Config.OVERPASS_URL (overpass_query py_repr city limit))
  = Ok resp ->
  raise_for_status resp = Ok tt ->
  json resp = Ok data ->
  get_residential_buildings py_repr sess c city limit
  = ({| request_count := request_count c + 1; error_count := error_count c |},
     [Sent 0], parse_response data)
  /\ (forall d es, data = PDict d ->
        dict_lookup "elements" d = Some (PList es) ->
        parse_response data = Ok (omap building_of es)
        /\ (forallb well_formed es = true ->
            length (omap building_of es) = length es)).
Proof.
  intros Hsess Hstatus Hjson. split.
  - unfold get_residential_buildings, _make_request.
    rewrite overpass_query_posted.
    change (range 2) with [0%nat; 1%nat]. cbn [retry_loop].
    assert (iteration sess
              (POST Config.OVERPASS_URL (overpass_query py_repr city limit)) 2 0
            = ([], Return data)) as ->.
    { apply iteration_return. unfold attempt_result, try_body.
      rewrite Hsess, Hstatus, Hjson.
      destruct (status_code resp =? 429) eqn:E; [|done].
      apply Z.eqb_eq in E. by rewrite (status_429_raises _ E) in Hstatus. }
    done.
  - intros d es -> Hd. split; [by apply parse_response_elements|].
    apply omap_building_of_length.
Qed.

Lemma first_answer_is_parsed_witness :
  get_residential_buildings sample_repr berlin_service new_client berlin 1
  = ({| request_count := request_count new_client + 1;
        error_count := error_count new_client |},
     [Sent 0], parse_response berlin_payload).
Proof.
  apply (first_answer_is_parsed sample_repr berlin_service new_client berlin 1
           {| status_code := 200; json := Ok berlin_payload |} berlin_payload);
    reflexivity.
Defined.

(** X4. What the parser does with a decoded value that is not a dict of
    elements.  A falsy value and a dict without [elements] give the empty
    list.  A truthy number or [True] as the whole response, a list holding
    the string [elements], and a dict whose [elements] is [None], a number
    or a boolean, raise [TypeError]; nothing in [get_residential_buildings]
    catches it.  A dict whose [elements] is a string or a dict gives the
    empty list. *)
Theorem response_without_element_list :
  (forall data, truthy data = false -> parse_response data = Ok [])
  /\ (forall d, dict_lookup "elements" d = None ->
        parse_response (PDict d) = Ok [])
  /\ (forall data, scalar data = true -> truthy data = true ->
        parse_response data = Raise TypeError)
  /\ (forall l, In (PStr "elements") l ->
        parse_response (PList l) = Raise TypeError)
  /\ (forall d v, dict_lookup "elements" d = Some v -> scalar v = true ->
        parse_response (PDict d) = Raise TypeError)
  /\ (forall d v, dict_lookup "elements" d = Some v ->
        (exists s, v = PStr s) \/ (exists d', v = PDict d') ->
        parse_response (PDict d) = Ok [])
  /\ (forall py_repr (sess : session) c city limit resp data,
        sess 0%nat (POST Config.OVERPASS_URL (overpass_query py_repr city limit))
        = Ok resp ->
        raise_for_status resp = Ok tt -> json resp = Ok data ->
        parse_response data = Raise TypeError ->
        (get_residential_buildings py_repr sess c city limit).2 = Raise TypeError).
Proof.
  split.
  { intros data H. unfold parse_response. by rewrite H. }
  split.
  { intros d H. unfold parse_response, py_in, dict_mem.
    destruct d; [done|]. cbn [truthy negb mbind result_bind]. by rewrite H. }
  split.
  { intros data Hs Ht. unfold parse_response. rewrite Ht. by destruct data. }
  split.
  { intros l Hin. unfold parse_response, py_in.
    destruct l as [|x l]; [done|]. cbn [truthy negb mbind result_bind].
    assert (existsb (fun x0 => py_eq_str x0 "elements") (x :: l) = true) as ->.
    { apply existsb_exists. by exists (PStr "elements"). }
    done. }
  assert (Hdict : forall d v, dict_lookup "elements" d = Some v ->
            parse_response (PDict d) = items ← py_iter v; parse_elements items []).
  { intros d v H. unfold parse_response, py_in, py_item, dict_mem, dict_item.
    destruct d; [done|]. cbn [truthy negb mbind result_bind]. by rewrite H. }
  split.
  { intros d v H Hs. rewrite (Hdict _ _ H). by destruct v. }
  split.
  { intros d v H Hv. rewrite (Hdict _ _ H).
    destruct Hv as [[s ->]|[d' ->]]; cbn [py_iter mbind result_bind];
      rewrite parse_elements_omap; cbn [app]; f_equal;
      apply omap_building_of_strings; intros x Hx;
      apply in_map_iff in Hx as (y & <- & _); by eexists. }
  intros py_repr sess c city limit resp data Hsess Hstatus Hjson Hparse.
  unfold get_residential_buildings, _make_request.
  rewrite overpass_query_posted.
  change (range 2) with [0%nat; 1%nat]. cbn [retry_loop].
  assert (iteration sess
            (POST Config.OVERPASS_URL (overpass_query py_repr city limit)) 2 0
          = ([], Return data)) as ->.
  { apply iteration_return. unfold attempt_result, try_body.
    rewrite Hsess, Hstatus, Hjson.
    destruct (status_code resp =? 429) eqn:E; [|done].
    apply Z.eqb_eq in E. by rewrite (status_429_raises _ E) in Hstatus. }
  done.
Qed.

Lemma response_without_element_list_witness :
  parse_response (PDict [("elements", PNone)]) = Raise TypeError
  /\ parse_response (PInt 5) = Raise TypeError
  /\ parse_response (PDict [("remark", PStr "runtime error")]) = Ok [].
Proof.
  destruct response_without_element_list as (_ & H2 & H3 & _ & H5 & _).
  split; [|split].
  - apply (H5 [("elements", PNone)] PNone); reflexivity.
  - apply (H3 (PInt 5)); reflexivity.
  - apply (H2 [("remark", PStr "runtime error")]); reflexivity.
Defined.

Lemma not_well_formed_not_parsed element :
  well_formed element = false -> parsed element = None.
Proof.
  intros H. rewrite parsed_building_of.
  destruct (building_of element) as [b|] eqn:E; [|done].
  assert (is_Some (building_of element)) as Hs by (by exists b).
  apply building_of_well_formed in Hs. congruence.
Qed.

(** X5. The parser keeps an element only if its address tags are text.  A
    house number or street that is not a string (a JSON number, say), and a
    postcode or city that is neither a string nor a value that counts as
    absent, make the element fail in [join] and be skipped; so does a
    missing [id] or a missing [type]. *)
Theorem non_text_tags_skip_element :
  (forall element k v,
     k = "addr:housenumber" \/ k = "addr:street" ->
     tag_of element k = Some v -> (forall s, v <> PStr s) ->
     parsed element = None)
  /\ (forall element k v,
        k = "addr:postcode" \/ k = "addr:city" ->
        tag_of element k = Some v -> (forall s, v <> PStr s) ->
        truthy v = true ->
        parsed element = None)
  /\ (forall d, dict_lookup "id" d = None \/ dict_lookup "type" d = None ->
        parsed (PDict d) = None).
Proof.
  split; [|split].
  - intros element k v Hk Hv Hns. apply not_well_formed_not_parsed.
    destruct element; try done. unfold well_formed.
    assert (nonempty_str (Some v) = false) as Hn.
    { destruct v; try done. by destruct (Hns s). }
    destruct Hk as [-> | ->]; rewrite Hv, Hn; [done|].
    by rewrite andb_false_r.
  - intros element k v Hk Hv Hns Ht. apply not_well_formed_not_parsed.
    destruct element; try done. unfold well_formed.
    assert (str_or_dropped (Some v) = false) as Hn.
    { destruct v; simpl in *; try (by rewrite Ht). by destruct (Hns s). }
    destruct Hk as [-> | ->]; rewrite Hv, Hn; by rewrite ?andb_false_r.
  - intros d H. apply not_well_formed_not_parsed. unfold well_formed.
    destruct H as [H|H].
    + unfold dict_mem. rewrite H. by rewrite andb_false_r.
    + unfold position_of. rewrite H.
      rewrite bool_decide_false by (by intros [? ?]).
      by rewrite andb_false_r.
Qed.

Lemma non_text_tags_skip_element_witness :
  parsed (PDict [("type", PStr "node"); ("id", PInt 1);
                 ("lat", binary64 1 0); ("lon", binary64 1 0);
                 ("tags", PDict [("addr:housenumber", PInt 12);
                                 ("addr:street", PStr "Muster Str")])])
  = None.
Proof.
  destruct non_text_tags_skip_element as (H & _).
  apply (H _ "addr:housenumber" (PInt 12)); [by left|reflexivity|done].
Defined.

(** ** The log and the seen-address set *)

(** X6. Duplicates are recognised on the address as submitted, not as
    stored: two different addresses that become the same text once their
    pipes are replaced are both accepted, and the log then holds that text
    twice. *)
Theorem same_text_after_sanitizing_is_stored_twice py_repr hm cl1 cl2 a1 a2 :
  call_address cl1 = Some a1 -> call_address cl2 = Some a2 ->
  a1 <> a2 ->
  str_replace PIPE COMMA a1 = str_replace PIPE COMMA a2 ->
  a1 <> EmptyString -> a2 <> EmptyString ->
  a1 ∉ existing_addresses hm -> a2 ∉ existing_addresses hm ->
  can_append py_repr cl1 = true -> can_append py_repr cl2 = true ->
  (add_houses py_repr hm [cl1; cl2]).1 = [Ok true; Ok true]
  /\ existing_addresses (add_houses py_repr hm [cl1; cl2]).2
     = {[a2]} ∪ ({[a1]} ∪ existing_addresses hm).
Proof.
  intros Ha1 Ha2 Hne Hsame Hne1 Hne2 Hin1 Hin2 Hcan1 Hcan2.
  rewrite !add_houses_cons. cbn [add_houses fst snd].
  destruct (add_house_call_accepts py_repr hm cl1 a1) as [-> Hseen1];
    [done..|].
  destruct (add_house_call_accepts py_repr (add_house_call py_repr hm cl1).1
              cl2 a2) as [-> Hseen2]; [done|done| |done|].
  { rewrite Hseen1, elem_of_union, elem_of_singleton. intros [->|?]; done. }
  split; [done|]. by rewrite Hseen2, Hseen1.
Qed.

Lemma same_text_after_sanitizing_is_stored_twice_witness :
  (add_houses sample_repr fresh
     [call_of Appended (house "Main St | 1" "house");
      call_of Appended (house "Main St , 1" "house")]).1 = [Ok true; Ok true]
  /\ existing_addresses
       (add_houses sample_repr fresh
          [call_of Appended (house "Main St | 1" "house");
           call_of Appended (house "Main St , 1" "house")]).2
     = {["Main St , 1"]} ∪ ({["Main St | 1"]} ∪ existing_addresses fresh).
Proof.
  apply (same_text_after_sanitizing_is_stored_twice sample_repr fresh
           (call_of Appended (house "Main St | 1" "house"))
           (call_of Appended (house "Main St , 1" "house"))
           "Main St | 1" "Main St , 1");
    try reflexivity; try done.
Defined.

(** Whatever a call does, the log after it is the log before it followed
    by what the call wrote. *)
Lemma add_house_call_appends py_repr hm cl :
  exists written,
    houses_file (add_house_call py_repr hm cl).1 = houses_file hm +:+ written.
Proof.
  unfold add_house_call. rewrite add_house_cases.
  assert (exists written, houses_file hm = houses_file hm +:+ written) as Hsame.
  { exists EmptyString. by rewrite append_nil_r. }
  destruct (dict_lookup "address" (call_data cl)) as [[| | | |a| |]|]; try done.
  destruct (_ || _); [done|].
  destruct (house_line _ _ _ _ _ _) as [line|]; [|done].
  destruct (call_disk cl) as [|e n]; by eexists.
Qed.

Lemma add_houses_append_only py_repr calls : forall hm,
  exists suffix,
    houses_file (add_houses py_repr hm calls).2 = houses_file hm +:+ suffix
    /\ existing_addresses hm ⊆ existing_addresses (add_houses py_repr hm calls).2
    /\ size (existing_addresses (add_houses py_repr hm calls).2)
       = (size (existing_addresses hm)
          + length (List.filter returned_true (add_houses py_repr hm calls).1))%nat.
Proof.
  induction calls as [|cl rest IH]; intros hm.
  { exists EmptyString. cbn [add_houses fst snd List.filter length].
    rewrite append_nil_r. split; [done|]. split; [done|lia]. }
  rewrite add_houses_cons. cbn [fst snd List.filter].
  destruct (IH (add_house_call py_repr hm cl).1) as (suffix & Hfile & Hsub & Hsize).
  pose proof (add_house_call_step py_repr hm cl) as Hstep.
  destruct (add_house_call_appends py_repr hm cl) as [written Hw].
  destruct (add_house_call py_repr hm cl) as [hm1 r] eqn:E. cbn [fst snd] in *.
  exists (written +:+ suffix). rewrite Hfile, Hw, append_assoc. split; [done|].
  destruct Hstep as [(a & -> & Ha & _ & Hnot & _ & Hseen)|[Hr Hseen]].
  - split.
    + intros x Hx. apply Hsub. rewrite Hseen, elem_of_union. by right.
    + rewrite Hsize, Hseen. cbn [returned_true length].
      rewrite size_union by (apply disjoint_singleton_l; done).
      rewrite size_singleton. lia.
  - rewrite Hr, <-Hseen. by split.
Qed.

(** X7. The log is append-only and the seen-address set only grows: after
    any calls of [add_house], from any state of the manager and whatever the
    disk did, the text of the log is its earlier text followed by what the
    calls wrote, every address seen before is still seen, and the set has
    grown by exactly one address for each call that returned [True]. *)
Theorem log_is_append_only py_repr hm calls :
  exists suffix,
    houses_file (add_houses py_repr hm calls).2 = houses_file hm +:+ suffix
    /\ existing_addresses hm ⊆ existing_addresses (add_houses py_repr hm calls).2
    /\ size (existing_addresses (add_houses py_repr hm calls).2)
       = (size (existing_addresses hm)
          + length (List.filter returned_true (add_houses py_repr hm calls).1))%nat.
Proof. apply add_houses_append_only. Qed.

(** ** generate_houses *)





(** One record is asked for in Berlin and the response holds two: one call
    of [add_house] is made and one record stored. *)
Example generate_one_in_berlin :
  (generate_houses sample_repr id id berlin_service calm
     {| client := new_client; houses_manager := fresh |}
     "germany" "berlin" 1).2 = Ok true
  /\ length
       (generate_houses sample_repr id id berlin_service calm
          {| client := new_client; houses_manager := fresh |}
          "germany" "berlin" 1).1.2 = 1%nat
  /\ get_stats (Ok tt)
       (houses_manager
          (generate_houses sample_repr id id berlin_service calm
             {| client := new_client; houses_manager := fresh |}
             "germany" "berlin" 1).1.1.1)
     = [("total", PInt 1)].
Proof. by vm_compute. Qed.

Lemma building_of_address element b :
  building_of element = Some b ->
  exists a, dict_lookup "address" b = Some (PStr a) /\ a <> EmptyString.
Proof.
  intros Hb.
  assert (well_formed element = true) as Hwf.
  { apply building_of_well_formed. by exists b. }
  exists (address_of element). split; [|by apply address_of_nonempty].
  revert Hb. unfold building_of. destruct element; try done. rewrite Hwf.
  destruct (position_of d) as [[lat lng]|]; [|done].
  destruct (dict_lookup "id" d); [|done]. by intros [= <-].
Qed.

Lemma add_house_call_returns py_repr hm cl :
  (forall e n, call_disk cl = AppendFailed e n -> is_Exception e = true) ->
  exists added, (add_house_call py_repr hm cl).2 = Ok added.
Proof.
  intros Hdisk. unfold add_house_call. rewrite add_house_cases.
  destruct (dict_lookup "address" (call_data cl)) as [[| | | |a| |]|];
    try (by eexists).
  destruct (_ || _); [by eexists|].
  destruct (house_line _ _ _ _ _ _); [|by eexists].
  destruct (call_disk cl) as [|e n]; [by eexists|].
  rewrite (Hdisk e n eq_refl). by eexists.
Qed.

(** With room for all of them, the loop offers every building to
    [add_house], in order. *)
Lemma store_loop_offers_all py_repr world country city count buildings :
  disk_faults_caught world ->
  (forall b, In b buildings ->
     exists a, dict_lookup "address" b = Some (PStr a) /\ a <> EmptyString) ->
  forall index generated hm,
  generated + Z.of_nat (length buildings) <= count ->
  exists hm' calls n,
    store_loop py_repr world country city count buildings index generated hm
    = (hm', calls, Ok n)
    /\ map call_data calls = buildings.
Proof.
  intros Hworld. induction buildings as [|building rest IH];
    intros Haddr index generated hm Hroom; cbn [store_loop].
  { by eexists _, _, _. }
  cbn [length] in Hroom.
  assert ((count <=? generated) = false) as -> by lia.
  destruct (Haddr building) as (a & Ha & Hne); [by left|].
  unfold dict_item. rewrite Ha. cbn [truthy].
  assert (String.eqb a EmptyString = false) as -> by (by apply String.eqb_neq).
  cbn [negb].
  set (cl := {| call_now := (world index).1; call_disk := (world index).2;
                call_country := country; call_city := city;
                call_data := building |}).
  destruct (add_house_call_returns py_repr hm cl) as [added Hadded].
  { intros e n He. by apply (Hworld index e n). }
  destruct (add_house_call py_repr hm cl) as [hm1 r1]. cbn [snd] in Hadded.
  subst r1.
  destruct (IH (fun b Hb => Haddr b (or_intror Hb)) (S index)
              (if added then generated + 1 else generated) hm1)
    as (hm2 & calls & n & -> & Hdata).
  { destruct added; lia. }
  exists hm2, (cl :: calls), n. split; [done|]. cbn [map]. by rewrite Hdata.
Qed.

(** X9. When the service found no more buildings than were asked for and
    the disk raises nothing that [add_house] lets through, one call of
    [generate_houses] offers every building found to [add_house], once and
    in shuffled order: the address test and the counter of the loop skip
    none of the records the client produced. *)
Theorem every_building_found_is_offered
  py_repr str_lower shuffle sess world g country_key city_key count
  country city c' evs buildings :
  assoc_lookup (str_lower country_key) COUNTRIES = Some country ->
  assoc_lookup (str_lower city_key) (cities country) = Some city ->
  get_residential_buildings py_repr sess (client g) city (count * 2)
  = (c', evs, Ok buildings) ->
  Permutation (shuffle buildings) buildings ->
  Z.of_nat (length buildings) <= count ->
  disk_faults_caught world ->
  map call_data
    (generate_houses py_repr str_lower shuffle sess world g country_key
       city_key count).1.2
  = match buildings with [] => [] | _ => shuffle buildings end
  /\ exists b,
       (generate_houses py_repr str_lower shuffle sess world g country_key
          city_key count).2 = Ok b.
Proof.
  intros Hcountry Hcity Hget Hperm Hroom Hworld.
  unfold generate_houses. rewrite Hcountry, Hcity, Hget.
  destruct buildings as [|b0 buildings]; [split; [done|by eexists]|].
  assert (forall b, In b (shuffle (b0 :: buildings)) ->
            exists a, dict_lookup "address" b = Some (PStr a)
                      /\ a <> EmptyString) as Haddr.
  { intros b Hb. apply (Permutation_in _ Hperm) in Hb.
    revert Hget. unfold get_residential_buildings.
    destruct (_make_request _ _ _ _ _ _) as [[c1 evs1] [data|e]]; [|done].
    intros [= _ _ Hparse].
    apply parse_response_items in Hparse as [items Hitems].
    rewrite Hitems in Hb.
    apply list_elem_of_In, list_elem_of_omap in Hb as (element & _ & Hb).
    by eapply building_of_address. }
  destruct (store_loop_offers_all py_repr world (country_name country)
              (name city) count (shuffle (b0 :: buildings)) Hworld Haddr
              0%nat 0 (houses_manager g))
    as (hm' & calls & n & -> & Hdata).
  { rewrite (Permutation_length Hperm). lia. }
  cbn [fst snd mbind result_bind]. split; [done|by eexists].
Qed.

Lemma every_building_found_is_offered_witness :
  map call_data
    (generate_houses sample_repr id id berlin_service calm
       {| client := new_client; houses_manager := fresh |}
       "germany" "berlin" 5).1.2
  = match omap building_of [berlin_node; berlin_no_street; berlin_way] with
    | [] => []
    | _ => id (omap building_of [berlin_node; berlin_no_street; berlin_way])
    end
  /\ exists b,
       (generate_houses sample_repr id id berlin_service calm
          {| client := new_client; houses_manager := fresh |}
          "germany" "berlin" 5).2 = Ok b.
Proof.
  eapply (every_building_found_is_offered sample_repr id id berlin_service calm
           {| client := new_client; houses_manager := fresh |}
           "germany" "berlin" 5 _ berlin
           {| request_count := 1; error_count := 0 |} [Sent 0]
           (omap building_of [berlin_node; berlin_no_street; berlin_way])).
  - reflexivity.
  - reflexivity.
  - reflexivity.
  - reflexivity.
  - simpl. lia.
  - intros i e. discriminate.
Defined.

(** ** The menu *)

Lemma In_insert_sorted x y l : In y (insert_sorted x l) <-> y = x \/ In y l.
Proof.
  induction l as [|z l IH]; simpl; [intuition|].
  destruct (String.leb x z); simpl; [intuition|]. rewrite IH. intuition.
Qed.

Lemma In_sorted y l : In y (sorted l) <-> In y l.
Proof.
  induction l as [|x l IH]; [done|]. simpl.
  rewrite In_insert_sorted, IH. intuition.
Qed.

Lemma assoc_lookup_In {A} k (d : list (string * A)) :
  In k (map fst d) -> is_Some (assoc_lookup k d).
Proof.
  induction d as [|[k' v] d IH]; [done|]. simpl.
  destruct (String.eqb k k') eqn:E; [by eexists|].
  intros [->|Hin]; [|by apply IH]. by rewrite String.eqb_refl in E.
Qed.

Lemma menu_choice_is_key {A} (d : list (string * A)) v :
  (0 <=? v - 1) && (v - 1 <? Z.of_nat (length (sorted (map fst d)))) = true ->
  is_Some (assoc_lookup (nth (Z.to_nat (v - 1)) (sorted (map fst d)) EmptyString) d).
Proof.
  intros [H0 H1]%andb_prop. apply assoc_lookup_In, In_sorted, nth_In. lia.
Qed.

Lemma read_count_range ops inputs : 1 <= read_count ops inputs <= 100.
Proof.
  unfold read_count. destruct inputs as [|line rest]; [lia|].
  destruct (if truthy (PStr (b_strip ops line))
            then b_int ops (b_strip ops line) else Ok 10) as [n|]; [|lia].
  destruct ((n <? 1) || (100 <? n)) eqn:E; [lia|].
  apply orb_false_elim in E as [? ?]. lia.
Qed.

Lemma selected_valid k :
  is_Some (assoc_lookup k COUNTRIES) -> valid_selection (Some k).
Proof.
  intros H. unfold valid_selection, selected.
  by destruct (truthy (PStr k)).
Qed.

Lemma menu_ok_stop {G} ops inputs (g : G) evs o :
  o <> Exited -> evs = [] \/ evs = [ShowStats] ->
  (length evs <= length inputs)%nat ->
  menu_ok ops inputs g (g, evs, o).
Proof.
  intros Ho Hevs Hlen. unfold menu_ok. cbn [fst snd]. split_and!; try done.
  intros k c cnt Hin. destruct Hevs as [-> | ->]; [done|].
  by destruct Hin as [|[]].
Qed.

Lemma menu_ok_skip {G} ops line inputs (g : G) res :
  menu_ok ops inputs g res -> menu_ok ops (line :: inputs) g res.
Proof.
  intros (H1 & H2 & H3 & H4). unfold menu_ok. split_and!; try done.
  - intros Ho. destruct (H2 Ho) as (l & Hl & Hw). exists l. split; [by right|done].
  - simpl. lia.
Qed.

Lemma menu_ok_stats {G} ops l1 l2 inputs (g g' : G) evs o :
  menu_ok ops inputs g (g', evs, o) ->
  menu_ok ops (l1 :: l2 :: inputs) g (g', ShowStats :: evs, o).
Proof.
  intros (H1 & H2 & H3 & H4). unfold menu_ok in *. cbn [fst snd] in *.
  split_and!.
  - intros k c cnt [|Hin]; [done|]. by apply H1.
  - intros Ho. destruct (H2 Ho) as (l & Hl & Hw). exists l.
    split; [by do 2 right|done].
  - intros Hno. apply H3. intros k c cnt Hin. apply (Hno k c cnt). by right.
  - simpl. lia.
Qed.

Lemma menu_ok_generate_last {G} ops inputs (g g1 : G) k c cnt o country :
  assoc_lookup k COUNTRIES = Some country ->
  is_Some (assoc_lookup c (cities country)) ->
  1 <= cnt <= 100 -> o <> Exited -> (1 <= length inputs)%nat ->
  menu_ok ops inputs g (g1, [Generate k c cnt], o).
Proof.
  intros Hk [city Hcity] Hcnt Ho Hlen. unfold menu_ok. cbn [fst snd].
  split_and!; try done.
  - intros k' c' cnt' [[= <- <- <-]|[]]. by exists country, city.
  - intros Hno. destruct (Hno k c cnt). by left.
Qed.

Lemma menu_ok_generate_more {G} ops l l1 l2 inputs (g g1 g' : G) k c cnt evs o
  country :
  assoc_lookup k COUNTRIES = Some country ->
  is_Some (assoc_lookup c (cities country)) ->
  1 <= cnt <= 100 ->
  menu_ok ops inputs g1 (g', evs, o) ->
  menu_ok ops (l :: l1 :: l2 :: inputs) g (g', Generate k c cnt :: evs, o).
Proof.
  intros Hk [city Hcity] Hcnt (H1 & H2 & H3 & H4).
  unfold menu_ok in *. cbn [fst snd] in *. split_and!.
  - intros k' c' cnt' [[= <- <- <-]|Hin]; [by exists country, city|].
    by apply H1.
  - intros Ho. destruct (H2 Ho) as (l' & Hl & Hw). exists l'.
    split; [by do 3 right|done].
  - intros Hno. destruct (Hno k c cnt). by left.
  - simpl in *. lia.
Qed.

(** What every run of the menu satisfies, by induction on the input still
    to be read. *)
Lemma run_spec {G} ops (generate : G -> string -> string -> Z -> G * result bool) n :
  forall inputs cc g,
  (length inputs <= n)%nat ->
  valid_selection cc ->
  menu_ok ops inputs g (run ops generate inputs cc g).
Proof.
  induction n as [|n IH]; intros inputs cc g Hlen Hvalid.
  { destruct inputs; [|simpl in Hlen; lia]. unfold valid_selection in Hvalid.
    cbn [run]. destruct (selected cc) as [k|].
    - destruct Hvalid as [country ->]. apply menu_ok_stop; auto.
    - apply menu_ok_stop; auto. }
  destruct inputs as [|line rest].
  { unfold valid_selection in Hvalid.
    cbn [run]. destruct (selected cc) as [k|].
    - destruct Hvalid as [country ->]. apply menu_ok_stop; auto.
    - apply menu_ok_stop; auto. }
  cbn [length] in Hlen.
  assert (Hrec : forall cc', valid_selection cc' ->
            menu_ok ops (line :: rest) g (run ops generate rest cc' g)).
  { intros cc' Hcc'. apply menu_ok_skip, IH; [lia|done]. }
  cbn [run]. pose proof Hvalid as Hvalid'. unfold valid_selection in Hvalid'.
  destruct (selected cc) as [k|] eqn:Hsel.
  - destruct Hvalid' as [country Hcountry]. rewrite Hcountry.
    destruct (existsb _ BACK_WORDS); [by apply Hrec|].
    destruct (b_isdigit ops _); [|by apply Hrec].
    destruct (b_int ops _) as [v|e]; [|apply menu_ok_stop; auto; simpl; lia].
    destruct ((0 <=? v - 1) && _) eqn:Hrange; [|by apply Hrec].
    apply menu_choice_is_key in Hrange.
    set (city_key := nth _ _ _) in *.
    set (count := read_count ops rest).
    destruct (generate g k city_key count) as [g1 [b|e]].
    + destruct rest as [|l1 [|l2 rest']].
      * eapply menu_ok_generate_last;
          first [done|apply read_count_range|simpl; lia].
      * eapply menu_ok_generate_last;
          first [done|apply read_count_range|simpl; lia].
      * destruct (run ops generate rest' cc g1) as [[g' evs] o] eqn:Erun.
        eapply menu_ok_generate_more;
          first [done|apply read_count_range|idtac].
        rewrite <-Erun. apply IH; [simpl in Hlen; lia|done].
    + eapply menu_ok_generate_last;
        first [done|apply read_count_range|simpl; lia].
  - destruct (existsb _ EXIT_WORDS) eqn:Hexit.
    { unfold menu_ok. cbn [fst snd]. split_and!; try done; [|simpl; lia].
      intros _. exists line. split; [by left|].
      apply existsb_exists in Hexit as (w & Hw & Heq).
      apply String.eqb_eq in Heq. by subst. }
    destruct (String.eqb _ "stats").
    { destruct rest as [|l2 rest'].
      - apply menu_ok_stop; auto; simpl; lia.
      - destruct (run ops generate rest' cc g) as [[g' evs] o] eqn:Erun.
        apply menu_ok_stats. rewrite <-Erun. apply IH; [simpl in Hlen; lia|done]. }
    destruct (b_isdigit ops _); [|by apply Hrec].
    destruct (b_int ops _) as [v|e]; [|apply menu_ok_stop; auto; simpl; lia].
    destruct ((0 <=? v - 1) && _) eqn:Hrange; [|by apply Hrec].
    apply Hrec, selected_valid. by apply menu_choice_is_key.
Qed.

(** X10. Whatever is typed, the menu asks the generator only for a country
    of [Config.COUNTRIES], one of the cities of that country, and a count
    from 1 to 100. *)
Theorem menu_requests_are_configured {G : Type} ops
  (generate : G -> string -> string -> Z -> G * result bool)
  inputs (g : G) k c cnt :
  In (Generate k c cnt) (run ops generate inputs None g).1.2 ->
  exists country city,
    assoc_lookup k COUNTRIES = Some country
    /\ assoc_lookup c (cities country) = Some city
    /\ 1 <= cnt <= 100.
Proof.
  intros Hin.
  destruct (run_spec ops generate (length inputs) inputs None g) as (H & _);
    [lia|done|].
  by apply (H k c cnt).
Qed.

Lemma menu_requests_are_configured_witness :
  exists country city,
    assoc_lookup "canada" COUNTRIES = Some country
    /\ assoc_lookup "montreal" (cities country) = Some city
    /\ 1 <= 5 <= 100.
Proof.
  apply (menu_requests_are_configured ascii_ops
           (fun (g : Z) _ _ n => (g + n, Ok true))
           ["3"; "1"; "5"; ""; "0"; "q"] 0 "canada" "montreal" 5).
  vm_compute. by left.
Defined.



(** X12. A session in which no generation was started hands back the
    generator it was given: the statistics page, the two menus and a wrong
    choice leave it as it was. *)
Theorem menu_without_generation_keeps_generator {G : Type} ops
  (generate : G -> string -> string -> Z -> G * result bool)
  inputs (g : G) :
  (forall k c cnt,
     ~ In (Generate k c cnt) (run ops generate inputs None g).1.2) ->
  (run ops generate inputs None g).1.1 = g.
Proof.
  intros Hno.
  destruct (run_spec ops generate (length inputs) inputs None g)
    as (_ & _ & H & _); [lia|done|].
  by apply H.
Qed.

Lemma menu_without_generation_keeps_generator_witness :
  (run ascii_ops (fun (g : Z) _ _ n => (g + n, Ok true))
     ["stats"; ""; "3"; "0"; "x"; "exit"] None 7).1.1 = 7.
Proof.
  apply (menu_without_generation_keeps_generator ascii_ops
           (fun (g : Z) _ _ n => (g + n, Ok true))
           ["stats"; ""; "3"; "0"; "x"; "exit"] 7).
  intros k c cnt. vm_compute. by intros [|[]].
Defined.
